(** * MOSDAC help bot: the knowledge-graph search engine and the query classifier

    A shallow embedding of
      - [src/nlp/query_processor.py]  (class [QueryProcessor])
      - [src/knowledge_graph/graph_manager.py]  (class [GraphManager])
      - [src/core/ai_help_bot.py]  (class [AIHelpBot])
      - [src/geospatial/spatial_processor.py]  (class [SpatialProcessor]:
        the parsing of a query and the suggestions)
      - [src/scrapers/mosdac_scraper.py]  (class [MOSDACScraper]: the
        classification of a URL)
    and the properties of the retrieval-and-classification core.

    Conventions of the embedding.
      - A Python [str] is a [string]; the characters are read as 7-bit ASCII:
        [lower], [\s], [\w] and IGNORECASE act on the ASCII letters, digits and
        blanks only.
      - A Python [float] is idealised: a real number ([R]) in the graph manager
        (where [sqrt] is needed), a rational ([Q]) in the classifier.  Rounding,
        infinities and NaN are not modelled.
      - A Python [dict] is an association list in insertion order.
      - A call that can raise returns a [result]; [try: ... except Exception]
        is [try_except]. *)

From Stdlib Require Import String Ascii List Bool Arith ZArith QArith Lia.
From Stdlib Require Import Reals Lra Psatz Permutation Sorted.
Import ListNotations.

Close Scope Q_scope.
Close Scope R_scope.
Open Scope nat_scope.

Set Implicit Arguments.

(* ================================================================== *)
(** * Python preliminaries *)
(* ================================================================== *)

Module Py.

(** Exceptions the embedded code can see. *)
Inductive exn : Type :=
| AttributeError (msg : string)
| ValueError (msg : string)
| TypeError (msg : string)
| OSError (msg : string)
| RuntimeError (msg : string).

(** Outcome of a call: a value, or a raised exception. *)
Inductive result (A : Type) : Type :=
| Ok (a : A)
| Raise (e : exn).
Arguments Ok {A} a.
Arguments Raise {A} e.

Definition bind {A B : Type} (m : result A) (f : A -> result B) : result B :=
  match m with
  | Ok a => f a
  | Raise e => Raise e
  end.

(** [try: body  except Exception as e: handler e] *)
Definition try_except {A : Type} (body : result A) (handler : exn -> result A)
  : result A :=
  match body with
  | Ok a => Ok a
  | Raise e => handler e
  end.

Definition raises {A : Type} (m : result A) : Prop := exists e, m = Raise e.

(** A dynamically typed argument: what a caller can pass where a [str] is
    expected. *)
Inductive pyval : Type :=
| PyStr (s : string)
| PyNone
| PyInt (z : Z).

(** ** Characters *)

Definition code (c : ascii) : nat := nat_of_ascii c.

Definition is_upper (c : ascii) : bool := (65 <=? code c) && (code c <=? 90).
Definition is_lower (c : ascii) : bool := (97 <=? code c) && (code c <=? 122).
Definition is_digit (c : ascii) : bool := (48 <=? code c) && (code c <=? 57).
Definition is_alpha (c : ascii) : bool := is_upper c || is_lower c.

(** [\s]: blank, [\t], [\n], [\v], [\f], [\r]. *)
Definition is_space (c : ascii) : bool :=
  (code c =? 32) || ((9 <=? code c) && (code c <=? 13)).

(** [\w]: a letter, a digit or the underscore. *)
Definition is_word (c : ascii) : bool :=
  is_alpha c || is_digit c || (code c =? 95).

Definition lower_char (c : ascii) : ascii :=
  if is_upper c then ascii_of_nat (code c + 32) else c.
Definition upper_char (c : ascii) : ascii :=
  if is_lower c then ascii_of_nat (code c - 32) else c.

(** ** Strings *)

(** [s.lower()] *)
Fixpoint lower (s : string) : string :=
  match s with
  | EmptyString => EmptyString
  | String c s' => String (lower_char c) (lower s')
  end.

(** [s.startswith(p)] *)
Fixpoint startswith (p s : string) : bool :=
  match p, s with
  | EmptyString, _ => true
  | String _ _, EmptyString => false
  | String a p', String b s' => Ascii.eqb a b && startswith p' s'
  end.

(** [needle in hay]: substring containment (the empty string is in every
    string). *)
Fixpoint contains (needle hay : string) : bool :=
  startswith needle hay ||
  match hay with
  | EmptyString => false
  | String _ hay' => contains needle hay'
  end.

(** [any(word in s for word in words)] *)
Definition any_in (words : list string) (s : string) : bool :=
  existsb (fun w => contains w s) words.

(** [re.sub(r'\s+', ' ', s)]: every maximal run of blanks becomes one space.
    [in_run] tells that the previous character was a blank. *)
Fixpoint collapse_ws (in_run : bool) (s : string) : string :=
  match s with
  | EmptyString => EmptyString
  | String c s' =>
      if is_space c
      then if in_run then collapse_ws true s'
           else String " "%char (collapse_ws true s')
      else String c (collapse_ws false s')
  end.

Fixpoint lstrip (s : string) : string :=
  match s with
  | EmptyString => EmptyString
  | String c s' => if is_space c then lstrip s' else s
  end.

Fixpoint all_space (s : string) : bool :=
  match s with
  | EmptyString => true
  | String c s' => is_space c && all_space s'
  end.

Fixpoint rstrip (s : string) : string :=
  match s with
  | EmptyString => EmptyString
  | String c s' => if all_space s then EmptyString else String c (rstrip s')
  end.

(** [s.strip()] *)
Definition strip (s : string) : string := rstrip (lstrip s).

(** [re.sub(r'[^\w\s\-\.]', ' ', s)] *)
Fixpoint sub_punct (s : string) : string :=
  match s with
  | EmptyString => EmptyString
  | String c s' =>
      String (if is_word c || is_space c || (code c =? 45) || (code c =? 46)
              then c else " "%char)
             (sub_punct s')
  end.

(** [s.split()]: the maximal runs of non-blank characters.  [cur] is the word
    being read, reversed. *)
Fixpoint split_ws (cur : list ascii) (s : string) : list string :=
  let flush (k : list string) :=
    match cur with
    | [] => k
    | _ => string_of_list_ascii (rev cur) :: k
    end in
  match s with
  | EmptyString => flush []
  | String c s' =>
      if is_space c then flush (split_ws [] s')
      else split_ws (c :: cur) s'
  end.

Definition split (s : string) : list string := split_ws [] s.

(** ** Ordered dictionaries *)

Section Dict.
Variables K V : Type.
Variable eqb : K -> K -> bool.

Definition dict := list (K * V).

(** [d.get(k)] *)
Fixpoint get (d : dict) (k : K) : option V :=
  match d with
  | [] => None
  | (k', v) :: d' => if eqb k k' then Some v else get d' k
  end.

(** [k in d] *)
Definition mem (d : dict) (k : K) : bool :=
  match get d k with Some _ => true | None => false end.

(** [d[k] = v]: an existing key keeps its place, a new key goes last. *)
Fixpoint setitem (d : dict) (k : K) (v : V) : dict :=
  match d with
  | [] => [(k, v)]
  | (k', v') :: d' =>
      if eqb k k' then (k', v) :: d' else (k', v') :: setitem d' k v
  end.

(** [d.update(other)] *)
Definition update (d other : dict) : dict :=
  fold_left (fun acc kv => setitem acc (fst kv) (snd kv)) other d.

Definition keys (d : dict) : list K := map fst d.
Definition values (d : dict) : list V := map snd d.
End Dict.

(** [xs[:limit]] for a Python [int] limit: a negative limit counts from the
    end. *)
Definition slice_to {A : Type} (xs : list A) (limit : Z) : list A :=
  if (limit <? 0)%Z
  then firstn (length xs - Z.to_nat (- limit)) xs
  else firstn (Z.to_nat limit) xs.

End Py.

(* ================================================================== *)
(** * Regular expressions: the part of Python's [re] the patterns use *)
(* ================================================================== *)

Module Re.
Import Py.

(** Patterns are compiled with [re.IGNORECASE]; a character set already
    holds both cases of its letters.  [Group] is the capturing group (every
    pattern of the processor has exactly one), [WordB] is [\b]. *)
Inductive regex : Type :=
| Eps
| Cls (p : ascii -> bool)
| Cat (r1 r2 : regex)
| Alt (r1 r2 : regex)
| Star (r : regex)
| Group (r : regex)
| WordB.

(** Position in the subject: [pw] tells whether the character before the
    position is a word character, [s] is what remains, [cap] the text of the
    group so far. *)
Definition cont (X : Type) : Type := bool -> list ascii -> list ascii -> option X.

Definition next_is_word (s : list ascii) : bool :=
  match s with
  | c :: _ => is_word c
  | [] => false
  end.

(** Backtracking matcher in continuation-passing style: alternatives are tried
    left to right, [Star] is greedy; the first success is the match, as in
    Python. *)
Fixpoint m {X : Type} (r : regex) (pw : bool) (s cap : list ascii) (k : cont X)
  {struct r} : option X :=
  match r with
  | Eps => k pw s cap
  | Cls p =>
      match s with
      | c :: s' => if p c then k (is_word c) s' cap else None
      | [] => None
      end
  | Cat r1 r2 => m r1 pw s cap (fun pw' s' cap' => m r2 pw' s' cap' k)
  | Alt r1 r2 =>
      match m r1 pw s cap k with
      | Some x => Some x
      | None => m r2 pw s cap k
      end
  | Star r1 =>
      (fix loop (n : nat) (pw0 : bool) (s0 cap0 : list ascii) : option X :=
         match n with
         | O => k pw0 s0 cap0
         | S n' =>
             match m r1 pw0 s0 cap0
                     (fun pw' s' cap' =>
                        if length s' <? length s0 then loop n' pw' s' cap'
                        else None) with
             | Some x => Some x
             | None => k pw0 s0 cap0
             end
         end) (length s) pw s cap
  | Group r1 =>
      m r1 pw s cap
        (fun pw' s' _ => k pw' s' (firstn (length s - length s') s))
  | WordB => if xorb pw (next_is_word s) then k pw s cap else None
  end.

(** One attempt at the current position: the group's text, whether the last
    character consumed is a word character, and the rest. *)
Definition match_here (r : regex) (pw : bool) (s : list ascii)
  : option (list ascii * bool * list ascii) :=
  m r pw s [] (fun pw' s' cap => Some (cap, pw', s')).

(** [re.findall]: leftmost matches, not overlapping, scanning left to right;
    with one group the result is the list of the group's texts. *)
Fixpoint findall_from (fuel : nat) (r : regex) (pw : bool) (s : list ascii)
  : list string :=
  match fuel with
  | O => []
  | S fuel' =>
      match match_here r pw s with
      | Some (cap, pw', s') =>
          string_of_list_ascii cap ::
          (if length s' <? length s then findall_from fuel' r pw' s'
           else match s with
                | [] => []
                | c :: s1 => findall_from fuel' r (is_word c) s1
                end)
      | None =>
          match s with
          | [] => []
          | c :: s1 => findall_from fuel' r (is_word c) s1
          end
      end
  end.

Definition findall (r : regex) (subject : string) : list string :=
  let s := list_ascii_of_string subject in
  findall_from (S (length s)) r false s.

(** ** Pattern combinators *)

Definition seq (rs : list regex) : regex := fold_right Cat Eps rs.

Fixpoint alts (rs : list regex) : regex :=
  match rs with
  | [] => Cls (fun _ => false)
  | [r] => r
  | r :: rs' => Alt r (alts rs')
  end.

Definition plus (r : regex) : regex := Cat r (Star r).
Definition opt (r : regex) : regex := Alt r Eps.

(** A literal character, case ignored. *)
Definition chr (c : ascii) : regex :=
  Cls (fun x => Ascii.eqb (lower_char x) (lower_char c)).

(** A literal word, case ignored. *)
Fixpoint lit (w : string) : regex :=
  match w with
  | EmptyString => Eps
  | String c w' => Cat (chr c) (lit w')
  end.

(** [(?:w1|w2|...)] *)
Definition words (ws : list string) : regex := alts (map lit ws).

Definition sp : regex := Cls is_space.          (* \s *)
Definition sp1 : regex := plus sp.              (* \s+ *)
Definition sp0 : regex := Star sp.              (* \s* *)

Definition is_hyphen (c : ascii) : bool := code c =? 45.
Definition is_dot (c : ascii) : bool := code c =? 46.

(** [[A-Z]] and [[a-z]]: with IGNORECASE either is any ASCII letter. *)
Definition AZ : regex := Cls is_alpha.
Definition az : regex := Cls is_alpha.
(** [[A-Z0-9\-]] *)
Definition AZ09h : regex := Cls (fun c => is_alpha c || is_digit c || is_hyphen c).
(** [[A-Za-z0-9\s\-]] *)
Definition alnum_sp_h : regex :=
  Cls (fun c => is_alpha c || is_digit c || is_space c || is_hyphen c).
(** [[A-Za-z0-9]] *)
Definition alnum : regex := Cls (fun c => is_alpha c || is_digit c).
(** [[0-9\.]] *)
Definition digit_dot : regex := Cls (fun c => is_digit c || is_dot c).

End Re.

(* ================================================================== *)
(** * [src/nlp/query_processor.py] *)
(* ================================================================== *)

Module QueryProcessor.
Import Py Re.
Local Open Scope string_scope.

(** [class QueryIntent(Enum)] *)
Inductive QueryIntent : Type :=
| INFORMATION_RETRIEVAL
| DATA_DOWNLOAD
| TECHNICAL_SUPPORT
| GEOSPATIAL_QUERY
| API_HELP
| GENERAL_QUESTION
| UNKNOWN.

(** [class QueryEntity(Enum)] *)
Inductive QueryEntity : Type :=
| LOCATION
| SATELLITE
| SENSOR
| DATA_TYPE
| TIME_PERIOD
| RESOLUTION
| FILE_FORMAT
| API_ENDPOINT.

Definition intent_eqb (a b : QueryIntent) : bool :=
  match a, b with
  | INFORMATION_RETRIEVAL, INFORMATION_RETRIEVAL
  | DATA_DOWNLOAD, DATA_DOWNLOAD
  | TECHNICAL_SUPPORT, TECHNICAL_SUPPORT
  | GEOSPATIAL_QUERY, GEOSPATIAL_QUERY
  | API_HELP, API_HELP
  | GENERAL_QUESTION, GENERAL_QUESTION
  | UNKNOWN, UNKNOWN => true
  | _, _ => false
  end.

Definition entity_eqb (a b : QueryEntity) : bool :=
  match a, b with
  | LOCATION, LOCATION
  | SATELLITE, SATELLITE
  | SENSOR, SENSOR
  | DATA_TYPE, DATA_TYPE
  | TIME_PERIOD, TIME_PERIOD
  | RESOLUTION, RESOLUTION
  | FILE_FORMAT, FILE_FORMAT
  | API_ENDPOINT, API_ENDPOINT => true
  | _, _ => false
  end.

(** [Dict[QueryEntity, List[str]]] *)
Definition Entities : Type := dict QueryEntity (list string).

(** [@dataclass class QueryAnalysis] *)
Record QueryAnalysis : Type := {
  intent : QueryIntent;
  entities : Entities;
  confidence : Q;
  keywords : list string;
  original_query : pyval;
  processed_query : pyval
}.

(** What the spaCy pipeline hands back for a text: the named entities
    ([ent.label_], [ent.text]), the noun chunks ([chunk.text]) and the tokens. *)
Record Token : Type := {
  pos_ : string;
  is_stop : bool;
  text : string;
  lemma_ : string
}.

Record Doc : Type := {
  ents : list (string * string);
  noun_chunks : list string;
  tokens : list Token
}.

(** The processor: [self.nlp] is the loaded spaCy model or [None]; calling it
    may raise. *)
Record t : Type := {
  nlp : option (string -> result Doc)
}.

(** ** [_init_patterns] *)

(** [[A-Z][a-z]+(?:\s+[A-Z][a-z]+)*] *)
Definition cap_words : regex :=
  seq [AZ; plus az; Star (seq [sp1; AZ; plus az])].

(** [[0-9\.]+\s*(?:m|km|meters?|kilometers?)] *)
Definition length_unit : regex :=
  seq [plus digit_dot; sp0;
       alts [lit "m"; lit "km"; Cat (lit "meter") (opt (chr "s"));
             Cat (lit "kilometer") (opt (chr "s"))]].

Definition location_patterns : list regex := [
  seq [WordB; words ["in"; "at"; "near"; "around"; "within"]; sp1;
       Group cap_words];
  seq [WordB; Group cap_words; sp1;
       words ["region"; "area"; "zone"; "city"; "state"]];
  seq [WordB;
       alts [lit "latitude"; lit "longitude";
             Cat (lit "coordinate") (opt (chr "s"))];
       sp1; words ["of"; "for"]; sp1; Group cap_words]
].

Definition satellite_patterns : list regex := [
  seq [WordB; words ["satellite"; "mission"]; sp1;
       words ["data"; "imagery"; "information"]; sp1;
       words ["from"; "of"]; sp1; Group (plus AZ09h)];
  seq [WordB; Group (plus AZ09h); sp1;
       words ["satellite"; "mission"; "data"]];
  seq [WordB; words ["data"; "imagery"]; sp1; words ["from"; "of"]; sp1;
       Group (plus AZ09h)]
].

Definition sensor_patterns : list regex := [
  seq [WordB; words ["sensor"; "instrument"]; sp1;
       words ["data"; "information"]; sp1; words ["from"; "of"]; sp1;
       Group (plus AZ09h)];
  seq [WordB; Group (plus AZ09h); sp1; words ["sensor"; "instrument"]];
  seq [WordB; words ["data"; "information"]; sp1; words ["from"; "of"]; sp1;
       Group (plus AZ09h); sp1; words ["sensor"; "instrument"]]
].

Definition data_type_patterns : list regex := [
  seq [WordB; words ["data"; "product"; "information"]; sp1;
       words ["type"; "format"]; sp1; words ["of"; "for"]; sp1;
       Group (plus alnum_sp_h)];
  seq [WordB; Group (plus alnum_sp_h); sp1;
       words ["data"; "product"; "information"]];
  seq [WordB;
       alts [lit "satellite"; seq [lit "remote"; sp1; lit "sensing"]];
       sp1; Group (plus alnum_sp_h)]
].

Definition time_patterns : list regex := [
  seq [WordB; words ["data"; "information"; "imagery"]; sp1;
       words ["from"; "for"; "between"]; sp1; Group (plus alnum_sp_h)];
  seq [WordB; words ["temporal"; "time"]; sp1;
       words ["coverage"; "resolution"; "period"]; sp1;
       words ["of"; "for"]; sp1; Group (plus alnum_sp_h)];
  seq [WordB; words ["historical"; "recent"; "latest"; "archived"]; sp1;
       Group (plus alnum_sp_h)]
].

Definition resolution_patterns : list regex := [
  seq [WordB; words ["spatial"; "ground"]; sp1; lit "resolution"; sp1;
       words ["of"; "for"]; sp1; Group length_unit];
  seq [WordB; Group length_unit; sp1;
       alts [lit "resolution"; seq [lit "pixel"; sp1; lit "size"]]];
  seq [WordB; words ["high"; "low"; "medium"]; sp1; lit "resolution"; sp1;
       Group (plus alnum_sp_h)]
].

Definition file_format_patterns : list regex := [
  seq [WordB; words ["file"; "data"]; sp1; lit "format"; sp1;
       words ["of"; "for"]; sp1; Group (plus alnum)];
  seq [WordB; Group (plus alnum); sp1; words ["file"; "data"]; sp1;
       lit "format"];
  seq [WordB; words ["download"; "export"]; sp1; words ["as"; "in"]; sp1;
       Group (plus alnum)]
].

Definition api_patterns : list regex := [
  seq [WordB; words ["API"; "endpoint"; "service"]; sp1;
       words ["for"; "to"; "of"]; sp1; Group (plus alnum_sp_h)];
  seq [WordB;
       alts [seq [lit "how"; sp1; lit "to"];
             seq [lit "how"; sp1; lit "do"; sp1; lit "I"]];
       sp1; words ["use"; "access"; "call"]; sp1;
       Group (plus alnum_sp_h); sp1; words ["API"; "service"]];
  seq [WordB; words ["API"; "service"]; sp1;
       words ["documentation"; "help"; "example"]; sp1;
       words ["for"; "of"]; sp1; Group (plus alnum_sp_h)]
].

(** The pattern tables in the order [_extract_with_patterns] visits them. *)
Definition pattern_table : list (QueryEntity * list regex) := [
  (LOCATION, location_patterns);
  (SATELLITE, satellite_patterns);
  (SENSOR, sensor_patterns);
  (DATA_TYPE, data_type_patterns);
  (TIME_PERIOD, time_patterns);
  (RESOLUTION, resolution_patterns);
  (FILE_FORMAT, file_format_patterns);
  (API_ENDPOINT, api_patterns)
].

(** ** The processor's methods *)

Section Methods.

(** [list(set(xs))]: the elements of [xs] without duplicates, in the iteration
    order of the set, which Python does not specify for strings. *)
Variable list_of_set : list string -> list string.

Variable self : t.

(** The [extend] loop over one kind's patterns. *)
Definition candidates (patterns : list regex) (query : string) : list string :=
  flat_map (fun pattern => findall pattern query) patterns.

(** One block of [_extract_with_patterns]: a kind without a candidate gets no
    key. *)
Definition pattern_step (query : string) (entities : Entities)
  (kp : QueryEntity * list regex) : Entities :=
  match candidates (snd kp) query with
  | [] => entities
  | found => setitem entity_eqb entities (fst kp) (list_of_set found)
  end.

(** [_extract_with_patterns]: the eight blocks of the source, one per kind, in
    the source's order. *)
Definition _extract_with_patterns (query : string) : Entities :=
  fold_left (pattern_step query) pattern_table [].

(** [if kind not in entities: entities[kind] = []] then
    [entities[kind].append(s)] *)
Definition append_entity (entities : Entities) (kind : QueryEntity) (s : string)
  : Entities :=
  match get entity_eqb entities kind with
  | None => setitem entity_eqb entities kind [s]
  | Some l => setitem entity_eqb entities kind (l ++ [s])%list
  end.

Definition ent_step (entities : Entities) (ent : string * string) : Entities :=
  let (label_, ent_text) := ent in
  if label_ =? "GPE" then append_entity entities LOCATION ent_text
  else if label_ =? "ORG" then append_entity entities SATELLITE ent_text
  else if label_ =? "PRODUCT" then append_entity entities DATA_TYPE ent_text
  else entities.

Definition chunk_step (entities : Entities) (chunk : string) : Entities :=
  let chunk_lower := lower chunk in
  if any_in ["satellite"; "mission"; "data"] chunk_lower
  then append_entity entities SATELLITE chunk
  else if any_in ["sensor"; "instrument"] chunk_lower
  then append_entity entities SENSOR chunk
  else entities.

(** [_extract_with_spacy]: the whole body is inside [try]; when the pipeline
    raises, the (still empty) dictionary is returned. *)
Definition _extract_with_spacy (model : string -> result Doc) (query : string)
  : Entities :=
  match model query with
  | Raise _ => []
  | Ok doc =>
      let entities := fold_left ent_step (ents doc) [] in
      fold_left chunk_step (noun_chunks doc) entities
  end.

(** [_extract_entities] *)
Definition _extract_entities (query : string) : Entities :=
  let entities := update entity_eqb [] (_extract_with_patterns query) in
  match nlp self with
  | Some model => update entity_eqb entities (_extract_with_spacy model query)
  | None => entities
  end.

(** The keyword table of [_classify_intent], in declaration order. *)
Definition intent_keywords : dict QueryIntent (list string) := [
  (INFORMATION_RETRIEVAL,
   ["what"; "how"; "where"; "when"; "which"; "tell me"; "explain";
    "information"; "details"; "about"; "describe"]);
  (DATA_DOWNLOAD,
   ["download"; "get"; "obtain"; "access"; "retrieve"; "fetch";
    "data"; "file"; "product"; "imagery"]);
  (TECHNICAL_SUPPORT,
   ["help"; "support"; "problem"; "issue"; "error"; "trouble";
    "fix"; "resolve"; "work"; "function"]);
  (GEOSPATIAL_QUERY,
   ["location"; "area"; "region"; "coordinates"; "latitude"; "longitude";
    "spatial"; "geographic"; "map"; "boundary"]);
  (API_HELP,
   ["api"; "endpoint"; "service"; "call"; "request"; "response";
    "code"; "example"; "documentation"; "integration"])
].

(** The inner loop: one point per keyword that is a substring of the query. *)
Definition keyword_score (kws : list string) (query : string) : nat :=
  fold_left (fun score keyword =>
               if contains keyword query then score + 1 else score) kws 0.

(** [scores[intent] += n] *)
Definition bump (scores : dict QueryIntent nat) (i : QueryIntent) (n : nat)
  : dict QueryIntent nat :=
  match get intent_eqb scores i with
  | Some v => setitem intent_eqb scores i (v + n)
  | None => scores
  end.

Definition intent_scores (query : string) (entities : Entities)
  : dict QueryIntent nat :=
  let scores :=
    fold_left (fun scores ik =>
                 setitem intent_eqb scores (fst ik) (keyword_score (snd ik) query))
              intent_keywords [] in
  let scores := if mem entity_eqb entities LOCATION
                then bump scores GEOSPATIAL_QUERY 2 else scores in
  let scores := if mem entity_eqb entities API_ENDPOINT
                then bump scores API_HELP 2 else scores in
  if mem entity_eqb entities FILE_FORMAT
  then bump scores DATA_DOWNLOAD 1 else scores.

(** [max(scores.values())] *)
Definition max_value (scores : dict QueryIntent nat) : nat :=
  fold_left Nat.max (values scores) 0.

(** [max(scores, key=scores.get)]: the first key whose value is maximal. *)
Fixpoint max_key (best : QueryIntent) (best_v : nat)
  (rest : dict QueryIntent nat) : QueryIntent :=
  match rest with
  | [] => best
  | (k, v) :: rest' =>
      if (best_v <? v)%nat then max_key k v rest' else max_key best best_v rest'
  end.

(** [sum(len(keywords) for keywords in intent_keywords.values())] *)
Definition total_possible : nat :=
  fold_left (fun acc kws => acc + length kws) (values intent_keywords) 0.

Definition nat_ratio (a b : nat) : Q :=
  (inject_Z (Z.of_nat a) / inject_Z (Z.of_nat b))%Q.

(** [min(x, 1.0)] *)
Definition min_one (x : Q) : Q := if Qle_bool x 1 then x else 1%Q.

(** [_classify_intent] *)
Definition _classify_intent (query : string) (entities : Entities)
  : QueryIntent * Q :=
  let scores := intent_scores query entities in
  match scores with
  | [] => (GENERAL_QUESTION, (1 # 2)%Q)
  | (k0, v0) :: rest =>
      if (max_value scores =? 0)%nat then (GENERAL_QUESTION, (1 # 2)%Q)
      else
        let best_intent := max_key k0 v0 rest in
        let max_score := max_value scores in
        (best_intent, min_one (nat_ratio max_score total_possible))
  end.

(** The fallback of [_extract_keywords]:
    [[word for word in query.split() if len(word) > 3]] *)
Definition long_words (query : string) : list string :=
  filter (fun word => (3 <? String.length word)%nat) (split query).

Definition keep_token (tk : Token) : bool :=
  (pos_ tk =? "NOUN") || (pos_ tk =? "VERB") || (pos_ tk =? "ADJ").

(** [_extract_keywords] *)
Definition _extract_keywords (query : string) : list string :=
  match nlp self with
  | None => long_words query
  | Some model =>
      match model query with
      | Raise _ => long_words query
      | Ok doc =>
          let from_tokens :=
            map (fun tk => lower (lemma_ tk))
                (filter (fun tk => keep_token tk && negb (is_stop tk)
                                   && (2 <? String.length (text tk))%nat)
                        (tokens doc)) in
          let from_ents := map (fun e => lower (snd e)) (ents doc) in
          list_of_set (from_tokens ++ from_ents)%list
      end
  end.

(** [_preprocess_query]; [query.lower()] raises on anything but a [str]. *)
Definition _preprocess_query (query : pyval) : result string :=
  match query with
  | PyStr q =>
      let q := lower q in
      let q := strip (collapse_ws false q) in
      let q := sub_punct q in
      Ok (strip (collapse_ws false q))
  | _ => Raise (AttributeError "object has no attribute 'lower'")
  end.

(** The [try] block of [process_query]. *)
Definition process_query_body (query : pyval) : result QueryAnalysis :=
  bind (_preprocess_query query) (fun processed =>
  let entities := _extract_entities processed in
  let (intent, confidence) := _classify_intent processed entities in
  let keywords := _extract_keywords processed in
  Ok {| intent := intent;
        entities := entities;
        confidence := confidence;
        keywords := keywords;
        original_query := query;
        processed_query := PyStr processed |}).

(** The [except Exception] block of [process_query]. *)
Definition process_query_handler (query : pyval) (e : exn) : result QueryAnalysis :=
  Ok {| intent := UNKNOWN;
        entities := [];
        confidence := 0%Q;
        keywords := [];
        original_query := query;
        processed_query := query |}.

(** [process_query] *)
Definition process_query (query : pyval) : result QueryAnalysis :=
  try_except (process_query_body query) (process_query_handler query).

End Methods.

(** ** Notions the properties are stated with *)

(** [list(set(xs))] is some listing of the distinct elements of [xs]. *)
Definition set_listing (f : list string -> list string) : Prop :=
  forall xs, NoDup (f xs) /\ forall x, In x (f xs) <-> In x xs.

(** One admissible listing: by first occurrence. *)
Definition first_occurrence (xs : list string) : list string :=
  rev (nodup string_dec (rev xs)).

(** Another one: by last occurrence. *)
Definition last_occurrence (xs : list string) : list string :=
  nodup string_dec xs.

(** The five intents of the keyword table, in declaration order. *)
Definition five_intents : list QueryIntent :=
  [INFORMATION_RETRIEVAL; DATA_DOWNLOAD; TECHNICAL_SUPPORT; GEOSPATIAL_QUERY;
   API_HELP].

(** Place of an intent in the declaration order of the table. *)
Definition table_rank (i : QueryIntent) : nat :=
  match i with
  | INFORMATION_RETRIEVAL => 0
  | DATA_DOWNLOAD => 1
  | TECHNICAL_SUPPORT => 2
  | GEOSPATIAL_QUERY => 3
  | API_HELP => 4
  | GENERAL_QUESTION => 5
  | UNKNOWN => 6
  end.

Definition keywords_of (i : QueryIntent) : list string :=
  match get intent_eqb intent_keywords i with
  | Some kws => kws
  | None => []
  end.

(** The number of trigger keywords of [i] contained in the query. *)
Definition keyword_count (i : QueryIntent) (query : string) : nat :=
  length (filter (fun kw => contains kw query) (keywords_of i)).

(** The entity bonuses. *)
Definition entity_bonus (i : QueryIntent) (entities : Entities) : nat :=
  match i with
  | GEOSPATIAL_QUERY => if mem entity_eqb entities LOCATION then 2 else 0
  | API_HELP => if mem entity_eqb entities API_ENDPOINT then 2 else 0
  | DATA_DOWNLOAD => if mem entity_eqb entities FILE_FORMAT then 1 else 0
  | _ => 0
  end.

Definition intent_score (i : QueryIntent) (query : string) (entities : Entities)
  : nat :=
  keyword_count i query + entity_bonus i entities.

(** The sum of the sizes of the keyword tables of all intents. *)
Definition table_size : nat :=
  list_sum (map (fun i => length (keywords_of i)) five_intents).

(** The patterns of a kind. *)
Definition patterns_of (kind : QueryEntity) : list regex :=
  match get entity_eqb pattern_table kind with
  | Some ps => ps
  | None => []
  end.

(** The dictionary of the tagger source; empty without a tagger. *)
Definition tagger_entities (self : t) (query : string) : Entities :=
  match nlp self with
  | Some model => _extract_with_spacy model query
  | None => []
  end.

(** The candidates the tagger contributes to a kind, in extraction order. *)
Definition tagger_candidates (self : t) (query : string) (kind : QueryEntity)
  : list string :=
  match get entity_eqb (tagger_entities self query) kind with
  | Some l => l
  | None => []
  end.

(** Entity extraction as the specification words it: per kind, the pattern
    candidates followed by the tagger candidates, duplicates removed, in
    order of first occurrence. *)
Definition merged_by_first_occurrence (self : t) (query : string)
  (kind : QueryEntity) : list string :=
  first_occurrence
    (candidates (patterns_of kind) query ++ tagger_candidates self query kind)%list.

(** The tagger finds nothing in the empty text. *)
Definition quiet_on_empty (self : t) : Prop :=
  forall model doc,
    nlp self = Some model -> model "" = Ok doc ->
    ents doc = [] /\ noun_chunks doc = [].

(** ** Sample processors *)

Definition no_tagger : t := {| nlp := None |}.

(** A tagger that labels every occurrence of the word [india] a geo-political
    entity. *)
Definition india_doc (query : string) : Doc :=
  {| ents := map (fun _ => ("GPE", "india"))
                 (filter (String.eqb "india") (split query));
     noun_chunks := [];
     tokens := [] |}.

Definition india_tagger : t := {| nlp := Some (fun query => Ok (india_doc query)) |}.

(** A tagger that labels the word [delhi] a geo-political entity. *)
Definition delhi_doc (query : string) : Doc :=
  {| ents := if contains "delhi" query then [("GPE", "delhi")] else [];
     noun_chunks := [];
     tokens := [] |}.

Definition delhi_tagger : t := {| nlp := Some (fun query => Ok (delhi_doc query)) |}.

(** ** Suggestions and query enhancement *)

(** The table of [get_query_suggestions]. *)
Definition common_queries : list string := [
  "What satellite data is available for my region?";
  "How do I download satellite imagery?";
  "What is the spatial resolution of the data?";
  "How do I use the MOSDAC API?";
  "What sensors are available?";
  "How do I access historical data?";
  "What file formats are supported?";
  "How do I get technical support?"
].

(** [any(word in query_lower for word in suggestion.lower().split())] *)
Definition suggestion_matches (query_lower suggestion : string) : bool :=
  existsb (fun word => contains word query_lower) (split (lower suggestion)).

(** [suggestion in suggestions] *)
Definition listed (suggestions : list string) (suggestion : string) : bool :=
  existsb (String.eqb suggestion) suggestions.

(** The [for] loop with its [break]: the first entry of the table that is not
    yet a suggestion is appended. *)
Definition add_first_missing (suggestions : list string) : list string :=
  match find (fun suggestion => negb (listed suggestions suggestion))
             common_queries with
  | Some suggestion => (suggestions ++ [suggestion])%list
  | None => suggestions
  end.

(** The [while] loop; [None] when the fuel runs out before the loop ends. *)
Fixpoint fill_suggestions (fuel : nat) (limit : Z) (suggestions : list string)
  : option (list string) :=
  if (Z.of_nat (length suggestions) <? limit)%Z
     && (length suggestions <? length common_queries)%nat
  then match fuel with
       | 0 => None
       | S fuel' => fill_suggestions fuel' limit (add_first_missing suggestions)
       end
  else Some suggestions.

(** [get_query_suggestions] *)
Definition get_query_suggestions (fuel : nat) (query : string) (limit : Z)
  : option (list string) :=
  let query_lower := lower query in
  let suggestions := filter (suggestion_matches query_lower) common_queries in
  match fill_suggestions fuel limit suggestions with
  | Some suggestions => Some (slice_to suggestions limit)
  | None => None
  end.

(** The words one of which [enhance_query] wants in the query. *)
Definition context_words : list string :=
  ["satellite"; "data"; "imagery"; "remote sensing"].

(** [enhance_query] *)
Definition enhance_query (query : string) : string :=
  let query :=
    if negb (contains "mosdac" (lower query))
    then "MOSDAC: " ++ query else query in
  if negb (any_in context_words (lower query))
  then query ++ " satellite data" else query.

(** ** The normal form of a preprocessed query *)

(** Every blank of [s] is a single space character; [after_space] tells that
    the character before [s] is a blank. *)
Fixpoint single_spaced (after_space : bool) (s : string) : bool :=
  match s with
  | EmptyString => true
  | String c s' =>
      if is_space c
      then Ascii.eqb c " "%char && negb after_space && single_spaced true s'
      else single_spaced false s'
  end.

(** The characters [[\w\s\-\.]] that [_preprocess_query] keeps. *)
Definition kept_char (c : ascii) : bool :=
  is_word c || is_space c || Nat.eqb (code c) 45 || Nat.eqb (code c) 46.

Fixpoint all_chars (p : ascii -> bool) (s : string) : bool :=
  match s with
  | EmptyString => true
  | String c s' => p c && all_chars p s'
  end.

End QueryProcessor.

(* ================================================================== *)
(** * [src/knowledge_graph/graph_manager.py] *)
(* ================================================================== *)

Module GraphManager.
Import Py.
Local Open Scope string_scope.

(** ** The local graph: [nx.MultiDiGraph] *)

(** A node key is a [str(uuid.uuid4())] or, on the Neo4j path, the integer
    identity of the Neo4j node.  The [n]-th UUID drawn is [Uuid n]: UUIDs are
    modelled as never repeating. *)
Inductive NodeId : Type :=
| Uuid (n : nat)
| Neo (identity : Z).

Definition NodeId_eqb (a b : NodeId) : bool :=
  match a, b with
  | Uuid n, Uuid m => Nat.eqb n m
  | Neo x, Neo y => Z.eqb x y
  | _, _ => false
  end.

(** An attribute value. *)
Inductive attr : Type :=
| AStr (s : string)
| ANone
| AVec (v : list R)
| ADict (d : dict string string).

(** [node_data] and [edge_data]: [str] keys to values. *)
Definition attrs : Type := dict string attr.

Record MultiDiGraph : Type := {
  nodes : dict NodeId attrs;
  edges : list (NodeId * NodeId * attrs)
}.

Definition empty_graph : MultiDiGraph := {| nodes := []; edges := [] |}.

(** [G.add_node(n, **attr)]: a new key goes last with its attributes, an
    existing node has its attributes updated. *)
Definition add_node (g : MultiDiGraph) (n : NodeId) (a : attrs) : MultiDiGraph :=
  let old := match get NodeId_eqb (nodes g) n with
             | Some d => d
             | None => []
             end in
  {| nodes := setitem NodeId_eqb (nodes g) n (update String.eqb old a);
     edges := edges g |}.

(** [G.add_edge(u, v, **attr)]: missing end points are added, and the edge is
    always a new one (parallel edges are kept). *)
Definition add_edge (g : MultiDiGraph) (u v : NodeId) (a : attrs) : MultiDiGraph :=
  let g := if mem NodeId_eqb (nodes g) u then g else add_node g u [] in
  let g := if mem NodeId_eqb (nodes g) v then g else add_node g v [] in
  {| nodes := nodes g; edges := (edges g ++ [(u, v, a)])%list |}.

(** ** The ingestion record *)

Record Faq : Type := {
  question : option string;
  answer : option string;
  source_url : option string
}.

Record DownloadLink : Type := {
  link_url : option string;
  link_text : option string;
  file_type : option string
}.

Record DataInfo : Type := {
  specifications : option attr
}.

Record ApiInfo : Type := {
  documentation : option string;
  code_examples : option string
}.

(** [content_data]; a field is [None] when the key is missing. *)
Record ContentData : Type := {
  url : option string;
  content_type : option string;
  metadata : option (dict string string);
  text_content : option string;
  faqs : option (list Faq);
  data_info : option DataInfo;
  download_links : option (list DownloadLink);
  api_info : option ApiInfo
}.

(** [d.get(key, default)] *)
Definition getd {A : Type} (o : option A) (default : A) : A :=
  match o with
  | Some a => a
  | None => default
  end.

(** ** The manager *)

(** [self.graph] is the Neo4j connection or [None]; [self.embedding_model] is
    the sentence encoder or [None], and [encode] may raise; [uuid_next] is the
    number of UUIDs drawn so far. *)
Record t : Type := {
  graph : bool;
  nx_graph : MultiDiGraph;
  embedding_model : option (string -> result (list R));
  uuid_next : nat
}.

(** [__init__]: both external resources may be missing. *)
Definition init (neo4j : bool) (model : option (string -> result (list R))) : t :=
  {| graph := neo4j; nx_graph := empty_graph; embedding_model := model;
     uuid_next := 0 |}.

Definition with_graph (self : t) (g : MultiDiGraph) : t :=
  {| graph := graph self; nx_graph := g;
     embedding_model := embedding_model self; uuid_next := uuid_next self |}.

(** [str(uuid.uuid4())] *)
Definition uuid4 (self : t)   : NodeId * t :=
  (Uuid (uuid_next self),
   {| graph := graph self; nx_graph := nx_graph self;
      embedding_model := embedding_model self;
      uuid_next := S (uuid_next self) |}).

(** [_get_embedding] *)
Definition _get_embedding (self : t) (text : string) : attr :=
  match embedding_model self with
  | None => ANone
  | Some model =>
      if text =? "" then ANone
      else match model text with
           | Ok embedding => AVec embedding
           | Raise _ => ANone
           end
  end.

(** The keyword arguments of the two [add_node] calls of
    [_process_faq_content]. *)
Definition question_attrs (self : t) (faq : Faq) : attrs :=
  [("type", AStr "question");
   ("text", AStr (getd (question faq) ""));
   ("source_url", AStr (getd (source_url faq) ""));
   ("embedding", _get_embedding self (getd (question faq) ""))].

Definition answer_attrs (self : t) (faq : Faq) : attrs :=
  [("type", AStr "answer");
   ("text", AStr (getd (answer faq) ""));
   ("source_url", AStr (getd (source_url faq) ""));
   ("embedding", _get_embedding self (getd (answer faq) ""))].

(** One turn of the loop of [_process_faq_content]. *)
Definition faq_step (content_node_id : NodeId) (self : t) (faq : Faq) : t :=
  let (question_id, self) := uuid4 self in
  let (answer_id, self) := uuid4 self in
  let g := nx_graph self in
  let g := add_node g question_id (question_attrs self faq) in
  let g := add_node g answer_id (answer_attrs self faq) in
  let g := add_edge g content_node_id question_id [("type", AStr "contains")] in
  let g := add_edge g question_id answer_id [("type", AStr "has_answer")] in
  with_graph self g.

(** [_process_faq_content] *)
Definition _process_faq_content (self : t) (content_node_id : NodeId)
  (content_data : ContentData) : t :=
  fold_left (faq_step content_node_id) (getd (faqs content_data) []) self.

(** The block the four other derivations share: a fresh key, the node, the
    edge from the content node. *)
Definition derive (content_node_id : NodeId) (self : t) (a : attrs)
  (relation : string) : t :=
  let (id, self) := uuid4 self in
  let g := add_node (nx_graph self) id a in
  let g := add_edge g content_node_id id [("type", AStr relation)] in
  with_graph self g.

Definition link_attrs (link : DownloadLink) : attrs :=
  [("type", AStr "download_link");
   ("url", AStr (getd (link_url link) ""));
   ("text", AStr (getd (link_text link) ""));
   ("file_type", AStr (getd (file_type link) ""))].

Definition link_step (content_node_id : NodeId) (self : t) (link : DownloadLink)
  : t :=
  derive content_node_id self (link_attrs link) "has_download".

(** [_process_data_content] *)
Definition _process_data_content (self : t) (content_node_id : NodeId)
  (content_data : ContentData) : t :=
  let self :=
    match data_info content_data with
    | Some {| specifications := Some spec |} =>
        derive content_node_id self
               [("type", AStr "specifications"); ("data", spec)]
               "has_specifications"
    | _ => self
    end in
  fold_left (link_step content_node_id) (getd (download_links content_data) [])
            self.

(** [_process_api_content] *)
Definition _process_api_content (self : t) (content_node_id : NodeId)
  (content_data : ContentData) : t :=
  let api := getd (api_info content_data)
                  {| documentation := None; code_examples := None |} in
  let self :=
    match documentation api with
    | Some doc =>
        derive content_node_id self
               [("type", AStr "api_documentation"); ("text", AStr doc)]
               "has_documentation"
    | None => self
    end in
  match code_examples api with
  | Some code =>
      derive content_node_id self
             [("type", AStr "code_example"); ("code", AStr code)]
             "has_example"
  | None => self
  end.

(** [not node_id]: [None] and the integer 0 are falsy. *)
Definition falsy_id (node_id : option NodeId) : bool :=
  match node_id with
  | None => true
  | Some (Neo z) => Z.eqb z 0
  | Some (Uuid _) => false
  end.

(** The keyword arguments of the [add_node] call of [_add_to_local_graph]. *)
Definition content_attrs (content_data : ContentData) : attrs :=
  [("type", AStr "content");
   ("url", AStr (getd (url content_data) ""));
   ("content_type", AStr (getd (content_type content_data) "unknown"));
   ("title",
    AStr (getd (get String.eqb (getd (metadata content_data) []) "title") ""));
   ("text_content", AStr (getd (text_content content_data) ""));
   ("metadata", ADict (getd (metadata content_data) []))].

(** [_add_to_local_graph] *)
Definition _add_to_local_graph (self : t) (content_data : ContentData)
  (node_id : option NodeId) : NodeId * t :=
  let (node_id, self) :=
    match node_id with
    | Some id => if falsy_id node_id then uuid4 self else (id, self)
    | None => uuid4 self
    end in
  let g := add_node (nx_graph self) node_id (content_attrs content_data) in
  let self := with_graph self g in
  let self :=
    match content_type content_data with
    | Some ct =>
        if ct =? "faq" then _process_faq_content self node_id content_data
        else if ct =? "data" then _process_data_content self node_id content_data
        else if ct =? "api" then _process_api_content self node_id content_data
        else self
    | None => self
    end in
  (node_id, self).

(** What the Neo4j transaction of one [add_content] call does: the node is
    created and gets an identity, or something in the [try] block raises. *)
Inductive neo_outcome : Type :=
| NeoCreated (identity : Z)
| NeoFailed (e : exn).

(** What [add_content] returns: the key of the local node, or
    [str(content_node.identity)]. *)
Inductive returned_id : Type :=
| LocalId (id : NodeId)
| NeoIdStr (identity : Z).

(** [add_content] *)
Definition add_content (self : t) (neo : neo_outcome) (content_data : ContentData)
  : returned_id * t :=
  let local (node_id : option NodeId) :=
    let (id, self') := _add_to_local_graph self content_data node_id in
    (LocalId id, self') in
  if negb (graph self) then local None
  else match neo with
       | NeoCreated identity =>
           let (_, self') :=
             _add_to_local_graph self content_data (Some (Neo identity)) in
           (NeoIdStr identity, self')
       | NeoFailed _ => local None
       end.

(** [clear_graph] *)
Definition clear_graph (self : t) : t := with_graph self empty_graph.

(** ** Search *)

(** One entry of a result list:
    [{'node_id': ..., 'similarity': ..., 'data': node_data}] *)
Record SearchHit : Type := {
  node_id : NodeId;
  similarity : R;
  data : attrs
}.

(** [results.sort(key=..., reverse=True)]: Python's sort is stable, also with
    [reverse=True]: entries with equal keys keep their order.  A stable sort
    has one possible outcome, given here by insertion. *)
Section Sort.
Variable A : Type.
Variable key : A -> R.

Fixpoint insert_desc (x : A) (l : list A) : list A :=
  match l with
  | [] => [x]
  | y :: l' =>
      if Rlt_dec (key x) (key y) then y :: insert_desc x l'
      else x :: y :: l'
  end.

Definition sort_desc (l : list A) : list A := fold_right insert_desc [] l.
End Sort.

(** [np.dot(a, b)] on two vectors; different lengths raise. *)
Fixpoint dot_aligned (a b : list R) : R :=
  match a, b with
  | x :: a', y :: b' => (x * y + dot_aligned a' b')%R
  | _, _ => 0%R
  end.

Definition np_dot (a b : list R) : result R :=
  if Nat.eqb (length a) (length b) then Ok (dot_aligned a b)
  else Raise (ValueError "shapes not aligned").

(** [np.linalg.norm(v)] *)
Definition np_norm (v : list R) : R := sqrt (dot_aligned v v).

(** [np.array(vec2)] followed by the numeric use of the array: anything but a
    list of numbers makes the [try] block raise. *)
Definition np_array (vec2 : attr) : result (list R) :=
  match vec2 with
  | AVec v => Ok v
  | _ => Raise (TypeError "not a numeric vector")
  end.

(** The [try] block of [_cosine_similarity]. *)
Definition cosine_body (vec1 : list R) (vec2 : attr) : result R :=
  bind (np_array vec2) (fun vec2_array =>
  bind (np_dot vec1 vec2_array) (fun dot_product =>
  let norm1 := np_norm vec1 in
  let norm2 := np_norm vec2_array in
  if Req_dec_T norm1 0 then Ok 0%R
  else if Req_dec_T norm2 0 then Ok 0%R
  else Ok (dot_product / (norm1 * norm2))%R)).

(** [_cosine_similarity] *)
Definition _cosine_similarity (vec1 : list R) (vec2 : attr) : R :=
  match cosine_body vec1 vec2 with
  | Ok x => x
  | Raise _ => 0%R
  end.

(** Truth value of an attribute. *)
Definition truthy (a : attr) : bool :=
  match a with
  | AStr s => negb (s =? "")
  | ANone => false
  | AVec v => match v with [] => false | _ => true end
  | ADict d => match d with [] => false | _ => true end
  end.

(** [node_data[key].lower()] *)
Definition attr_lower (a : attr) : result string :=
  match a with
  | AStr s => Ok (lower s)
  | _ => Raise (AttributeError "object has no attribute 'lower'")
  end.

(** [key in node_data and query_lower in node_data[key].lower()] *)
Definition field_matches (node_data : attrs) (key : string) (query_lower : string)
  : result bool :=
  match get String.eqb node_data key with
  | None => Ok false
  | Some a => bind (attr_lower a) (fun s => Ok (contains query_lower s))
  end.

(** The score one node gets in [_text_search]. *)
Definition text_score (node_data : attrs) (query_lower : string) : result nat :=
  bind (field_matches node_data "title" query_lower) (fun in_title =>
  let score := if in_title then 0 + 2 else 0 in
  bind (field_matches node_data "text_content" query_lower) (fun in_text =>
  Ok (if in_text then score + 1 else score))).

(** The loop of [_text_search]: the results so far, in node order. *)
Fixpoint text_hits (ns : dict NodeId attrs) (query_lower : string)
  : result (list SearchHit) :=
  match ns with
  | [] => Ok []
  | (id, node_data) :: ns' =>
      bind (text_score node_data query_lower) (fun score =>
      bind (text_hits ns' query_lower) (fun later =>
      Ok (if Nat.ltb 0 score
          then {| node_id := id; similarity := (INR score / 3)%R;
                  data := node_data |} :: later
          else later)))
  end.

(** [_text_search] *)
Definition _text_search (self : t) (query : string) (limit : Z)
  : result (list SearchHit) :=
  let query_lower := lower query in
  bind (text_hits (nodes (nx_graph self)) query_lower) (fun results =>
  Ok (slice_to (sort_desc similarity results) limit)).

(** The relevance threshold of [search_content]. *)
Definition threshold : R := (3 / 10)%R.

(** The loop of [search_content]. *)
Definition embedding_hits (ns : dict NodeId attrs) (query_embedding : list R)
  : list SearchHit :=
  flat_map
    (fun nd : NodeId * attrs =>
       let (id, node_data) := nd in
       match get String.eqb node_data "embedding" with
       | Some e =>
           if truthy e then
             let sim := _cosine_similarity query_embedding e in
             if Rgt_dec sim threshold
             then [{| node_id := id; similarity := sim; data := node_data |}]
             else []
           else []
       | None => []
       end)
    ns.

(** [search_content] *)
Definition search_content (self : t) (query : string) (limit : Z)
  : result (list SearchHit) :=
  match embedding_model self with
  | None => _text_search self query limit
  | Some model =>
      try_except
        (bind (model query) (fun query_embedding =>
         let results := embedding_hits (nodes (nx_graph self)) query_embedding in
         Ok (slice_to (sort_desc similarity results) limit)))
        (fun _ => _text_search self query limit)
  end.

(** ** Export *)

(** A value of a flat JSON record: a node key or an attribute. *)
Inductive jfield : Type :=
| JId (id : NodeId)
| JAttr (a : attr).

Definition flat_record : Type := dict string jfield.

(** [graph_data = {'nodes': [...], 'edges': [...]}] *)
Record GraphData : Type := {
  json_nodes : list flat_record;
  json_edges : list flat_record
}.

Definition as_fields (d : attrs) : flat_record :=
  map (fun kv => (fst kv, JAttr (snd kv))) d.

(** [{'id': node_id, **node_data}] *)
Definition node_record (nd : NodeId * attrs) : flat_record :=
  update String.eqb [("id", JId (fst nd))] (as_fields (snd nd)).

(** [{'source': source, 'target': target, **edge_data}] *)
Definition edge_record (e : NodeId * NodeId * attrs) : flat_record :=
  let '(source, target, edge_data) := e in
  update String.eqb [("source", JId source); ("target", JId target)]
         (as_fields edge_data).

Fixpoint distinct_ids (seen : list NodeId) (ids : list NodeId) : list NodeId :=
  match ids with
  | [] => []
  | id :: ids' =>
      if existsb (NodeId_eqb id) seen then distinct_ids seen ids'
      else id :: distinct_ids (id :: seen) ids'
  end.

(** [G.edges(data=True)]: networkx walks the adjacency, source by source in
    node order, then target by target, then the parallel edges. *)
Definition edges_view (g : MultiDiGraph) : list (NodeId * NodeId * attrs) :=
  flat_map
    (fun u =>
       let out := filter (fun e => NodeId_eqb (fst (fst e)) u) (edges g) in
       flat_map
         (fun v => filter (fun e => NodeId_eqb (snd (fst e)) v) out)
         (distinct_ids [] (map (fun e => snd (fst e)) out)))
    (keys (nodes g)).

Definition json_graph_data (g : MultiDiGraph) : GraphData :=
  {| json_nodes := map node_record (nodes g);
     json_edges := map edge_record (edges_view g) |}.

(** What is handed to a writer. *)
Inductive payload : Type :=
| JsonPayload (d : GraphData)
| GmlPayload (g : MultiDiGraph)
| GraphmlPayload (g : MultiDiGraph).

(** The part of the world [export_graph] acts on: the files and the log. *)
Record World : Type := {
  files : dict string string;
  log : list (string * string)
}.

Definition add_log (w : World) (level msg : string) : World :=
  {| files := files w; log := (log w ++ [(level, msg)])%list |}.

Definition exn_message (e : exn) : string :=
  match e with
  | AttributeError m | ValueError m | TypeError m | OSError m
  | RuntimeError m => m
  end.

Section ExportGraph.

(** The library writers ([open] with [json.dump], [nx.write_gml],
    [nx.write_graphml]): from the files, the path and the payload, to the
    files afterwards and the exception raised, if any. *)
Variable io_write :
  dict string string -> string -> payload -> dict string string * option exn.

(** The [try] block of [export_graph]. *)
Definition export_try (self : t) (w : World) (filepath format : string)
  : World * option exn :=
  let write (p : payload) :=
    let (fs, err) := io_write (files w) filepath p in
    ({| files := fs; log := log w |}, err) in
  if format =? "json" then write (JsonPayload (json_graph_data (nx_graph self)))
  else if format =? "gml" then write (GmlPayload (nx_graph self))
  else if format =? "graphml" then write (GraphmlPayload (nx_graph self))
  else (w, Some (ValueError ("Unsupported format: " ++ format))).

(** [export_graph]: the [except Exception] block logs and falls through, so
    the call returns [None] on every path. *)
Definition export_graph (self : t) (w : World) (filepath format : string)
  : result unit * World :=
  match export_try self w filepath format with
  | (w', None) => (Ok tt, add_log w' "INFO" ("Exported graph to " ++ filepath))
  | (w', Some e) =>
      (Ok tt, add_log w' "ERROR" ("Error exporting graph: " ++ exn_message e))
  end.

End ExportGraph.

(** ** Reachable states and what is counted *)

(** The states a manager goes through: constructed, then any sequence of
    [add_content] and [clear_graph] calls. *)
Inductive reachable : t -> Prop :=
| reach_init : forall neo4j model, reachable (init neo4j model)
| reach_add : forall self neo content_data,
    reachable self -> reachable (snd (add_content self neo content_data))
| reach_clear : forall self, reachable self -> reachable (clear_graph self).

(** [node_data.get('type') == ty] *)
Definition has_type (ty : string) (d : attrs) : bool :=
  match get String.eqb d "type" with
  | Some (AStr s) => s =? ty
  | _ => false
  end.

(** The entry of [ty] in the node histogram of [get_graph_stats]. *)
Definition count_nodes (ty : string) (g : MultiDiGraph) : nat :=
  length (filter (fun nd => has_type ty (snd nd)) (nodes g)).

(** The entry of [ty] in the edge histogram of [get_graph_stats]. *)
Definition count_edges (ty : string) (g : MultiDiGraph) : nat :=
  length (filter (fun e => has_type ty (snd e)) (edges g)).

(** The edges of kind [ty] from [u] to [v]. *)
Definition edges_between (ty : string) (u v : NodeId) (g : MultiDiGraph) : nat :=
  length (filter (fun e => NodeId_eqb (fst (fst e)) u
                           && NodeId_eqb (snd (fst e)) v
                           && has_type ty (snd e)) (edges g)).

(** [s] is [l] with some elements left out. *)
Inductive subseq {A : Type} : list A -> list A -> Prop :=
| sub_nil : forall l, subseq [] l
| sub_skip : forall s x l, subseq s l -> subseq s (x :: l)
| sub_take : forall s x l, subseq s l -> subseq (x :: s) (x :: l).

(** [a] is rightly placed before [b]: it has the higher key, or the same key
    and precedes it. *)
Definition ranked_before {A : Type} (key : A -> R) (prec : A -> A -> Prop)
  (a b : A) : Prop :=
  (key b < key a)%R \/ (key a = key b /\ prec a b).

(** [a] is before [b] in [l]. *)
Definition before {A : Type} (l : list A) (a b : A) : Prop :=
  exists l1 l2 l3, l = (l1 ++ a :: l2 ++ b :: l3)%list.

(** Node [a] was inserted into the graph before node [b]. *)
Definition inserted_before (g : MultiDiGraph) (a b : NodeId) : Prop :=
  before (keys (nodes g)) a b.

(** ** Shapes of the nodes ingestion creates *)

Definition is_str (o : option attr) : Prop := exists s, o = Some (AStr s).

(** A content node: typed [content], with a title and a raw text, both
    strings, and no embedding. *)
Definition content_shaped (d : attrs) : Prop :=
  has_type "content" d = true /\
  get String.eqb d "embedding" = None /\
  is_str (get String.eqb d "title") /\
  is_str (get String.eqb d "text_content").

(** A derived node: neither title nor raw text, and an embedding only on a
    question or an answer. *)
Definition derived_shaped (d : attrs) : Prop :=
  get String.eqb d "title" = None /\
  get String.eqb d "text_content" = None /\
  has_type "content" d = false /\
  (forall e, get String.eqb d "embedding" = Some e -> truthy e = true ->
             has_type "question" d || has_type "answer" d = true).

(** A Neo4j identity keys a content node only; the UUIDs in use are below the
    next one to be drawn. *)
Definition node_ok (bound : nat) (nd : NodeId * attrs) : Prop :=
  match fst nd with
  | Neo _ => content_shaped (snd nd)
  | Uuid n => n < bound /\ (content_shaped (snd nd) \/ derived_shaped (snd nd))
  end.

Definition wf_nodes (bound : nat) (ns : dict NodeId attrs) : Prop :=
  NoDup (keys ns) /\ Forall (node_ok bound) ns.

Definition well_formed (self : t) : Prop :=
  wf_nodes (uuid_next self) (nodes (nx_graph self)).

(** The nodes and edges a list of pairs gives rise to, the first UUID drawn
    being [Uuid u]. *)
Fixpoint faq_nodes (self : t) (u : nat) (fs : list Faq) : dict NodeId attrs :=
  match fs with
  | [] => []
  | faq :: fs' =>
      (Uuid u, question_attrs self faq) ::
      (Uuid (S u), answer_attrs self faq) :: faq_nodes self (S (S u)) fs'
  end.

Fixpoint faq_edges (content_node_id : NodeId) (u : nat) (fs : list Faq)
  : list (NodeId * NodeId * attrs) :=
  match fs with
  | [] => []
  | _ :: fs' =>
      (content_node_id, Uuid u, [("type", AStr "contains")]) ::
      (Uuid u, Uuid (S u), [("type", AStr "has_answer")]) ::
      faq_edges content_node_id (S (S u)) fs'
  end.

(** The key [_add_to_local_graph] gives the content node. *)
Definition content_key (self : t) (given : option NodeId) : NodeId :=
  match given with
  | Some id => if falsy_id given then Uuid (uuid_next self) else id
  | None => Uuid (uuid_next self)
  end.

(** The key [add_content] passes down. *)
Definition given_key (self : t) (neo : neo_outcome) : option NodeId :=
  if negb (graph self) then None
  else match neo with
       | NeoCreated identity => Some (Neo identity)
       | NeoFailed _ => None
       end.

(** The state after a call keeps the content node and stays well formed. *)
Definition kept (content_node_id : NodeId) (self self' : t) : Prop :=
  well_formed self' /\
  mem NodeId_eqb (nodes (nx_graph self')) content_node_id = true /\
  embedding_model self' = embedding_model self /\
  graph self' = graph self /\
  uuid_next self <= uuid_next self'.

(** The state of [_add_to_local_graph] once the content node is added. *)
Definition content_added (self : t) (content_data : ContentData)
  (given : option NodeId) : t :=
  let self1 :=
    match given with
    | Some id => if falsy_id given then snd (uuid4 self) else self
    | None => snd (uuid4 self)
    end in
  with_graph self1
    (add_node (nx_graph self1) (content_key self given)
              (content_attrs content_data)).

(** The keys [add_content] passes down: no UUID of the caller's choosing. *)
Definition neo_or_none (given : option NodeId) : Prop :=
  match given with
  | Some (Uuid _) => False
  | _ => True
  end.

(** ** Lexical scoring, in words *)

(** The specification's wording: the lower-cased query is looked for in the
    attribute as stored. *)
Definition in_field_as_stored (node_data : attrs) (key query : string) : bool :=
  match get String.eqb node_data key with
  | Some (AStr s) => contains (lower query) s
  | _ => false
  end.

Definition points_as_stored (node_data : attrs) (query : string) : nat :=
  (if in_field_as_stored node_data "title" query then 2 else 0) +
  (if in_field_as_stored node_data "text_content" query then 1 else 0).

(** What the code does: the attribute is lower-cased as well. *)
Definition in_field_lowered (node_data : attrs) (key query : string) : bool :=
  match get String.eqb node_data key with
  | Some (AStr s) => contains (lower query) (lower s)
  | _ => false
  end.

Definition lexical_points (node_data : attrs) (query : string) : nat :=
  (if in_field_lowered node_data "title" query then 2 else 0) +
  (if in_field_lowered node_data "text_content" query then 1 else 0).

Definition lexical_hit (query : string) (nd : NodeId * attrs) : SearchHit :=
  {| node_id := fst nd;
     similarity := (INR (lexical_points (snd nd) query) / 3)%R;
     data := snd nd |}.

(** The title and the raw text of a node, when present, are strings. *)
Definition text_fields_ok (nd : NodeId * attrs) : Prop :=
  (forall a, get String.eqb (snd nd) "title" = Some a -> exists s, a = AStr s) /\
  (forall a, get String.eqb (snd nd) "text_content" = Some a ->
             exists s, a = AStr s).


(** The representation that goes with a format, if the format is known. *)
Definition payload_for (format : string) (g : MultiDiGraph) : option payload :=
  if format =? "json" then Some (JsonPayload (json_graph_data g))
  else if format =? "gml" then Some (GmlPayload g)
  else if format =? "graphml" then Some (GraphmlPayload g)
  else None.

(** ** Sample data *)

Definition sample_faqs : list Faq := [
  {| question := Some "What is MOSDAC?";
     answer := Some "A data centre for satellite data.";
     source_url := Some "https://mosdac.gov.in/faq" |};
  {| question := Some "How do I register?";
     answer := None;
     source_url := None |}
].

Definition faq_page : ContentData :=
  {| url := Some "https://mosdac.gov.in/faq";
     content_type := Some "faq";
     metadata := Some [("title", "Frequently Asked Questions")];
     text_content := Some "What is MOSDAC? How do I register?";
     faqs := Some sample_faqs;
     data_info := None;
     download_links := None;
     api_info := None |}.

Definition ocean_page : ContentData :=
  {| url := Some "https://mosdac.gov.in/ocean";
     content_type := Some "general";
     metadata := Some [("title", "Ocean State Forecast")];
     text_content := Some "Forecast of the ocean state.";
     faqs := None;
     data_info := None;
     download_links := None;
     api_info := None |}.

Definition wave_page : ContentData :=
  {| url := Some "https://mosdac.gov.in/wave";
     content_type := Some "general";
     metadata := Some [("title", "Wave height over the ocean")];
     text_content := Some "Significant wave height.";
     faqs := None;
     data_info := None;
     download_links := None;
     api_info := None |}.

(** An encoder that maps every text to the vector [(1, 0)], one that maps
    every text to the zero vector. *)
Definition unit_model (text : string) : result (list R) := Ok [1%R; 0%R].
Definition zero_model (text : string) : result (list R) := Ok [0%R; 0%R].

(** A manager without Neo4j and without encoder, holding two pages. *)
Definition two_pages : t :=
  let s0 := init false None in
  let s1 := snd (add_content s0 (NeoFailed (OSError "no database")) ocean_page) in
  snd (add_content s1 (NeoFailed (OSError "no database")) wave_page).

(** A manager whose encoder returns the zero vector, holding the FAQ page and
    the ocean page. *)
Definition zero_encoded : t :=
  let s0 := init false (Some zero_model) in
  let s1 := snd (add_content s0 (NeoFailed (OSError "no database")) faq_page) in
  snd (add_content s1 (NeoFailed (OSError "no database")) ocean_page).

(** A manager with Neo4j and the unit encoder, holding the FAQ page. *)
Definition unit_encoded : t :=
  snd (add_content (init true (Some unit_model)) (NeoCreated 7) faq_page).

(** A file system on which every write succeeds and stores a fixed text per
    format. *)
Definition sample_io (fs : dict string string) (path : string) (p : payload)
  : dict string string * option exn :=
  (setitem String.eqb fs path
           match p with
           | JsonPayload _ => "json"
           | GmlPayload _ => "gml"
           | GraphmlPayload _ => "graphml"
           end, None).

Definition empty_world : World := {| files := []; log := [] |}.

(** ** Related content *)

(** The edges out of [u], in insertion order. *)
Definition out_edges (g : MultiDiGraph) (u : NodeId)
  : list (NodeId * NodeId * attrs) :=
  filter (fun e => NodeId_eqb (fst (fst e)) u) (edges g).

(** The edges into [v], in insertion order. *)
Definition in_edges (g : MultiDiGraph) (v : NodeId)
  : list (NodeId * NodeId * attrs) :=
  filter (fun e => NodeId_eqb (snd (fst e)) v) (edges g).

(** [G.neighbors(n)]: the successors of [n], each once, in the order of their
    first edge. *)
Definition neighbors (g : MultiDiGraph) (u : NodeId) : list NodeId :=
  distinct_ids [] (map (fun e => snd (fst e)) (out_edges g u)).

(** [G.get_edge_data(u, v).values()]: the attributes of the parallel edges from
    [u] to [v], in key order. *)
Definition get_edge_data (g : MultiDiGraph) (u v : NodeId) : list attrs :=
  map snd (filter (fun e => NodeId_eqb (snd (fst e)) v) (out_edges g u)).

(** [G.nodes[n]] *)
Definition node_attrs (g : MultiDiGraph) (n : NodeId) : attrs :=
  getd (get NodeId_eqb (nodes g) n) [].

(** One entry of [get_related_content]:
    [{'node_id': ..., 'relationship': ..., 'data': ...}] *)
Record Related : Type := {
  related_id : NodeId;
  relationship : attr;
  related_data : attrs
}.

(** [get_related_content]; an empty [relationship_type] is falsy, like
    [None]. *)
Definition get_related_content (self : t) (node_id : NodeId)
  (relationship_type : option string) : list Related :=
  let g := nx_graph self in
  if negb (mem NodeId_eqb (nodes g) node_id) then []
  else
    let all_neighbors :=
      flat_map
        (fun neighbor =>
           map (fun edge_attrs =>
                  {| related_id := neighbor;
                     relationship :=
                       getd (get String.eqb edge_attrs "type") (AStr "unknown");
                     related_data := node_attrs g neighbor |})
               (get_edge_data g node_id neighbor))
        (neighbors g node_id) in
    match relationship_type with
    | None => all_neighbors
    | Some ty =>
        if ty =? "" then all_neighbors
        else
          flat_map
            (fun neighbor =>
               if existsb (has_type ty) (get_edge_data g node_id neighbor)
               then [{| related_id := neighbor;
                        relationship := AStr ty;
                        related_data := node_attrs g neighbor |}]
               else [])
            (neighbors g node_id)
    end.

(** ** Statistics *)

(** A value that can key a dictionary: a string or [None]. *)
Inductive label : Type :=
| LStr (s : string)
| LNone.

Definition label_eqb (a b : label) : bool :=
  match a, b with
  | LStr x, LStr y => x =? y
  | LNone, LNone => true
  | _, _ => false
  end.

(** [data.get('type', 'unknown')] used as a key: a list or a dictionary is
    unhashable. *)
Definition type_label (d : attrs) : result label :=
  match getd (get String.eqb d "type") (AStr "unknown") with
  | AStr s => Ok (LStr s)
  | ANone => Ok LNone
  | _ => Raise (TypeError "unhashable type")
  end.

(** [hist[l] = hist.get(l, 0) + 1] *)
Definition count_label (hist : dict label nat) (l : label) : dict label nat :=
  setitem label_eqb hist l (getd (get label_eqb hist l) 0 + 1).

(** The two counting loops of [get_graph_stats]. *)
Fixpoint histogram (ds : list attrs) (hist : dict label nat)
  : result (dict label nat) :=
  match ds with
  | [] => Ok hist
  | d :: ds' => bind (type_label d) (fun l => histogram ds' (count_label hist l))
  end.

Record Stats : Type := {
  total_nodes : nat;
  total_edges : nat;
  node_types : dict label nat;
  edge_types : dict label nat
}.

(** [get_graph_stats]; a graph without nodes is falsy and gives [{}], here
    [None]. *)
Definition get_graph_stats (self : t) : result (option Stats) :=
  let g := nx_graph self in
  match nodes g with
  | [] => Ok None
  | _ =>
      bind (histogram (values (nodes g)) []) (fun nt =>
      bind (histogram (map snd (edges_view g)) []) (fun et =>
      Ok (Some {| total_nodes := length (nodes g);
                  total_edges := length (edges g);
                  node_types := nt;
                  edge_types := et |})))
  end.

(** ** The schema of the graph *)

Definition kind_of (d : attrs) : option string :=
  match get String.eqb d "type" with
  | Some (AStr s) => Some s
  | _ => None
  end.

Definition node_kind (g : MultiDiGraph) (id : NodeId) : option string :=
  match get NodeId_eqb (nodes g) id with
  | Some d => kind_of d
  | None => None
  end.

Definition node_kinds : list string :=
  ["content"; "question"; "answer"; "specifications"; "download_link";
   "api_documentation"; "code_example"].

(** Which relation joins which kinds. *)
Definition relation_ok (rel src tgt : string) : bool :=
  ((rel =? "contains") && (src =? "content") && (tgt =? "question")) ||
  ((rel =? "has_answer") && (src =? "question") && (tgt =? "answer")) ||
  ((rel =? "has_specifications") && (src =? "content")
     && (tgt =? "specifications")) ||
  ((rel =? "has_download") && (src =? "content") && (tgt =? "download_link")) ||
  ((rel =? "has_documentation") && (src =? "content")
     && (tgt =? "api_documentation")) ||
  ((rel =? "has_example") && (src =? "content") && (tgt =? "code_example")).

(** An edge carries its relation only and joins two nodes of the graph of
    the kinds the relation asks for. *)
Definition edge_ok (g : MultiDiGraph) (e : NodeId * NodeId * attrs) : Prop :=
  exists rel ks kt,
    snd e = [("type", AStr rel)] /\
    node_kind g (fst (fst e)) = Some ks /\
    node_kind g (snd (fst e)) = Some kt /\
    relation_ok rel ks kt = true.

Definition schema_ok (g : MultiDiGraph) : Prop :=
  (forall id d, In (id, d) (nodes g) ->
                exists k, kind_of d = Some k /\ In k node_kinds) /\
  Forall (edge_ok g) (edges g) /\
  (forall q, node_kind g q = Some "question" -> length (out_edges g q) = 1) /\
  (forall v k, node_kind g v = Some k -> k <> "content" ->
               length (in_edges g v) = 1).

(** What a call keeps, schema included. *)
Definition schema_kept (content_node_id : NodeId) (self self' : t) : Prop :=
  kept content_node_id self self' /\
  schema_ok (nx_graph self') /\
  node_kind (nx_graph self') content_node_id = Some "content".

(** The nodes and edges a list of download links gives rise to. *)
Fixpoint link_nodes (u : nat) (ls : list DownloadLink) : dict NodeId attrs :=
  match ls with
  | [] => []
  | link :: ls' => (Uuid u, link_attrs link) :: link_nodes (S u) ls'
  end.

Fixpoint link_edges (content_node_id : NodeId) (u : nat)
  (ls : list DownloadLink) : list (NodeId * NodeId * attrs) :=
  match ls with
  | [] => []
  | _ :: ls' =>
      (content_node_id, Uuid u, [("type", AStr "has_download")]) ::
      link_edges content_node_id (S u) ls'
  end.

(** The node and the edge a product specification gives rise to. *)
Definition spec_nodes (u : nat) (content_data : ContentData)
  : dict NodeId attrs :=
  match data_info content_data with
  | Some {| specifications := Some spec |} =>
      [(Uuid u, [("type", AStr "specifications"); ("data", spec)])]
  | _ => []
  end.

Definition spec_edges (content_node_id : NodeId) (u : nat)
  (content_data : ContentData) : list (NodeId * NodeId * attrs) :=
  match data_info content_data with
  | Some {| specifications := Some _ |} =>
      [(content_node_id, Uuid u, [("type", AStr "has_specifications")])]
  | _ => []
  end.

(** [content_data.get('api_info', {})] *)
Definition api_of (content_data : ContentData) : ApiInfo :=
  getd (api_info content_data)
       {| documentation := None; code_examples := None |}.

(** The nodes and edges an API description gives rise to. *)
Definition doc_nodes (u : nat) (content_data : ContentData)
  : dict NodeId attrs :=
  match documentation (api_of content_data) with
  | Some doc => [(Uuid u, [("type", AStr "api_documentation"); ("text", AStr doc)])]
  | None => []
  end.

Definition doc_edges (content_node_id : NodeId) (u : nat)
  (content_data : ContentData) : list (NodeId * NodeId * attrs) :=
  match documentation (api_of content_data) with
  | Some _ => [(content_node_id, Uuid u, [("type", AStr "has_documentation")])]
  | None => []
  end.

Definition code_nodes (u : nat) (content_data : ContentData)
  : dict NodeId attrs :=
  match code_examples (api_of content_data) with
  | Some code => [(Uuid u, [("type", AStr "code_example"); ("code", AStr code)])]
  | None => []
  end.

Definition code_edges (content_node_id : NodeId) (u : nat)
  (content_data : ContentData) : list (NodeId * NodeId * attrs) :=
  match code_examples (api_of content_data) with
  | Some _ => [(content_node_id, Uuid u, [("type", AStr "has_example")])]
  | None => []
  end.

(** The attributes of a node are those of one of the seven [add_node] calls
    of ingestion. *)
Inductive node_form : attrs -> Prop :=
| form_content : forall content_data, node_form (content_attrs content_data)
| form_question : forall self faq, node_form (question_attrs self faq)
| form_answer : forall self faq, node_form (answer_attrs self faq)
| form_specifications : forall spec,
    node_form [("type", AStr "specifications"); ("data", spec)]
| form_download_link : forall link, node_form (link_attrs link)
| form_api_documentation : forall doc,
    node_form [("type", AStr "api_documentation"); ("text", AStr doc)]
| form_code_example : forall code,
    node_form [("type", AStr "code_example"); ("code", AStr code)].


(** The entry of [get_related_content] an edge gives rise to. *)
Definition related_of_edge (g : MultiDiGraph) (e : NodeId * NodeId * attrs)
  : Related :=
  {| related_id := snd (fst e);
     relationship := getd (get String.eqb (snd e) "type") (AStr "unknown");
     related_data := node_attrs g (snd (fst e)) |}.

(** More sample data: a product page and an API page. *)
Definition sample_links : list DownloadLink := [
  {| link_url := Some "https://mosdac.gov.in/data/sst.nc";
     link_text := Some "Sea surface temperature";
     file_type := Some "nc" |};
  {| link_url := Some "https://mosdac.gov.in/data/sst.h5";
     link_text := None;
     file_type := None |}
].

Definition data_page : ContentData :=
  {| url := Some "https://mosdac.gov.in/data";
     content_type := Some "data";
     metadata := Some [("title", "Sea Surface Temperature")];
     text_content := Some "Daily sea surface temperature product.";
     faqs := None;
     data_info := Some {| specifications := Some (AStr "1 km, daily") |};
     download_links := Some sample_links;
     api_info := None |}.

Definition api_page : ContentData :=
  {| url := Some "https://mosdac.gov.in/api";
     content_type := Some "api";
     metadata := Some [("title", "Data access API")];
     text_content := Some "REST interface of the archive.";
     faqs := None;
     data_info := None;
     download_links := None;
     api_info := Some {| documentation := Some "GET /products";
                         code_examples := Some "curl /products" |} |}.

(** A manager without Neo4j and without encoder, holding the FAQ page, the
    product page and the API page. *)
Definition three_kinds : t :=
  let s0 := init false None in
  let s1 := snd (add_content s0 (NeoFailed (OSError "no database")) faq_page) in
  let s2 := snd (add_content s1 (NeoFailed (OSError "no database")) data_page) in
  snd (add_content s2 (NeoFailed (OSError "no database")) api_page).

End GraphManager.

(* ================================================================== *)
(** * core/ai_help_bot.py *)
(* ================================================================== *)

Module AIHelpBot.
Import Py.
Local Open Scope string_scope.

(** [QueryIntent.value] *)
Definition intent_value (i : QueryProcessor.QueryIntent) : string :=
  match i with
  | QueryProcessor.INFORMATION_RETRIEVAL => "information_retrieval"
  | QueryProcessor.DATA_DOWNLOAD => "data_download"
  | QueryProcessor.TECHNICAL_SUPPORT => "technical_support"
  | QueryProcessor.GEOSPATIAL_QUERY => "geospatial_query"
  | QueryProcessor.API_HELP => "api_help"
  | QueryProcessor.GENERAL_QUESTION => "general_question"
  | QueryProcessor.UNKNOWN => "unknown"
  end.

(** [QueryEntity.value] *)
Definition entity_value (k : QueryProcessor.QueryEntity) : string :=
  match k with
  | QueryProcessor.LOCATION => "location"
  | QueryProcessor.SATELLITE => "satellite"
  | QueryProcessor.SENSOR => "sensor"
  | QueryProcessor.DATA_TYPE => "data_type"
  | QueryProcessor.TIME_PERIOD => "time_period"
  | QueryProcessor.RESOLUTION => "resolution"
  | QueryProcessor.FILE_FORMAT => "file_format"
  | QueryProcessor.API_ENDPOINT => "api_endpoint"
  end.

(** ** What the handlers read off the search results *)

(** One entry of [sources]: [{'url': ..., 'title': ..., 'type': ...}] *)
Record Source : Type := {
  source_url : GraphManager.attr;
  source_title : GraphManager.attr;
  source_type : GraphManager.attr
}.

(** [_extract_sources] *)
Definition _extract_sources (graph_results : list GraphManager.SearchHit)
  : list Source :=
  flat_map
    (fun result =>
       let node_data := GraphManager.data result in
       match get String.eqb node_data "url" with
       | Some u =>
           [{| source_url := u;
               source_title :=
                 GraphManager.getd (get String.eqb node_data "title")
                                   (GraphManager.AStr "Unknown");
               source_type :=
                 GraphManager.getd (get String.eqb node_data "content_type")
                                   (GraphManager.AStr "unknown") |}]
       | None => []
       end)
    graph_results.

(** One entry of [download_links]. *)
Record LinkInfo : Type := {
  info_url : GraphManager.attr;
  info_text : GraphManager.attr;
  info_file_type : GraphManager.attr
}.

Record DownloadInfo : Type := {
  info_download_links : list LinkInfo;
  info_file_formats : list GraphManager.attr;
  info_data_specifications : list GraphManager.attr;
  info_access_instructions : list GraphManager.attr
}.

(** One turn of the loop of [_extract_download_information]. *)
Definition download_step (download_info : DownloadInfo)
  (result : GraphManager.SearchHit) : DownloadInfo :=
  let node_data := GraphManager.data result in
  if GraphManager.has_type "download_link" node_data then
    {| info_download_links :=
         (info_download_links download_info ++
          [{| info_url := GraphManager.getd (get String.eqb node_data "url")
                                            (GraphManager.AStr "");
              info_text := GraphManager.getd (get String.eqb node_data "text")
                                             (GraphManager.AStr "");
              info_file_type :=
                GraphManager.getd (get String.eqb node_data "file_type")
                                  (GraphManager.AStr "") |}])%list;
       info_file_formats := info_file_formats download_info;
       info_data_specifications := info_data_specifications download_info;
       info_access_instructions := info_access_instructions download_info |}
  else if GraphManager.has_type "specifications" node_data then
    {| info_download_links := info_download_links download_info;
       info_file_formats := info_file_formats download_info;
       info_data_specifications :=
         (info_data_specifications download_info ++
          [GraphManager.getd (get String.eqb node_data "data")
                             (GraphManager.ADict [])])%list;
       info_access_instructions := info_access_instructions download_info |}
  else download_info.

(** [_extract_download_information] *)
Definition _extract_download_information
  (graph_results : list GraphManager.SearchHit) : DownloadInfo :=
  fold_left download_step graph_results
            {| info_download_links := []; info_file_formats := [];
               info_data_specifications := []; info_access_instructions := [] |}.

Record ApiInformation : Type := {
  info_documentation : list GraphManager.attr;
  info_code_examples : list GraphManager.attr;
  info_endpoints : list GraphManager.attr;
  info_authentication : list GraphManager.attr
}.

(** One turn of the loop of [_extract_api_information]. *)
Definition api_step (api_info : ApiInformation)
  (result : GraphManager.SearchHit) : ApiInformation :=
  let node_data := GraphManager.data result in
  if GraphManager.has_type "api_documentation" node_data then
    {| info_documentation :=
         (info_documentation api_info ++
          [GraphManager.getd (get String.eqb node_data "text")
                             (GraphManager.AStr "")])%list;
       info_code_examples := info_code_examples api_info;
       info_endpoints := info_endpoints api_info;
       info_authentication := info_authentication api_info |}
  else if GraphManager.has_type "code_example" node_data then
    {| info_documentation := info_documentation api_info;
       info_code_examples :=
         (info_code_examples api_info ++
          [GraphManager.getd (get String.eqb node_data "code")
                             (GraphManager.AStr "")])%list;
       info_endpoints := info_endpoints api_info;
       info_authentication := info_authentication api_info |}
  else api_info.

(** [_extract_api_information] *)
Definition _extract_api_information
  (graph_results : list GraphManager.SearchHit) : ApiInformation :=
  fold_left api_step graph_results
            {| info_documentation := []; info_code_examples := [];
               info_endpoints := []; info_authentication := [] |}.

(** [_find_answer_for_question]: the same text for every question. *)
Definition _find_answer_for_question (question : GraphManager.attr) : string :=
  "Please refer to the MOSDAC documentation for detailed information.".

Record SupportInfo : Type := {
  info_faqs : list (GraphManager.attr * string);
  info_troubleshooting : list GraphManager.attr;
  info_contact_info : list GraphManager.attr
}.

(** One turn of the loop of [_extract_support_information]. *)
Definition support_step (support_info : SupportInfo)
  (result : GraphManager.SearchHit) : SupportInfo :=
  let node_data := GraphManager.data result in
  if GraphManager.has_type "question" node_data then
    let question := GraphManager.getd (get String.eqb node_data "text")
                                      (GraphManager.AStr "") in
    {| info_faqs :=
         (info_faqs support_info ++
          [(question, _find_answer_for_question question)])%list;
       info_troubleshooting := info_troubleshooting support_info;
       info_contact_info := info_contact_info support_info |}
  else support_info.

(** [_extract_support_information] *)
Definition _extract_support_information
  (graph_results : list GraphManager.SearchHit) : SupportInfo :=
  fold_left support_step graph_results
            {| info_faqs := []; info_troubleshooting := [];
               info_contact_info := [] |}.

(** ** Responses *)

(** The [query_analysis] entry of a response. *)
Record AnalysisDict : Type := {
  analysis_intent : string;
  analysis_confidence : Q;
  analysis_entities : dict string (list string)
}.

Definition analysis_dict (analysis : QueryProcessor.QueryAnalysis)
  : AnalysisDict :=
  {| analysis_intent := intent_value (QueryProcessor.intent analysis);
     analysis_confidence := QueryProcessor.confidence analysis;
     analysis_entities :=
       map (fun kv => (entity_value (fst kv), snd kv))
           (QueryProcessor.entities analysis) |}.

(** [_get_fallback_suggestions] *)
Definition _get_fallback_suggestions : list string :=
  ["Try rephrasing your question";
   "Check the MOSDAC documentation";
   "Contact technical support";
   "Browse the FAQ section"].

Section Bot.
(** [list(set(...))] of the query processor, and the spatial processor, which
    is outside this development: what it returns for a query. *)
Variable list_of_set : list string -> list string.
Variable SpatialResult : Type.
Variable process_spatial_query : string -> result SpatialResult.
Variable get_spatial_suggestions : string -> result (list string).

(** A response dictionary; an entry that a response does not have is [None]
    (the [query_analysis] of the outermost error response, which is the value
    [None], included). *)
Record Response : Type := {
  success : bool;
  response_type : option string;
  error : option string;
  response_text : option string;
  query_analysis : option AnalysisDict;
  spatial_result : option SpatialResult;
  download_information : option DownloadInfo;
  api_information : option ApiInformation;
  support_information : option SupportInfo;
  knowledge_graph_results : option (list GraphManager.SearchHit);
  sources : list Source;
  suggestions : list string
}.

(** [_create_error_response] *)
Definition _create_error_response (response_type error_message : string)
  : Response :=
  {| success := false;
     response_type := Some response_type;
     error := Some error_message;
     response_text :=
       Some ("I'm sorry, I couldn't process your request. Error: "
             ++ error_message);
     query_analysis := None;
     spatial_result := None;
     download_information := None;
     api_information := None;
     support_information := None;
     knowledge_graph_results := None;
     sources := [];
     suggestions := _get_fallback_suggestions |}.

(** What the five successful responses share. *)
Definition found (response_type : string)
  (analysis : QueryProcessor.QueryAnalysis)
  (graph_results : list GraphManager.SearchHit) (suggestions : list string)
  : Response :=
  {| success := true;
     response_type := Some response_type;
     error := None;
     response_text := None;
     query_analysis := Some (analysis_dict analysis);
     spatial_result := None;
     download_information := None;
     api_information := None;
     support_information := None;
     knowledge_graph_results := Some graph_results;
     sources := _extract_sources graph_results;
     suggestions := suggestions |}.

(** [_handle_spatial_query] *)
Definition _handle_spatial_query (gm : GraphManager.t) (query : string)
  (analysis : QueryProcessor.QueryAnalysis) : Response :=
  let body :=
    bind (process_spatial_query query) (fun spatial =>
    bind (GraphManager.search_content gm query 5) (fun graph_results =>
    bind (get_spatial_suggestions query) (fun spatial_suggestions =>
    let r := found "spatial" analysis graph_results spatial_suggestions in
    Ok {| success := success r; response_type := response_type r;
          error := error r; response_text := response_text r;
          query_analysis := query_analysis r;
          spatial_result := Some spatial;
          download_information := None; api_information := None;
          support_information := None;
          knowledge_graph_results := knowledge_graph_results r;
          sources := sources r; suggestions := suggestions r |}))) in
  match body with
  | Ok response => response
  | Raise e => _create_error_response "spatial" (GraphManager.exn_message e)
  end.

(** [_handle_data_download_query] *)
Definition _handle_data_download_query (gm : GraphManager.t) (query : string)
  (analysis : QueryProcessor.QueryAnalysis) : Response :=
  match GraphManager.search_content gm query 10 with
  | Ok graph_results =>
      let r := found "data_download" analysis graph_results
                     ["How do I access the data?";
                      "What file formats are available?";
                      "What is the data resolution?";
                      "How do I download large datasets?"] in
      {| success := success r; response_type := response_type r;
         error := error r; response_text := response_text r;
         query_analysis := query_analysis r;
         spatial_result := None;
         download_information :=
           Some (_extract_download_information graph_results);
         api_information := None; support_information := None;
         knowledge_graph_results := knowledge_graph_results r;
         sources := sources r; suggestions := suggestions r |}
  | Raise e => _create_error_response "data_download" (GraphManager.exn_message e)
  end.

(** [_handle_api_query] *)
Definition _handle_api_query (gm : GraphManager.t) (query : string)
  (analysis : QueryProcessor.QueryAnalysis) : Response :=
  let api_query := "API " ++ query in
  match GraphManager.search_content gm api_query 8 with
  | Ok graph_results =>
      let r := found "api_help" analysis graph_results
                     ["How do I authenticate with the API?";
                      "What are the rate limits?";
                      "How do I handle API errors?";
                      "What are the response formats?"] in
      {| success := success r; response_type := response_type r;
         error := error r; response_text := response_text r;
         query_analysis := query_analysis r;
         spatial_result := None;
         download_information := None;
         api_information := Some (_extract_api_information graph_results);
         support_information := None;
         knowledge_graph_results := knowledge_graph_results r;
         sources := sources r; suggestions := suggestions r |}
  | Raise e => _create_error_response "api_help" (GraphManager.exn_message e)
  end.

(** [_handle_support_query] *)
Definition _handle_support_query (gm : GraphManager.t) (query : string)
  (analysis : QueryProcessor.QueryAnalysis) : Response :=
  let support_query := "help support " ++ query in
  match GraphManager.search_content gm support_query 6 with
  | Ok graph_results =>
      let r := found "technical_support" analysis graph_results
                     ["How do I contact support?";
                      "What are common issues?";
                      "How do I report a bug?";
                      "Where can I find documentation?"] in
      {| success := success r; response_type := response_type r;
         error := error r; response_text := response_text r;
         query_analysis := query_analysis r;
         spatial_result := None;
         download_information := None; api_information := None;
         support_information :=
           Some (_extract_support_information graph_results);
         knowledge_graph_results := knowledge_graph_results r;
         sources := sources r; suggestions := suggestions r |}
  | Raise e =>
      _create_error_response "technical_support" (GraphManager.exn_message e)
  end.

(** [_handle_general_query]; [None] when the loop of
    [get_query_suggestions] runs out of fuel. *)
Definition _handle_general_query (fuel : nat) (gm : GraphManager.t)
  (query : string) (analysis : QueryProcessor.QueryAnalysis) : option Response :=
  match GraphManager.search_content gm query 8 with
  | Ok graph_results =>
      match QueryProcessor.get_query_suggestions fuel query 5 with
      | Some suggestions =>
          Some (found "general" analysis graph_results suggestions)
      | None => None
      end
  | Raise e =>
      Some (_create_error_response "general" (GraphManager.exn_message e))
  end.

(** ** The bot *)

(** One record of the conversation history; [response] and
    [processing_time] are set once the query is answered. *)
Record Conversation : Type := {
  timestamp : Q;
  user_query : string;
  user_context : dict string string;
  response : option Response;
  processing_time : option Q
}.

Record t : Type := {
  graph_manager : GraphManager.t;
  query_processor : QueryProcessor.t;
  conversation_history : list Conversation
}.

Definition with_history (self : t) (history : list Conversation) : t :=
  {| graph_manager := graph_manager self;
     query_processor := query_processor self;
     conversation_history := history |}.

(** [process_query]; [start_time] and [end_time] are the two readings of the
    clock. *)
Definition process_query (self : t) (fuel : nat) (user_query : string)
  (user_context : option (dict string string)) (start_time end_time : Q)
  : option (Response * t) :=
  let entry :=
    {| timestamp := start_time; user_query := user_query;
       user_context := GraphManager.getd user_context [];
       response := None; processing_time := None |} in
  match QueryProcessor.process_query list_of_set (query_processor self)
                                     (PyStr user_query) with
  | Raise e =>
      Some ({| success := false;
               response_type := None;
               error := Some (GraphManager.exn_message e);
               response_text :=
                 Some "I'm sorry, I encountered an error while processing your query. Please try again.";
               query_analysis := None;
               spatial_result := None;
               download_information := None;
               api_information := None;
               support_information := None;
               knowledge_graph_results := None;
               sources := [];
               suggestions := _get_fallback_suggestions |},
            with_history self (conversation_history self ++ [entry])%list)
  | Ok query_analysis =>
      let gm := graph_manager self in
      let handled :=
        match QueryProcessor.intent query_analysis with
        | QueryProcessor.GEOSPATIAL_QUERY =>
            Some (_handle_spatial_query gm user_query query_analysis)
        | QueryProcessor.DATA_DOWNLOAD =>
            Some (_handle_data_download_query gm user_query query_analysis)
        | QueryProcessor.API_HELP =>
            Some (_handle_api_query gm user_query query_analysis)
        | QueryProcessor.TECHNICAL_SUPPORT =>
            Some (_handle_support_query gm user_query query_analysis)
        | _ => _handle_general_query fuel gm user_query query_analysis
        end in
      match handled with
      | Some response =>
          Some (response,
                with_history self
                  (conversation_history self ++
                   [{| timestamp := start_time; user_query := user_query;
                       user_context := GraphManager.getd user_context [];
                       response := Some response;
                       processing_time := Some (end_time - start_time)%Q |}])%list)
      | None => None
      end
  end.

(** [xs[start:]] for a Python [int]: a negative start counts from the end. *)
Definition slice_from {A : Type} (xs : list A) (start : Z) : list A :=
  if (start <? 0)%Z
  then skipn (length xs - Z.to_nat (- start)) xs
  else skipn (Z.to_nat start) xs.

(** [get_conversation_history] *)
Definition get_conversation_history (self : t) (limit : Z) : list Conversation :=
  match conversation_history self with
  | [] => []
  | _ => slice_from (conversation_history self) (- limit)
  end.

(** [clear_conversation_history] *)
Definition clear_conversation_history (self : t) : t := with_history self [].

(** ** Statistics over the history *)

(** [conv.get('response', {}).get('success', False)] *)
Definition succeeded (conv : Conversation) : bool :=
  match response conv with
  | Some r => success r
  | None => false
  end.

(** [response.get('query_analysis', {}).get('intent', 'unknown')] *)
Definition intent_of (conv : Conversation) : string :=
  match response conv with
  | Some r =>
      match query_analysis r with
      | Some a => analysis_intent a
      | None => "unknown"
      end
  | None => "unknown"
  end.

(** One turn of the loop that counts the intents. *)
Definition intent_step (intent_counts : dict string nat) (conv : Conversation)
  : dict string nat :=
  if succeeded conv
  then setitem String.eqb intent_counts (intent_of conv)
               (GraphManager.getd (get String.eqb intent_counts (intent_of conv)) 0
                + 1)
  else intent_counts.

(** The processing times that are present and not zero. *)
Definition processing_times (history : list Conversation) : list Q :=
  flat_map (fun conv =>
              match processing_time conv with
              | Some t => if Qeq_bool t 0 then [] else [t]
              | None => []
              end) history.

Definition Qsum (l : list Q) : Q := fold_left Qplus l 0%Q.

Record QueryStatistics : Type := {
  total_queries : nat;
  successful_queries : nat;
  success_rate : Q;
  intent_distribution : dict string nat;
  average_processing_time : Q;
  total_processing_time : Q
}.

(** [get_query_statistics]; the empty dictionary is [None]. *)
Definition get_query_statistics (self : t) : option QueryStatistics :=
  match conversation_history self with
  | [] => None
  | history =>
      let total_queries := length history in
      let successful_queries := length (filter succeeded history) in
      let intent_counts := fold_left intent_step history [] in
      let times := processing_times history in
      Some {| total_queries := total_queries;
              successful_queries := successful_queries;
              success_rate :=
                if (0 <? total_queries)%nat
                then (inject_Z (Z.of_nat successful_queries) /
                      inject_Z (Z.of_nat total_queries))%Q
                else 0%Q;
              intent_distribution := intent_counts;
              average_processing_time :=
                match times with
                | [] => 0%Q
                | _ => (Qsum times / inject_Z (Z.of_nat (length times)))%Q
                end;
              total_processing_time := Qsum times |}
  end.

End Bot.

End AIHelpBot.

(* ================================================================== *)
(** * geospatial/spatial_processor.py: parsing and suggestions *)
(* ================================================================== *)

Module SpatialProcessor.
Import Py.
Local Open Scope string_scope.

(** An entry of [location_database]. *)
Record Location : Type := {
  name : string;
  coordinates : Q * Q;
  bbox : Q * Q * Q * Q;
  state : string;
  country : string
}.

(** [_init_location_database] *)
Definition location_database : dict string Location := [
  ("mumbai",
   {| name := "Mumbai";
      coordinates := (728777 # 10000, 190760 # 10000)%Q;
      bbox := (727749 # 10000, 188876 # 10000, 729944 # 10000, 191808 # 10000)%Q;
      state := "Maharashtra"; country := "India" |});
  ("delhi",
   {| name := "Delhi";
      coordinates := (772090 # 10000, 287041 # 10000)%Q;
      bbox := (768389 # 10000, 284189 # 10000, 773487 # 10000, 288835 # 10000)%Q;
      state := "Delhi"; country := "India" |});
  ("bangalore",
   {| name := "Bangalore";
      coordinates := (775946 # 10000, 129716 # 10000)%Q;
      bbox := (774661 # 10000, 128342 # 10000, 776413 # 10000, 130841 # 10000)%Q;
      state := "Karnataka"; country := "India" |});
  ("chennai",
   {| name := "Chennai";
      coordinates := (802707 # 10000, 130827 # 10000)%Q;
      bbox := (800889 # 10000, 129198 # 10000, 802707 # 10000, 132334 # 10000)%Q;
      state := "Tamil Nadu"; country := "India" |});
  ("kolkata",
   {| name := "Kolkata";
      coordinates := (883639 # 10000, 225726 # 10000)%Q;
      bbox := (882234 # 10000, 224396 # 10000, 884504 # 10000, 226343 # 10000)%Q;
      state := "West Bengal"; country := "India" |})
].

(** The shapely geometries the queries are built with, as constructed. *)
Inductive Geometry : Type :=
| Point (x y : Q)
| Box (minx miny maxx maxy : Q)
| BufferAround (center : Geometry) (distance : Q).

(** The [parameters] of a query. *)
Inductive Parameters : Type :=
| LocationParameters (location : string) (data : Location)
| CoordinateParameters (coords : Q * Q)
| AreaParameters (location : string) (data : Location)
| BufferParameters (distance : Q) (location : string) (data : Location).

(** [@dataclass class SpatialQuery] *)
Record SpatialQuery : Type := {
  query_type : string;
  geometry : Geometry;
  crs : string;
  parameters : Parameters
}.

(** Outcome of a call that indexes the location database. *)
Inductive outcome (A : Type) : Type :=
| Returned (a : A)
| KeyError (key : string).
Arguments Returned {A} a.
Arguments KeyError {A} key.

(** [self.location_database[location]] *)
Definition lookup (location : string) : outcome Location :=
  match get String.eqb location_database location with
  | Some data => Returned data
  | None => KeyError location
  end.

Section Parse.
(** [self.config.default_crs], and what [re.search] finds for the two
    patterns: the two numbers with their direction letters, the distance with
    its unit. *)
Variable default_crs : string.
Variable search_coordinates : string -> option (Q * string * Q * string).
Variable search_buffer : string -> option (Q * string).

(** [_extract_location] *)
Definition _extract_location (query : string) : option string :=
  find (fun location => contains location query) (keys location_database).

(** [_extract_coordinates] *)
Definition _extract_coordinates (query : string) : option (Q * Q) :=
  match search_coordinates query with
  | Some (lat, lat_dir, lon, lon_dir) =>
      let lat := if lat_dir =? "S" then (- lat)%Q else lat in
      let lon := if lon_dir =? "W" then (- lon)%Q else lon in
      Some (lat, lon)
  | None => None
  end.

Definition area_keywords : list string :=
  ["area"; "region"; "zone"; "boundary"; "extent"].

(** [_extract_area_query]: the location and its data. *)
Definition _extract_area_query (query : string)
  : outcome (option (string * Location)) :=
  if any_in area_keywords query then
    match find (fun location => contains location query)
               (keys location_database) with
    | Some location =>
        match lookup location with
        | Returned data => Returned (Some (location, data))
        | KeyError k => KeyError k
        end
    | None => Returned None
    end
  else Returned None.

(** [_extract_buffer_query]: the distance in metres, the location and its
    data. *)
Definition _extract_buffer_query (query : string)
  : outcome (option (Q * string * Location)) :=
  match search_buffer query with
  | Some (distance, unit) =>
      let distance :=
        if existsb (String.eqb unit) ["km"; "kilometers"; "kilometer"]
        then (distance * 1000)%Q else distance in
      match _extract_location query with
      | Some location =>
          match lookup location with
          | Returned data => Returned (Some (distance, location, data))
          | KeyError k => KeyError k
          end
      | None => Returned None
      end
  | None => Returned None
  end.

(** [_create_location_query] *)
Definition _create_location_query (location : string) : outcome SpatialQuery :=
  match lookup location with
  | Returned location_data =>
      Returned {| query_type := "point";
                  geometry := Point (fst (coordinates location_data))
                                    (snd (coordinates location_data));
                  crs := default_crs;
                  parameters := LocationParameters location location_data |}
  | KeyError k => KeyError k
  end.

(** [_create_coordinate_query]: the point is (lon, lat). *)
Definition _create_coordinate_query (coords : Q * Q) : SpatialQuery :=
  {| query_type := "point";
     geometry := Point (snd coords) (fst coords);
     crs := default_crs;
     parameters := CoordinateParameters coords |}.

(** [_create_area_query] *)
Definition _create_area_query (area_data : string * Location) : SpatialQuery :=
  let '(minx, miny, maxx, maxy) := bbox (snd area_data) in
  {| query_type := "polygon";
     geometry := Box minx miny maxx maxy;
     crs := default_crs;
     parameters := AreaParameters (fst area_data) (snd area_data) |}.

(** [_create_buffer_query] *)
Definition _create_buffer_query (buffer_data : Q * string * Location)
  : SpatialQuery :=
  let '(distance, location, data) := buffer_data in
  {| query_type := "buffer";
     geometry := BufferAround (Point (fst (coordinates data))
                                     (snd (coordinates data)))
                              (distance / 111000)%Q;
     crs := default_crs;
     parameters := BufferParameters distance location data |}.

(** [_parse_spatial_query] *)
Definition _parse_spatial_query (query_text : string)
  : outcome (option SpatialQuery) :=
  let query_lower := lower query_text in
  match _extract_location query_lower with
  | Some location_match =>
      match _create_location_query location_match with
      | Returned q => Returned (Some q)
      | KeyError k => KeyError k
      end
  | None =>
      match _extract_coordinates query_lower with
      | Some coord_match => Returned (Some (_create_coordinate_query coord_match))
      | None =>
          match _extract_area_query query_lower with
          | KeyError k => KeyError k
          | Returned (Some area_match) =>
              Returned (Some (_create_area_query area_match))
          | Returned None =>
              match _extract_buffer_query query_lower with
              | KeyError k => KeyError k
              | Returned (Some buffer_match) =>
                  Returned (Some (_create_buffer_query buffer_match))
              | Returned None => Returned None
              end
          end
      end
  end.

End Parse.

(** The table of [get_spatial_suggestions]. *)
Definition suggestions : list string := [
  "Show satellite data for Mumbai region";
  "What data is available around Delhi?";
  "Show coverage within 50km of Bangalore";
  "What satellite imagery covers Chennai area?";
  "Show data availability for coordinates 77.2090, 28.7041";
  "What's the coverage area for Kolkata region?"
].

(** The [for] loop with its [break]. *)
Definition add_first_missing (relevant_suggestions : list string) : list string :=
  match find (fun suggestion =>
                negb (QueryProcessor.listed relevant_suggestions suggestion))
             suggestions with
  | Some suggestion => (relevant_suggestions ++ [suggestion])%list
  | None => relevant_suggestions
  end.

(** The [while] loop; [None] when the fuel runs out before the loop ends. *)
Fixpoint fill_suggestions (fuel : nat) (relevant_suggestions : list string)
  : option (list string) :=
  if (length relevant_suggestions <? 3)%nat
  then match fuel with
       | 0 => None
       | S fuel' => fill_suggestions fuel' (add_first_missing relevant_suggestions)
       end
  else Some relevant_suggestions.

(** [get_spatial_suggestions] *)
Definition get_spatial_suggestions (fuel : nat) (query : string)
  : option (list string) :=
  let query_lower := lower query in
  let relevant_suggestions :=
    filter (QueryProcessor.suggestion_matches query_lower) suggestions in
  match fill_suggestions fuel relevant_suggestions with
  | Some relevant_suggestions => Some (firstn 3 relevant_suggestions)
  | None => None
  end.

End SpatialProcessor.

(* ================================================================== *)
(** * scrapers/mosdac_scraper.py: the classification of a URL *)
(* ================================================================== *)

Module MOSDACScraper.
Import Py.
Local Open Scope string_scope.

Definition faq_patterns : list string :=
  ["/faq"; "/help"; "/support"; "/documentation"].
Definition data_patterns : list string :=
  ["/data"; "/products"; "/satellite"; "/imagery"; "/download"].
Definition api_patterns : list string := ["/api"; "/services"; "/rest"].

(** [_classify_content]; the patterns hold no special character, so that
    [re.search(pattern, url_lower)] is a substring test. *)
Definition _classify_content (url : string) : string :=
  let url_lower := lower url in
  if any_in faq_patterns url_lower then "faq"
  else if any_in data_patterns url_lower then "data"
  else if any_in api_patterns url_lower then "api"
  else "general".

(** The order in which the kinds are tried. *)
Definition precedence (content_type : string) : nat :=
  if content_type =? "faq" then 0
  else if content_type =? "data" then 1
  else if content_type =? "api" then 2
  else 3.

End MOSDACScraper.

(* ================================================================== *)
(** * Facts about the Python preliminaries *)
(* ================================================================== *)

Module PyFacts.
Import Py.

Section DictFacts.
Variables K V : Type.
Variable eqb : K -> K -> bool.
Hypothesis eqb_eq : forall a b, eqb a b = true <-> a = b.

Lemma eqb_refl (a : K) : eqb a a = true.
Proof. now apply eqb_eq. Qed.

Lemma eqb_neq (a b : K) : a <> b -> eqb a b = false.
Proof.
  intros Hne. destruct (eqb a b) eqn:E; [|reflexivity].
  apply eqb_eq in E. contradiction.
Qed.

Lemma get_setitem (d : dict K V) (k k' : K) (v : V) :
  get eqb (setitem eqb d k' v) k = if eqb k k' then Some v else get eqb d k.
Proof.
  induction d as [|[k0 v0] d IH]; simpl.
  - reflexivity.
  - destruct (eqb k' k0) eqn:E; simpl.
    + apply eqb_eq in E. subst k0.
      destruct (eqb k k'); reflexivity.
    + destruct (eqb k k0) eqn:E0.
      * apply eqb_eq in E0. subst k0.
        rewrite (eqb_neq (a:=k) (b:=k')); [reflexivity|].
        intros ->. rewrite eqb_refl in E. discriminate.
      * exact IH.
Qed.

Lemma get_setitem_same (d : dict K V) (k : K) (v : V) :
  get eqb (setitem eqb d k v) k = Some v.
Proof. rewrite get_setitem, eqb_refl. reflexivity. Qed.

Lemma get_setitem_other (d : dict K V) (k k' : K) (v : V) :
  k <> k' -> get eqb (setitem eqb d k' v) k = get eqb d k.
Proof. intros H. rewrite get_setitem, eqb_neq; auto. Qed.

Lemma get_None_keys (d : dict K V) (k : K) :
  get eqb d k = None <-> ~ In k (keys d).
Proof.
  induction d as [|[k0 v0] d IH]; simpl.
  - tauto.
  - destruct (eqb k k0) eqn:E.
    + apply eqb_eq in E. subst. split; [discriminate|tauto].
    + rewrite IH. split.
      * intros H [H0|H0]; [|tauto]. subst. rewrite eqb_refl in E. discriminate.
      * tauto.
Qed.

Lemma setitem_fresh (d : dict K V) (k : K) (v : V) :
  get eqb d k = None -> setitem eqb d k v = (d ++ [(k, v)])%list.
Proof.
  induction d as [|[k0 v0] d IH]; simpl; intros H.
  - reflexivity.
  - destruct (eqb k k0); [discriminate|]. now rewrite IH.
Qed.

Lemma keys_setitem_present (d : dict K V) (k : K) (v v0 : V) :
  get eqb d k = Some v0 -> keys (setitem eqb d k v) = keys d.
Proof.
  induction d as [|[k1 v1] d IH]; simpl; intros H.
  - discriminate.
  - destruct (eqb k k1); simpl; [reflexivity|]. f_equal. now apply IH.
Qed.

Lemma NoDup_keys_setitem (d : dict K V) (k : K) (v : V) :
  NoDup (keys d) -> NoDup (keys (setitem eqb d k v)).
Proof.
  intros H. destruct (get eqb d k) as [v0|] eqn:E.
  - erewrite keys_setitem_present by exact E. exact H.
  - rewrite setitem_fresh by exact E. unfold keys. rewrite map_app. simpl.
    apply get_None_keys in E.
    apply NoDup_rev in H. rewrite <- (rev_involutive (_ ++ _)).
    apply NoDup_rev. rewrite rev_app_distr. simpl. constructor; [|exact H].
    rewrite <- in_rev. exact E.
Qed.

Lemma get_app (d1 d2 : dict K V) (k : K) :
  get eqb (d1 ++ d2)%list k =
  match get eqb d1 k with
  | Some v => Some v
  | None => get eqb d2 k
  end.
Proof.
  induction d1 as [|[k0 v0] d1 IH]; simpl; [reflexivity|].
  destruct (eqb k k0); [reflexivity|exact IH].
Qed.

(** The last binding of a key in [other] wins. *)
Lemma get_update (other d : dict K V) (k : K) :
  get eqb (update eqb d other) k =
  match get eqb (rev other) k with
  | Some v => Some v
  | None => get eqb d k
  end.
Proof.
  unfold update. revert d.
  induction other as [|[k0 v0] other IH]; intros d; simpl; [reflexivity|].
  rewrite IH, get_app, get_setitem. simpl.
  destruct (get eqb (rev other) k); [reflexivity|].
  destruct (eqb k k0); reflexivity.
Qed.

Lemma get_Some_In (d : dict K V) (k : K) (v : V) :
  get eqb d k = Some v -> In (k, v) d.
Proof.
  induction d as [|[k0 v0] d IH]; simpl; [discriminate|].
  destruct (eqb k k0) eqn:E.
  - apply eqb_eq in E. subst. intros [= ->]. now left.
  - intros H. right. now apply IH.
Qed.

Lemma In_get_NoDup (d : dict K V) (k : K) (v : V) :
  NoDup (keys d) -> In (k, v) d -> get eqb d k = Some v.
Proof.
  induction d as [|[k0 v0] d IH]; simpl; intros ND HIn; [contradiction|].
  inversion ND as [|? ? Hnot ND']; subst.
  destruct HIn as [[= -> ->]|HIn].
  - now rewrite eqb_refl.
  - destruct (eqb k k0) eqn:E.
    + apply eqb_eq in E. subst. exfalso. apply Hnot.
      change k0 with (fst (k0, v)). now apply in_map.
    + now apply IH.
Qed.

Lemma get_rev (d : dict K V) (k : K) :
  NoDup (keys d) -> get eqb (rev d) k = get eqb d k.
Proof.
  intros ND.
  assert (ND' : NoDup (keys (rev d))).
  { unfold keys. rewrite map_rev. now apply NoDup_rev. }
  destruct (get eqb d k) as [v|] eqn:E.
  - apply In_get_NoDup; [exact ND'|]. rewrite <- in_rev. now apply get_Some_In.
  - apply get_None_keys. apply get_None_keys in E.
    unfold keys in *. rewrite map_rev, <- in_rev. exact E.
Qed.

Lemma get_rev_None (d : dict K V) (k : K) :
  get eqb d k = None -> get eqb (rev d) k = None.
Proof.
  intros E. apply get_None_keys. apply get_None_keys in E.
  unfold keys in *. rewrite map_rev, <- in_rev. exact E.
Qed.

Lemma get_rev_Some (d : dict K V) (k : K) (v : V) :
  get eqb d k = Some v -> exists v', get eqb (rev d) k = Some v'.
Proof.
  intros E. destruct (get eqb (rev d) k) as [v'|] eqn:E'; [now exists v'|].
  apply get_rev_None in E'. rewrite rev_involutive in E'. congruence.
Qed.

Lemma mem_get (d : dict K V) (k : K) :
  mem eqb d k = match get eqb d k with Some _ => true | None => false end.
Proof. reflexivity. Qed.

End DictFacts.

Lemma string_eqb_eq (a b : string) : String.eqb a b = true <-> a = b.
Proof. apply String.eqb_eq. Qed.

(** [xs[:limit]] keeps a prefix. *)
Lemma slice_to_prefix {A : Type} (xs : list A) (limit : Z) :
  exists n, slice_to xs limit = firstn n xs.
Proof.
  unfold slice_to. destruct (limit <? 0)%Z; eexists; reflexivity.
Qed.

Lemma slice_to_length {A : Type} (xs : list A) (limit : Z) :
  (0 <= limit)%Z -> (Z.of_nat (length (slice_to xs limit)) <= limit)%Z.
Proof.
  intros H. unfold slice_to.
  destruct (Z.ltb_spec limit 0); [lia|].
  rewrite length_firstn. lia.
Qed.

Lemma slice_to_In {A : Type} (xs : list A) (limit : Z) (x : A) :
  In x (slice_to xs limit) -> In x xs.
Proof.
  destruct (slice_to_prefix xs limit) as [n ->].
  intros H. rewrite <- (firstn_skipn n xs). apply in_or_app. now left.
Qed.

Lemma slice_to_nil {A : Type} (limit : Z) : slice_to (@nil A) limit = [].
Proof.
  unfold slice_to. destruct (limit <? 0)%Z; apply firstn_nil.
Qed.

End PyFacts.

(* ================================================================== *)
(** * The query classifier *)
(* ================================================================== *)

Module QueryProcessorFacts.
Import Py Re QueryProcessor PyFacts.
Local Open Scope string_scope.

Lemma entity_eqb_eq (a b : QueryEntity) : entity_eqb a b = true <-> a = b.
Proof. destruct a, b; simpl; split; intros H; try reflexivity; discriminate. Qed.

Lemma intent_eqb_eq (a b : QueryIntent) : intent_eqb a b = true <-> a = b.
Proof. destruct a, b; simpl; split; intros H; try reflexivity; discriminate. Qed.

#[local] Hint Resolve entity_eqb_eq intent_eqb_eq string_eqb_eq : core.

(** ** The matcher and the normalisation on sample queries *)

Example findall_location :
  candidates location_patterns "weather in new delhi today"
  = ["new delhi today"].
Proof. vm_compute. reflexivity. Qed.

Example findall_satellite :
  candidates satellite_patterns "insat-3d satellite data from oceansat-2"
  = ["oceansat-2"; "insat-3d"; "oceansat-2"].
Proof. vm_compute. reflexivity. Qed.

Example findall_resolution :
  candidates resolution_patterns
             "spatial resolution of 10.5 km and 5m resolution"
  = ["10.5 km"; "5m"].
Proof. vm_compute. reflexivity. Qed.

Example findall_api_backtracks :
  candidates api_patterns "how do i use the mosdac api" = ["the mosdac"].
Proof. vm_compute. reflexivity. Qed.

Example findall_nothing_in_empty :
  map (fun kp => candidates (snd kp) "") pattern_table
  = [[]; []; []; []; []; []; []; []].
Proof. vm_compute. reflexivity. Qed.

Example preprocess_sample :
  _preprocess_query (PyStr "  What's the  10.5 km near-real-time DATA?? ")
  = Ok "what s the 10.5 km near-real-time data".
Proof. vm_compute. reflexivity. Qed.

Example process_query_sample :
  process_query first_occurrence no_tagger (PyStr "API authentication endpoint")
  = Ok {| intent := API_HELP;
          entities := [];
          confidence := (2 # 51)%Q;
          keywords := ["authentication"; "endpoint"];
          original_query := PyStr "API authentication endpoint";
          processed_query := PyStr "api authentication endpoint" |}.
Proof. vm_compute. reflexivity. Qed.

(** ** Intent scoring *)

Lemma keyword_score_acc (kws : list string) (query : string) (n : nat) :
  fold_left (fun score keyword =>
               if contains keyword query then score + 1 else score) kws n
  = n + length (filter (fun kw => contains kw query) kws).
Proof.
  revert n. induction kws as [|kw kws IH]; intros n; simpl.
  - lia.
  - rewrite IH. destruct (contains kw query); simpl; lia.
Qed.

Lemma keyword_score_count (kws : list string) (query : string) :
  keyword_score kws query = length (filter (fun kw => contains kw query) kws).
Proof. unfold keyword_score. now rewrite keyword_score_acc. Qed.

(** The [scores] dictionary holds, in table order, the score of each intent. *)
Lemma intent_scores_eq (query : string) (es : Entities) :
  intent_scores query es =
  map (fun i => (i, intent_score i query es)) five_intents.
Proof.
  unfold intent_scores, intent_keywords.
  cbn [fold_left setitem intent_eqb fst snd].
  rewrite !keyword_score_count.
  unfold intent_score, entity_bonus, five_intents. cbn [map].
  unfold keyword_count, keywords_of, intent_keywords. cbn [get intent_eqb].
  destruct (mem entity_eqb es LOCATION), (mem entity_eqb es API_ENDPOINT),
    (mem entity_eqb es FILE_FORMAT);
    cbn [bump get setitem intent_eqb]; rewrite ?Nat.add_0_r; reflexivity.
Qed.

Ltac split_intents H :=
  simpl in H;
  repeat (destruct H as [H|H]; [subst|]); try contradiction.

(** [max(scores, key=scores.get)] and [max(scores.values())] on the five
    entries. *)
Lemma max_of_five (sc : QueryIntent -> nat) :
  let scores := map (fun i => (i, sc i)) five_intents in
  let best := max_key INFORMATION_RETRIEVAL (sc INFORMATION_RETRIEVAL)
                      (tl scores) in
  max_value scores = sc best /\
  In best five_intents /\
  (forall j, In j five_intents -> sc j <= sc best) /\
  (forall j, In j five_intents ->
             table_rank j < table_rank best -> sc j < sc best).
Proof.
  cbn [map five_intents tl max_key].
  unfold max_value. cbn [values map snd fold_left].
  repeat match goal with
         | |- context [Nat.ltb ?x ?y] => destruct (Nat.ltb_spec x y)
         end;
  (split; [lia|]); (split; [simpl; tauto|]);
  split; intros j Hj; split_intents Hj; cbn [table_rank]; lia.
Qed.

Lemma classify_intent_unfold (query : string) (es : Entities) :
  let scores := map (fun i => (i, intent_score i query es)) five_intents in
  _classify_intent query es =
  if (max_value scores =? 0)%nat
  then (GENERAL_QUESTION, (1 # 2)%Q)
  else (max_key INFORMATION_RETRIEVAL
                (intent_score INFORMATION_RETRIEVAL query es) (tl scores),
        min_one (nat_ratio (max_value scores) total_possible)).
Proof.
  unfold _classify_intent. rewrite intent_scores_eq. reflexivity.
Qed.

(** ** Entity extraction *)

Lemma pattern_table_keys : NoDup (keys pattern_table).
Proof.
  unfold keys, pattern_table. cbn [map fst].
  repeat (constructor; [simpl; intuition discriminate|]). constructor.
Qed.

Section Extraction.
Variable list_of_set : list string -> list string.
Variable query : string.

Lemma get_pattern_fold (table : list (QueryEntity * list regex))
  (acc : Entities) (kind : QueryEntity) :
  NoDup (keys table) ->
  get entity_eqb (fold_left (pattern_step list_of_set query) table acc) kind =
  match get entity_eqb table kind with
  | Some ps =>
      match candidates ps query with
      | [] => get entity_eqb acc kind
      | found => Some (list_of_set found)
      end
  | None => get entity_eqb acc kind
  end.
Proof.
  revert acc. induction table as [|[k0 ps0] table IH]; intros acc ND.
  - reflexivity.
  - inversion ND as [|? ? Hnot ND']; subst.
    cbn [fold_left get]. rewrite IH by exact ND'.
    destruct (entity_eqb kind k0) eqn:E.
    + apply entity_eqb_eq in E. subst k0.
      assert (G : get entity_eqb table kind = None).
      { apply (get_None_keys _ entity_eqb_eq). exact Hnot. }
      rewrite G. unfold pattern_step. cbn [fst snd].
      destruct (candidates ps0 query); [reflexivity|].
      apply (get_setitem_same _ entity_eqb_eq).
    + assert (G : get entity_eqb (pattern_step list_of_set query acc (k0, ps0)) kind =
                  get entity_eqb acc kind).
      { unfold pattern_step. cbn [fst snd].
        destruct (candidates ps0 query); [reflexivity|].
        apply (get_setitem_other _ entity_eqb_eq).
        intros ->. rewrite (eqb_refl _ entity_eqb_eq) in E. discriminate. }
      rewrite G. reflexivity.
Qed.

Lemma keys_pattern_fold (table : list (QueryEntity * list regex))
  (acc : Entities) :
  NoDup (keys acc) -> NoDup (keys (fold_left (pattern_step list_of_set query) table acc)).
Proof.
  revert acc. induction table as [|kp table IH]; intros acc ND; [exact ND|].
  cbn [fold_left]. apply IH. unfold pattern_step.
  destruct (candidates (snd kp) query); [exact ND|].
  now apply (NoDup_keys_setitem _ entity_eqb_eq).
Qed.

(** What the pattern source holds for a kind. *)
Lemma get_extract_with_patterns (kind : QueryEntity) :
  get entity_eqb (_extract_with_patterns list_of_set query) kind =
  match candidates (patterns_of kind) query with
  | [] => None
  | found => Some (list_of_set found)
  end.
Proof.
  unfold _extract_with_patterns.
  rewrite get_pattern_fold by exact pattern_table_keys.
  unfold patterns_of.
  destruct (get entity_eqb pattern_table kind) eqn:G.
  - reflexivity.
  - destruct kind; discriminate.
Qed.

Lemma keys_extract_with_patterns :
  NoDup (keys (_extract_with_patterns list_of_set query)).
Proof.
  unfold _extract_with_patterns.
  apply keys_pattern_fold. constructor.
Qed.

(** What the merged dictionary holds for a kind: the tagger's entry when it
    has one, the pattern entry otherwise. *)
Lemma get_extract_entities (self : t) (kind : QueryEntity) :
  get entity_eqb (_extract_entities list_of_set self query) kind =
  match get entity_eqb (rev (tagger_entities self query)) kind with
  | Some l => Some l
  | None => get entity_eqb (_extract_with_patterns list_of_set query) kind
  end.
Proof.
  unfold _extract_entities, tagger_entities.
  assert (E0 : get entity_eqb
                   (update entity_eqb [] (_extract_with_patterns list_of_set query))
                   kind =
               get entity_eqb (_extract_with_patterns list_of_set query) kind).
  { rewrite (get_update _ entity_eqb_eq).
    rewrite (get_rev _ entity_eqb_eq) by apply keys_extract_with_patterns.
    destruct (get entity_eqb _ kind); reflexivity. }
  destruct (nlp self) as [model|].
  - rewrite (get_update _ entity_eqb_eq), E0. reflexivity.
  - exact E0.
Qed.

End Extraction.

Lemma first_occurrence_listing : set_listing first_occurrence.
Proof.
  intros xs. unfold first_occurrence. split.
  - apply NoDup_rev. apply NoDup_nodup.
  - intros x. rewrite <- in_rev, nodup_In, <- in_rev. tauto.
Qed.

Lemma last_occurrence_listing : set_listing last_occurrence.
Proof.
  intros xs. unfold last_occurrence. split.
  - apply NoDup_nodup.
  - intros x. rewrite nodup_In. tauto.
Qed.

(** ** Properties of the classifier *)

(** C3.  For every query and every entity dictionary, [_classify_intent]
    scores each of the five intents by the number of its trigger keywords
    contained in the query plus the entity bonuses (the [scores] dictionary
    holds exactly these, in table order).  When every score is zero
    the result is general-question with confidence exactly 1/2.  Otherwise the
    result is an intent of maximal score, the first such one in the declaration
    order of the table, with confidence its score divided by the sum of the
    sizes of the keyword tables (51), clamped to 1.  In particular, with a
    tagger that finds nothing in the empty text (or without tagger),
    [process_query("")] yields general-question, confidence 1/2 and no
    entities. *)
Theorem classify_intent_by_score (query : string) (es : Entities) :
  let score i := intent_score i query es in
  let result := _classify_intent query es in
  intent_scores query es = map (fun i => (i, score i)) five_intents /\
  length five_intents = 5 /\
  table_size = 51 /\
  ((forall i, In i five_intents -> score i = 0) ->
   result = (GENERAL_QUESTION, (1 # 2)%Q)) /\
  ((exists i, In i five_intents /\ score i <> 0) ->
   In (fst result) five_intents /\
   (forall j, In j five_intents -> score j <= score (fst result)) /\
   (forall j, In j five_intents ->
              table_rank j < table_rank (fst result) ->
              score j < score (fst result)) /\
   snd result = min_one (nat_ratio (score (fst result)) table_size)) /\
  (forall (list_of_set : list string -> list string) (self : t),
     quiet_on_empty self ->
     exists a, process_query list_of_set self (PyStr "") = Ok a /\
               intent a = GENERAL_QUESTION /\
               confidence a = (1 # 2)%Q /\
               entities a = []).
Proof.
  intros score result.
  split; [apply intent_scores_eq|].
  split; [reflexivity|]. split; [reflexivity|].
  pose proof (max_of_five score) as M. cbv zeta in M.
  destruct M as (Mv & Min & Mle & Mlt).
  assert (R : result =
              if (max_value (map (fun i => (i, score i)) five_intents) =? 0)%nat
              then (GENERAL_QUESTION, (1 # 2)%Q)
              else (max_key INFORMATION_RETRIEVAL (score INFORMATION_RETRIEVAL)
                            (tl (map (fun i => (i, score i)) five_intents)),
                    min_one
                      (nat_ratio
                         (max_value (map (fun i => (i, score i)) five_intents))
                         total_possible)))
    by exact (classify_intent_unfold query es).
  split; [|split].
  - intros Hz. rewrite R, Mv.
    rewrite (Hz _ Min). reflexivity.
  - intros (i & Hi & Hnz). rewrite R, Mv.
    destruct (Nat.eqb_spec
                (score (max_key INFORMATION_RETRIEVAL
                          (score INFORMATION_RETRIEVAL)
                          (tl (map (fun i => (i, score i)) five_intents)))) 0)
      as [E|E].
    + specialize (Mle i Hi). lia.
    + cbn [fst snd]. repeat split; auto.
  - intros list_of_set self Hq.
    unfold process_query, process_query_body.
    cbn [_preprocess_query bind lower collapse_ws strip lstrip rstrip sub_punct].
    assert (E : _extract_entities list_of_set self "" = []).
    { unfold _extract_entities.
      replace (_extract_with_patterns list_of_set "")
        with (@nil (QueryEntity * list string)) by (vm_compute; reflexivity).
      cbn [update fold_left].
      destruct (nlp self) as [model|] eqn:En; [|reflexivity].
      unfold _extract_with_spacy.
      destruct (model "") as [doc|e] eqn:Em; [|reflexivity].
      destruct (Hq model doc En Em) as [-> ->]. reflexivity. }
    rewrite E.
    replace (_classify_intent "" []) with (GENERAL_QUESTION, (1 # 2)%Q)
      by (vm_compute; reflexivity).
    cbn [try_except]. eexists. split; [reflexivity|]. cbn. auto.
Qed.

Lemma classify_intent_by_score_witness :
  (exists i, In i five_intents /\
             intent_score i "api endpoint documentation" [] <> 0) /\
  quiet_on_empty india_tagger /\
  _classify_intent "api endpoint documentation" [] = (API_HELP, (3 # 51)%Q) /\
  snd (_classify_intent "api endpoint documentation" []) =
    min_one (nat_ratio
               (intent_score (fst (_classify_intent "api endpoint documentation" []))
                             "api endpoint documentation" [])
               table_size) /\
  exists a, process_query first_occurrence india_tagger (PyStr "") = Ok a /\
            intent a = GENERAL_QUESTION /\
            confidence a = (1 # 2)%Q /\
            entities a = [].
Proof.
  assert (H1 : exists i, In i five_intents /\
                         intent_score i "api endpoint documentation" [] <> 0).
  { exists API_HELP. split; [simpl; tauto|]. vm_compute. discriminate. }
  assert (H2 : quiet_on_empty india_tagger).
  { intros model doc E1 E2. injection E1 as <-. injection E2 as <-.
    split; reflexivity. }
  destruct (classify_intent_by_score "api endpoint documentation" [])
    as (_ & _ & _ & _ & Hmax & Hempty).
  split; [exact H1|]. split; [exact H2|].
  split; [vm_compute; reflexivity|].
  split; [exact (proj2 (proj2 (proj2 (Hmax H1))))|].
  exact (Hempty first_occurrence india_tagger H2).
Defined.

(** C4, as worded, fails.  With a tagger that reports both occurrences of
    [india], the location entry keeps the duplicate; with a tagger that
    reports [delhi], the pattern candidate [delhi today] is dropped from the
    location entry instead of being merged; and with a set that lists its
    elements by last occurrence, the pattern candidates do not come in order of
    first occurrence. *)
Lemma extract_entities_not_merged :
  (get entity_eqb (_extract_entities first_occurrence india_tagger "india india")
       LOCATION = Some ["india"; "india"] /\
   ~ NoDup ["india"; "india"] /\
   merged_by_first_occurrence india_tagger "india india" LOCATION = ["india"]) /\
  (get entity_eqb
       (_extract_entities first_occurrence delhi_tagger "weather in delhi today")
       LOCATION = Some ["delhi"] /\
   merged_by_first_occurrence delhi_tagger "weather in delhi today" LOCATION
     = ["delhi today"; "delhi"]) /\
  (set_listing last_occurrence /\
   get entity_eqb
       (_extract_entities last_occurrence no_tagger
                          "insat-3d satellite data from oceansat-2")
       SATELLITE = Some ["insat-3d"; "oceansat-2"] /\
   merged_by_first_occurrence no_tagger
       "insat-3d satellite data from oceansat-2" SATELLITE
     = ["oceansat-2"; "insat-3d"]).
Proof.
  split; [|split].
  - split; [vm_compute; reflexivity|]. split; [|vm_compute; reflexivity].
    intros ND. inversion ND as [|? ? Hnot _]; subst. apply Hnot. now left.
  - split; vm_compute; reflexivity.
  - split; [exact last_occurrence_listing|]. split; vm_compute; reflexivity.
Qed.

(** C4, amended.  For every query and every kind, whatever order the set
    lists its elements in: the pattern source holds no entry for a kind
    without candidate, and otherwise the kind's candidates without duplicates;
    the merged dictionary has an entry for a kind exactly when one of the two
    sources has one; and a kind the tagger has no entry for keeps the entry of
    the pattern source. *)
Theorem extract_entities_by_kind (list_of_set : list string -> list string)
  (self : t) (query : string) (kind : QueryEntity) :
  set_listing list_of_set ->
  let found := candidates (patterns_of kind) query in
  let by_pattern := _extract_with_patterns list_of_set query in
  let merged := _extract_entities list_of_set self query in
  (found = [] -> get entity_eqb by_pattern kind = None) /\
  (found <> [] ->
   exists l, get entity_eqb by_pattern kind = Some l /\
             NoDup l /\ forall x, In x l <-> In x found) /\
  mem entity_eqb merged kind =
    mem entity_eqb by_pattern kind ||
    mem entity_eqb (tagger_entities self query) kind /\
  (get entity_eqb (tagger_entities self query) kind = None ->
   get entity_eqb merged kind = get entity_eqb by_pattern kind).
Proof.
  intros Hset found by_pattern merged.
  pose proof (get_extract_with_patterns list_of_set query kind) as GP.
  fold found by_pattern in GP.
  pose proof (get_extract_entities list_of_set query self kind) as GE.
  fold merged by_pattern in GE.
  repeat split.
  - intros E. rewrite GP, E. reflexivity.
  - intros NE. rewrite GP. destruct found as [|x xs] eqn:Ef; [congruence|].
    exists (list_of_set (x :: xs)). split; [reflexivity|].
    destruct (Hset (x :: xs)) as [ND Hin]. split; assumption.
  - unfold mem. rewrite GE.
    destruct (get entity_eqb (tagger_entities self query) kind) as [l|] eqn:ET.
    + destruct (get_rev_Some _ entity_eqb_eq _ _ ET) as [l' ->].
      now rewrite orb_true_r.
    + rewrite (get_rev_None _ entity_eqb_eq _ _ ET). now rewrite orb_false_r.
  - intros ET. rewrite GE, (get_rev_None _ entity_eqb_eq _ _ ET). reflexivity.
Qed.

Lemma extract_entities_by_kind_witness :
  set_listing first_occurrence /\
  candidates (patterns_of SATELLITE) "insat-3d satellite data from oceansat-2"
    = ["oceansat-2"; "insat-3d"; "oceansat-2"] /\
  (exists l,
     get entity_eqb
         (_extract_with_patterns first_occurrence
                                 "insat-3d satellite data from oceansat-2")
         SATELLITE = Some l /\
     NoDup l /\
     forall x, In x l <->
               In x (candidates (patterns_of SATELLITE)
                                "insat-3d satellite data from oceansat-2")) /\
  get entity_eqb
      (_extract_entities first_occurrence india_tagger
                         "insat-3d satellite data from oceansat-2") SATELLITE
  = get entity_eqb
      (_extract_with_patterns first_occurrence
                              "insat-3d satellite data from oceansat-2")
      SATELLITE.
Proof.
  destruct (extract_entities_by_kind india_tagger
              "insat-3d satellite data from oceansat-2" SATELLITE
              first_occurrence_listing) as (_ & Hsome & _ & Hkeep).
  split; [exact first_occurrence_listing|].
  split; [vm_compute; reflexivity|].
  split.
  - apply Hsome. vm_compute. discriminate.
  - apply Hkeep. vm_compute. reflexivity.
Defined.

(** C8.  [process_query] never raises, whatever it is called with: when
    something in its body raises, it returns intent unknown, confidence 0, no
    entities and no keywords (and the query as it came); on a query text the
    body does not raise and its analysis is returned. *)
Theorem process_query_never_raises (list_of_set : list string -> list string)
  (self : t) (query : pyval) :
  (exists a, process_query list_of_set self query = Ok a) /\
  (forall e, process_query_body list_of_set self query = Raise e ->
             process_query list_of_set self query =
             Ok {| intent := UNKNOWN; entities := []; confidence := 0%Q;
                   keywords := []; original_query := query;
                   processed_query := query |}) /\
  (forall s, query = PyStr s ->
             exists a, process_query_body list_of_set self query = Ok a /\
                       process_query list_of_set self query = Ok a).
Proof.
  unfold process_query. split; [|split].
  - destruct (process_query_body list_of_set self query) as [a|e];
      cbn [try_except]; eexists; reflexivity.
  - intros e ->. reflexivity.
  - intros s ->. unfold process_query_body.
    cbn [_preprocess_query bind].
    destruct (_classify_intent _ _) as [i c].
    eexists. split; reflexivity.
Qed.

Lemma process_query_never_raises_witness :
  process_query_body first_occurrence india_tagger PyNone =
    Raise (AttributeError "object has no attribute 'lower'") /\
  process_query first_occurrence india_tagger PyNone =
    Ok {| intent := UNKNOWN; entities := []; confidence := 0%Q;
          keywords := []; original_query := PyNone;
          processed_query := PyNone |} /\
  exists a, process_query_body first_occurrence india_tagger
                               (PyStr "India, India!") = Ok a /\
            process_query first_occurrence india_tagger
                          (PyStr "India, India!") = Ok a.
Proof.
  split; [reflexivity|]. split.
  - exact (proj1 (proj2 (process_query_never_raises first_occurrence
                           india_tagger PyNone))
                 (AttributeError "object has no attribute 'lower'") eq_refl).
  - exact (proj2 (proj2 (process_query_never_raises first_occurrence
                           india_tagger (PyStr "India, India!")))
                 "India, India!" eq_refl).
Defined.

End QueryProcessorFacts.

(* ================================================================== *)
(** * The knowledge graph and its search *)
(* ================================================================== *)

Module GraphManagerFacts.
Import Py GraphManager PyFacts.
Local Open Scope string_scope.

(** ** Cosine similarity *)














(** ** Sorting *)

Section SortFacts.
Variable A : Type.
Variable key : A -> R.

Lemma insert_desc_In (x y : A) (l : list A) :
  In y (insert_desc key x l) <-> y = x \/ In y l.
Proof.
  induction l as [|z l IH]; simpl.
  - intuition.
  - destruct (Rlt_dec (key x) (key z)); simpl; [rewrite IH|]; intuition.
Qed.

Lemma insert_desc_length (x : A) (l : list A) :
  length (insert_desc key x l) = S (length l).
Proof.
  induction l as [|z l IH]; simpl; [reflexivity|].
  destruct (Rlt_dec (key x) (key z)); simpl; [now rewrite IH|reflexivity].
Qed.

Lemma sort_desc_In (y : A) (l : list A) : In y (sort_desc key l) <-> In y l.
Proof.
  induction l as [|x l IH]; simpl; [tauto|].
  rewrite insert_desc_In, IH. intuition.
Qed.

Lemma sort_desc_length (l : list A) : length (sort_desc key l) = length l.
Proof.
  induction l as [|x l IH]; simpl; [reflexivity|].
  now rewrite insert_desc_length, IH.
Qed.

Variable prec : A -> A -> Prop.

Lemma insert_desc_sorted (x : A) (l : list A) :
  StronglySorted (ranked_before key prec) l ->
  Forall (prec x) l ->
  StronglySorted (ranked_before key prec) (insert_desc key x l).
Proof.
  induction l as [|y l IH]; intros HS HP; simpl.
  - constructor; constructor.
  - inversion HS as [|? ? HS' Hy]; subst.
    inversion HP as [|? ? Hxy HP']; subst.
    destruct (Rlt_dec (key x) (key y)) as [Hlt|Hge].
    + constructor; [now apply IH|].
      apply Forall_forall. intros z Hz.
      apply (proj1 (insert_desc_In x z l)) in Hz.
      destruct Hz as [->|Hz].
      * now left.
      * rewrite Forall_forall in Hy. now apply Hy.
    + constructor; [exact HS|].
      assert (Hxy' : ranked_before key prec x y).
      { assert (Hle : (key y <= key x)%R) by lra.
        destruct (Rle_lt_or_eq_dec _ _ Hle) as [H|H]; [now left|].
        right. split; [now symmetry|exact Hxy]. }
      constructor; [exact Hxy'|].
      apply Forall_forall. intros z Hz.
      rewrite Forall_forall in Hy, HP'.
      specialize (Hy z Hz). specialize (HP' z Hz).
      unfold ranked_before in *.
      destruct Hy as [Hy|[Hy _]].
      * left. lra.
      * assert (Hle : (key y <= key x)%R) by lra.
        destruct (Rle_lt_or_eq_dec _ _ Hle) as [H|H].
        -- left. lra.
        -- right. split; [congruence|exact HP'].
Qed.

(** The stable sort ranks its result: by decreasing key, and by the order of
    the input among equal keys. *)
Lemma sort_desc_sorted (l : list A) :
  StronglySorted prec l ->
  StronglySorted (ranked_before key prec) (sort_desc key l).
Proof.
  induction l as [|x l IH]; intros HS.
  - constructor.
  - inversion HS as [|? ? HS' Hx]; subst.
    change (sort_desc key (x :: l)) with (insert_desc key x (sort_desc key l)).
    apply insert_desc_sorted.
    + apply IH. exact HS'.
    + apply Forall_forall. intros z Hz.
      apply (proj1 (sort_desc_In z l)) in Hz.
      rewrite Forall_forall in Hx. now apply Hx.
Qed.

End SortFacts.

Lemma StronglySorted_weaken {A : Type} (R1 R2 : A -> A -> Prop) (l : list A) :
  (forall a b, R1 a b -> R2 a b) ->
  StronglySorted R1 l -> StronglySorted R2 l.
Proof.
  intros Himp. induction 1 as [|x l HS IH Hx]; constructor; [exact IH|].
  eapply Forall_impl; [|exact Hx]. intros b. apply Himp.
Qed.

Lemma StronglySorted_firstn {A : Type} (R0 : A -> A -> Prop) (n : nat)
  (l : list A) :
  StronglySorted R0 l -> StronglySorted R0 (firstn n l).
Proof.
  revert n. induction l as [|x l IH]; intros [|n] HS; simpl;
    try constructor.
  - apply IH. now inversion HS.
  - inversion HS as [|? ? _ Hx]; subst.
    rewrite Forall_forall in *. intros z Hz. apply Hx.
    rewrite <- (firstn_skipn n l). apply in_or_app. now left.
Qed.

Lemma StronglySorted_before {A : Type} (R0 : A -> A -> Prop) (l : list A)
  (a b : A) :
  StronglySorted R0 l -> before l a b -> R0 a b.
Proof.
  intros HS (l1 & l2 & l3 & ->). induction l1 as [|x l1 IH]; simpl in HS.
  - inversion HS as [|? ? _ Ha]; subst. rewrite Forall_forall in Ha.
    apply Ha. apply in_or_app. right. now left.
  - apply IH. now inversion HS.
Qed.

Lemma before_cons {A : Type} (x : A) (l : list A) (a b : A) :
  before l a b -> before (x :: l) a b.
Proof.
  intros (l1 & l2 & l3 & ->). now exists (x :: l1), l2, l3.
Qed.

Lemma before_head {A : Type} (x : A) (l : list A) (b : A) :
  In b l -> before (x :: l) x b.
Proof.
  intros H. apply in_split in H. destruct H as (l2 & l3 & ->).
  now exists [], l2, l3.
Qed.

Lemma subseq_In {A : Type} (s l : list A) (x : A) :
  subseq s l -> In x s -> In x l.
Proof.
  induction 1 as [l|s y l _ IH|s y l _ IH]; simpl; intros H.
  - contradiction.
  - right. now apply IH.
  - destruct H as [->|H]; [now left|right; now apply IH].
Qed.

(** A list drawn in order from the nodes is sorted by insertion order. *)
Lemma subseq_sorted {B : Type} (f : B -> NodeId) (hits : list B)
  (l : list NodeId) :
  subseq (map f hits) l ->
  StronglySorted (fun h1 h2 => before l (f h1) (f h2)) hits.
Proof.
  intros H. remember (map f hits) as s eqn:Es. revert hits Es.
  induction H as [l|s y l _ IH|s y l Hs IH]; intros hits Es.
  - destruct hits; [constructor|discriminate].
  - eapply StronglySorted_weaken; [|apply IH; exact Es].
    intros a b. apply before_cons.
  - destruct hits as [|h hits]; [discriminate|].
    injection Es as -> ->. constructor.
    + eapply StronglySorted_weaken; [|apply IH; reflexivity].
      intros a b. apply before_cons.
    + apply Forall_forall. intros h2 Hh2. apply before_head.
      eapply subseq_In; [exact Hs|]. now apply in_map.
Qed.

Lemma before_NoDup_asym {A : Type} (l : list A) (a b : A) :
  NoDup l -> before l a b -> ~ before l b a.
Proof.
  intros ND (l1 & l2 & l3 & E) (m1 & m2 & m3 & E').
  subst l. revert m1 ND E'.
  induction l1 as [|x l1 IH]; intros m1 ND E'; simpl in *.
  - inversion ND as [|? ? Hnot _]; subst. apply Hnot.
    destruct m1 as [|y m1]; simpl in E'; injection E' as Ea Et.
    + subst b. apply in_or_app. right. now left.
    + rewrite Et. apply in_or_app. right. right.
      apply in_or_app. right. now left.
  - inversion ND as [|? ? Hnot ND']; subst.
    destruct m1 as [|y m1]; simpl in E'; injection E' as Ea Et.
    + subst x. apply Hnot. apply in_or_app. right. right.
      apply in_or_app. right. now left.
    + exact (IH m1 ND' Et).
Qed.


(** ** Graph operations *)

Lemma NodeId_eqb_eq (a b : NodeId) : NodeId_eqb a b = true <-> a = b.
Proof.
  destruct a as [n|x], b as [m|y]; simpl; split; intros H;
    try discriminate.
  - apply Nat.eqb_eq in H. now subst.
  - injection H as ->. apply Nat.eqb_refl.
  - apply Z.eqb_eq in H. now subst.
  - injection H as ->. apply Z.eqb_refl.
Qed.

Lemma mem_app {K V : Type} (eqb : K -> K -> bool) (d1 d2 : dict K V) (k : K) :
  mem eqb (d1 ++ d2)%list k = mem eqb d1 k || mem eqb d2 k.
Proof.
  unfold mem. rewrite get_app. destruct (get eqb d1 k); reflexivity.
Qed.

Lemma In_setitem {K V : Type} (eqb : K -> K -> bool)
  (eqb_eq : forall a b, eqb a b = true <-> a = b)
  (d : dict K V) (k : K) (v : V) (x : K * V) :
  In x (setitem eqb d k v) -> x = (k, v) \/ In x d.
Proof.
  induction d as [|[k0 v0] d IH]; simpl.
  - intros [<-|[]]. now left.
  - destruct (eqb k k0) eqn:E; simpl.
    + apply eqb_eq in E. subst k0. intros [<-|H]; [now left|right; now right].
    + intros [<-|H]; [right; now left|].
      destruct (IH H) as [->|H']; [now left|right; now right].
Qed.

Lemma add_node_fresh (g : MultiDiGraph) (id : NodeId) (a : attrs) :
  get NodeId_eqb (nodes g) id = None ->
  add_node g id a =
  {| nodes := (nodes g ++ [(id, update String.eqb [] a)])%list;
     edges := edges g |}.
Proof.
  intros H. unfold add_node. rewrite H. now rewrite setitem_fresh.
Qed.

Lemma add_edge_present (g : MultiDiGraph) (u v : NodeId) (a : attrs) :
  mem NodeId_eqb (nodes g) u = true ->
  mem NodeId_eqb (nodes g) v = true ->
  add_edge g u v a =
  {| nodes := nodes g; edges := (edges g ++ [(u, v, a)])%list |}.
Proof.
  intros Hu Hv. unfold add_edge. rewrite Hu, Hv. reflexivity.
Qed.

Lemma edges_add_node (g : MultiDiGraph) (id : NodeId) (a : attrs) :
  edges (add_node g id a) = edges g.
Proof. reflexivity. Qed.

Lemma edges_add_edge (g : MultiDiGraph) (u v : NodeId) (a : attrs) :
  edges (add_edge g u v a) = (edges g ++ [(u, v, a)])%list.
Proof.
  unfold add_edge.
  destruct (mem NodeId_eqb (nodes g) u);
    destruct (mem NodeId_eqb _ v); reflexivity.
Qed.

Lemma mem_add_node_same (g : MultiDiGraph) (id : NodeId) (a : attrs) :
  mem NodeId_eqb (nodes (add_node g id a)) id = true.
Proof.
  unfold mem, add_node. cbn [nodes].
  now rewrite (get_setitem_same _ NodeId_eqb_eq).
Qed.

Lemma mem_add_node_other (g : MultiDiGraph) (id x : NodeId) (a : attrs) :
  mem NodeId_eqb (nodes g) x = true ->
  mem NodeId_eqb (nodes (add_node g id a)) x = true.
Proof.
  unfold mem, add_node. cbn [nodes].
  rewrite (get_setitem _ NodeId_eqb_eq).
  destruct (NodeId_eqb x id); [reflexivity|tauto].
Qed.

(** ** Shapes *)

Lemma has_type_other (t1 t2 : string) (d : attrs) :
  has_type t1 d = true -> t1 <> t2 -> has_type t2 d = false.
Proof.
  unfold has_type. destruct (get String.eqb d "type") as [[s| | |]|];
    try discriminate.
  intros H Hne. apply String.eqb_eq in H. subst s.
  now apply String.eqb_neq.
Qed.

Lemma content_attrs_shaped (old : attrs) (cd : ContentData) :
  get String.eqb old "embedding" = None ->
  content_shaped (update String.eqb old (content_attrs cd)).
Proof.
  intros Hold. unfold content_shaped, has_type, is_str.
  rewrite !(get_update _ string_eqb_eq). cbn. rewrite Hold.
  repeat split; eauto.
Qed.

Ltac derived_attrs :=
  unfold derived_shaped, has_type; cbn;
  repeat split; try reflexivity;
  intros e H; try discriminate H; reflexivity.

Lemma question_attrs_shaped (self : t) (faq : Faq) :
  derived_shaped (update String.eqb [] (question_attrs self faq)).
Proof. derived_attrs. Qed.

Lemma answer_attrs_shaped (self : t) (faq : Faq) :
  derived_shaped (update String.eqb [] (answer_attrs self faq)).
Proof. derived_attrs. Qed.

(** ** Well-formedness is kept *)

Lemma wf_nodes_mono (b b' : nat) (ns : dict NodeId attrs) :
  b <= b' -> wf_nodes b ns -> wf_nodes b' ns.
Proof.
  intros Hle [ND HF]. split; [exact ND|].
  eapply Forall_impl; [|exact HF].
  intros [[n|z] d]; unfold node_ok; cbn; [|tauto].
  intros [Hn Hs]. split; [lia|exact Hs].
Qed.

Lemma wf_nodes_fresh (b u : nat) (ns : dict NodeId attrs) :
  wf_nodes b ns -> b <= u -> get NodeId_eqb ns (Uuid u) = None.
Proof.
  intros [_ HF] Hle. apply (get_None_keys _ NodeId_eqb_eq).
  intros HIn. unfold keys in HIn. apply in_map_iff in HIn.
  destruct HIn as ([id d] & Hid & HIn). cbn in Hid. subst id.
  rewrite Forall_forall in HF. specialize (HF _ HIn).
  unfold node_ok in HF. cbn in HF. lia.
Qed.

Lemma wf_nodes_setitem (b : nat) (ns : dict NodeId attrs) (id : NodeId)
  (d : attrs) :
  wf_nodes b ns -> node_ok b (id, d) ->
  wf_nodes b (setitem NodeId_eqb ns id d).
Proof.
  intros [ND HF] Hok. split.
  - now apply (NoDup_keys_setitem _ NodeId_eqb_eq).
  - apply Forall_forall. intros x Hx.
    apply (In_setitem _ NodeId_eqb_eq) in Hx. destruct Hx as [->|Hx].
    + exact Hok.
    + rewrite Forall_forall in HF. now apply HF.
Qed.

(** Adding a node under a UUID that was not drawn before. *)
Lemma wf_add_uuid_node (b b' u : nat) (g : MultiDiGraph) (a : attrs) :
  wf_nodes b (nodes g) -> b <= u -> u < b' ->
  content_shaped (update String.eqb [] a) \/
  derived_shaped (update String.eqb [] a) ->
  wf_nodes b' (nodes (add_node g (Uuid u) a)).
Proof.
  intros Hwf Hle Hlt Hshape. unfold add_node. cbn [nodes].
  rewrite (wf_nodes_fresh Hwf Hle).
  apply wf_nodes_setitem.
  - eapply wf_nodes_mono; [|exact Hwf]. lia.
  - unfold node_ok. cbn. split; [exact Hlt|exact Hshape].
Qed.


Lemma derived_node_shaped (kind : string) (key : string) (v : attr) :
  kind <> "content" -> kind <> "question" -> kind <> "answer" ->
  key <> "title" -> key <> "text_content" -> key <> "embedding" ->
  key <> "type" ->
  derived_shaped (update String.eqb [] [("type", AStr kind); (key, v)]).
Proof.
  intros K1 K2 K3 H1 H2 H3 H4.
  assert (E : update String.eqb [] [("type", AStr kind); (key, v)] =
              [("type", AStr kind); (key, v)]).
  { unfold update. cbn [fold_left setitem fst snd].
    rewrite (proj2 (String.eqb_neq key "type") H4). reflexivity. }
  rewrite E. unfold derived_shaped, has_type. cbn [get].
  rewrite (proj2 (String.eqb_neq "title" key)) by congruence.
  rewrite (proj2 (String.eqb_neq "text_content" key)) by congruence.
  rewrite (proj2 (String.eqb_neq "embedding" key)) by congruence.
  cbn. rewrite (proj2 (String.eqb_neq kind "content") K1).
  repeat split. intros e H. discriminate H.
Qed.

Lemma link_attrs_shaped (link : DownloadLink) :
  derived_shaped (update String.eqb [] (link_attrs link)).
Proof. derived_attrs. Qed.

Lemma derive_kept (c : NodeId) (self : t) (a : attrs) (relation : string) :
  well_formed self ->
  mem NodeId_eqb (nodes (nx_graph self)) c = true ->
  derived_shaped (update String.eqb [] a) ->
  kept c self (derive c self a relation).
Proof.
  intros Hwf Hc Hshape. unfold derive, uuid4, with_graph, kept, well_formed.
  cbn [nx_graph uuid_next embedding_model graph].
  assert (W : wf_nodes (S (uuid_next self))
                       (nodes (add_node (nx_graph self) (Uuid (uuid_next self)) a))).
  { eapply wf_add_uuid_node; [exact Hwf|lia|lia|now right]. }
  rewrite add_edge_present.
  - cbn [nodes]. repeat split; try exact (proj1 W); try exact (proj2 W).
    + now apply mem_add_node_other.
    + lia.
  - now apply mem_add_node_other.
  - apply mem_add_node_same.
Qed.

Lemma kept_trans (c : NodeId) (s1 s2 s3 : t) :
  kept c s1 s2 -> kept c s2 s3 -> kept c s1 s3.
Proof.
  intros (W2 & M2 & E2 & G2 & U2) (W3 & M3 & E3 & G3 & U3).
  repeat split; try assumption; try congruence; try apply W3. lia.
Qed.

Lemma kept_refl (c : NodeId) (self : t) :
  well_formed self -> mem NodeId_eqb (nodes (nx_graph self)) c = true ->
  kept c self self.
Proof. intros W M. repeat split; try assumption; try apply W. lia. Qed.

Lemma kept_fold {X : Type} (c : NodeId) (step : t -> X -> t) (xs : list X) :
  (forall s x, well_formed s -> mem NodeId_eqb (nodes (nx_graph s)) c = true ->
               kept c s (step s x)) ->
  forall self, well_formed self ->
               mem NodeId_eqb (nodes (nx_graph self)) c = true ->
               kept c self (fold_left step xs self).
Proof.
  intros Hstep. induction xs as [|x xs IH]; intros self W M; cbn [fold_left].
  - now apply kept_refl.
  - pose proof (Hstep self x W M) as K.
    eapply kept_trans; [exact K|]. apply IH; apply K.
Qed.

(** ** Ingestion of question/answer pairs *)

Lemma question_attrs_model (s1 s2 : t) (faq : Faq) :
  embedding_model s1 = embedding_model s2 ->
  question_attrs s1 faq = question_attrs s2 faq.
Proof.
  intros E. unfold question_attrs, _get_embedding. now rewrite E.
Qed.

Lemma answer_attrs_model (s1 s2 : t) (faq : Faq) :
  embedding_model s1 = embedding_model s2 ->
  answer_attrs s1 faq = answer_attrs s2 faq.
Proof.
  intros E. unfold answer_attrs, _get_embedding. now rewrite E.
Qed.

Lemma faq_nodes_model (s1 s2 : t) (u : nat) (fs : list Faq) :
  embedding_model s1 = embedding_model s2 ->
  faq_nodes s1 u fs = faq_nodes s2 u fs.
Proof.
  intros E. revert u. induction fs as [|faq fs IH]; intros u; cbn [faq_nodes].
  - reflexivity.
  - now rewrite IH, (@question_attrs_model s1 s2 faq E),
      (@answer_attrs_model s1 s2 faq E).
Qed.

(** What one turn of the loop does to a well-formed state that holds the
    content node. *)
Lemma faq_step_eq (c : NodeId) (self : t) (faq : Faq) :
  well_formed self ->
  mem NodeId_eqb (nodes (nx_graph self)) c = true ->
  faq_step c self faq =
  {| graph := graph self;
     nx_graph :=
       {| nodes := (nodes (nx_graph self) ++
                    [(Uuid (uuid_next self), question_attrs self faq);
                     (Uuid (S (uuid_next self)), answer_attrs self faq)])%list;
          edges := (edges (nx_graph self) ++
                    [(c, Uuid (uuid_next self), [("type", AStr "contains")]);
                     (Uuid (uuid_next self), Uuid (S (uuid_next self)),
                      [("type", AStr "has_answer")])])%list |};
     embedding_model := embedding_model self;
     uuid_next := S (S (uuid_next self)) |}.
Proof.
  intros Hwf Hc. unfold faq_step, uuid4, with_graph.
  cbn [nx_graph uuid_next embedding_model graph].
  set (u := uuid_next self).
  set (s2 := {| graph := graph self; nx_graph := nx_graph self;
                embedding_model := embedding_model self;
                uuid_next := S (S u) |}).
  rewrite (@question_attrs_model s2 self faq eq_refl).
  rewrite (@answer_attrs_model s2 self faq eq_refl).
  assert (F1 : get NodeId_eqb (nodes (nx_graph self)) (Uuid u) = None)
    by (apply (wf_nodes_fresh Hwf); unfold u; lia).
  assert (F2 : get NodeId_eqb (nodes (nx_graph self)) (Uuid (S u)) = None)
    by (apply (wf_nodes_fresh Hwf); unfold u; lia).
  rewrite (add_node_fresh _ _ _ F1).
  rewrite add_node_fresh.
  2:{ cbn [nodes]. rewrite get_app, F2. cbn [get NodeId_eqb].
      rewrite (proj2 (Nat.eqb_neq (S u) u)) by lia. reflexivity. }
  cbn [nodes edges]. rewrite <- app_assoc. cbn [app].
  set (ns2 := (nodes (nx_graph self) ++
               [(Uuid u, update String.eqb [] (question_attrs self faq));
                (Uuid (S u), update String.eqb [] (answer_attrs self faq))])%list).
  assert (Mc : mem NodeId_eqb ns2 c = true).
  { unfold ns2. rewrite mem_app, Hc. reflexivity. }
  assert (Mq : mem NodeId_eqb ns2 (Uuid u) = true).
  { unfold ns2. rewrite mem_app. unfold mem at 2. cbn [get NodeId_eqb].
    rewrite Nat.eqb_refl. apply orb_true_r. }
  assert (Ma : mem NodeId_eqb ns2 (Uuid (S u)) = true).
  { unfold ns2. rewrite mem_app. unfold mem at 2. cbn [get NodeId_eqb].
    rewrite (proj2 (Nat.eqb_neq (S u) u)) by lia.
    rewrite Nat.eqb_refl. apply orb_true_r. }
  rewrite (add_edge_present {| nodes := ns2; edges := edges (nx_graph self) |}
             c (Uuid u) _ Mc Mq).
  rewrite (add_edge_present
             {| nodes := ns2;
                edges := (edges (nx_graph self) ++
                          [(c, Uuid u, [("type", AStr "contains")])])%list |}
             (Uuid u) (Uuid (S u)) _ Mq Ma).
  cbn [nodes edges]. rewrite <- !app_assoc. reflexivity.
Qed.

Lemma faq_step_kept (c : NodeId) (self : t) (faq : Faq) :
  well_formed self ->
  mem NodeId_eqb (nodes (nx_graph self)) c = true ->
  kept c self (faq_step c self faq).
Proof.
  intros Hwf Hc. rewrite (@faq_step_eq c self faq Hwf Hc).
  unfold kept, well_formed. cbn [nx_graph nodes uuid_next embedding_model graph].
  set (u := uuid_next self).
  assert (F1 : get NodeId_eqb (nodes (nx_graph self)) (Uuid u) = None)
    by (apply (wf_nodes_fresh Hwf); unfold u; lia).
  assert (W1 : wf_nodes (S u)
                 (nodes (add_node (nx_graph self) (Uuid u)
                                  (question_attrs self faq)))).
  { eapply wf_add_uuid_node;
      [exact Hwf|unfold u; lia|lia|right; apply question_attrs_shaped]. }
  rewrite (@add_node_fresh _ _ _ F1) in W1. cbn [nodes] in W1.
  assert (W2 : wf_nodes (S (S u))
                 (nodes (add_node
                           {| nodes := (nodes (nx_graph self) ++
                                [(Uuid u, update String.eqb []
                                            (question_attrs self faq))])%list;
                              edges := edges (nx_graph self) |}
                           (Uuid (S u)) (answer_attrs self faq)))).
  { eapply wf_add_uuid_node;
      [exact W1|lia|lia|right; apply answer_attrs_shaped]. }
  rewrite add_node_fresh in W2.
  2:{ apply (wf_nodes_fresh W1). lia. }
  cbn [nodes] in W2. rewrite <- app_assoc in W2.
  repeat split; try apply W2.
  - rewrite mem_app, Hc. reflexivity.
  - lia.
Qed.

(** What the whole loop does. *)
Lemma faq_fold_eq (c : NodeId) (fs : list Faq) (self : t) :
  well_formed self ->
  mem NodeId_eqb (nodes (nx_graph self)) c = true ->
  let self' := fold_left (faq_step c) fs self in
  nodes (nx_graph self') =
    (nodes (nx_graph self) ++ faq_nodes self (uuid_next self) fs)%list /\
  edges (nx_graph self') =
    (edges (nx_graph self) ++ faq_edges c (uuid_next self) fs)%list /\
  uuid_next self' = uuid_next self + 2 * length fs /\
  kept c self self'.
Proof.
  revert self. induction fs as [|faq fs IH]; intros self Hwf Hc;
    cbn [fold_left faq_nodes faq_edges length].
  - rewrite !app_nil_r.
    split; [reflexivity|]. split; [reflexivity|]. split; [lia|].
    now apply kept_refl.
  - pose proof (@faq_step_kept c self faq Hwf Hc) as K.
    destruct (IH _ (proj1 K) (proj1 (proj2 K))) as (Hn & He & Hu & K2).
    rewrite Hn, He, Hu.
    rewrite (@faq_nodes_model _ self _ fs (proj1 (proj2 (proj2 K)))).
    rewrite (@faq_step_eq c self faq Hwf Hc).
    cbn [nx_graph nodes edges uuid_next]. rewrite <- !app_assoc.
    split; [reflexivity|]. split; [reflexivity|]. split; [lia|].
    eapply kept_trans; [exact K|].
    rewrite (@faq_step_eq c self faq Hwf Hc) in K2. exact K2.
Qed.

(** ** Every reachable state is well formed *)

Lemma add_to_local_graph_eq (self : t) (cd : ContentData)
  (given : option NodeId) :
  _add_to_local_graph self cd given =
  (content_key self given,
   let s := content_added self cd given in
   let c := content_key self given in
   match content_type cd with
   | Some ct =>
       if ct =? "faq" then _process_faq_content s c cd
       else if ct =? "data" then _process_data_content s c cd
       else if ct =? "api" then _process_api_content s c cd
       else s
   | None => s
   end).
Proof.
  unfold _add_to_local_graph, content_added, content_key.
  destruct given as [[n|z]|]; cbn [falsy_id uuid4 snd]; try reflexivity.
  destruct (Z.eqb z 0); reflexivity.
Qed.

Lemma add_content_eq (self : t) (neo : neo_outcome) (cd : ContentData) :
  snd (add_content self neo cd) =
  snd (_add_to_local_graph self cd (given_key self neo)).
Proof.
  unfold add_content, given_key.
  destruct (negb (graph self)).
  - destruct (_add_to_local_graph self cd None). reflexivity.
  - destruct neo as [z|e].
    + destruct (_add_to_local_graph self cd (Some (Neo z))). reflexivity.
    + destruct (_add_to_local_graph self cd None). reflexivity.
Qed.

Lemma given_key_neo_or_none (self : t) (neo : neo_outcome) :
  neo_or_none (given_key self neo).
Proof.
  unfold given_key. destruct (negb (graph self)); [exact I|].
  destruct neo; exact I.
Qed.

Lemma wf_node_at (b : nat) (ns : dict NodeId attrs) (id : NodeId) (d : attrs) :
  wf_nodes b ns -> get NodeId_eqb ns id = Some d -> node_ok b (id, d).
Proof.
  intros [_ HF] G. apply (get_Some_In _ NodeId_eqb_eq) in G.
  rewrite Forall_forall in HF. now apply HF.
Qed.

Lemma content_added_kept (self : t) (cd : ContentData) (given : option NodeId) :
  well_formed self -> neo_or_none given ->
  kept (content_key self given) self (content_added self cd given).
Proof.
  intros Hwf Hg.
  assert (Fresh : kept (Uuid (uuid_next self)) self
            (with_graph (snd (uuid4 self))
               (add_node (nx_graph self) (Uuid (uuid_next self))
                         (content_attrs cd)))).
  { unfold kept, well_formed, with_graph, uuid4.
    cbn [snd nx_graph uuid_next embedding_model graph].
    split.
    - eapply wf_add_uuid_node; [exact Hwf|lia|lia|left].
      now apply content_attrs_shaped.
    - split; [apply mem_add_node_same|]. repeat split. lia. }
  unfold content_added, content_key.
  destruct given as [[n|z]|]; cbn [falsy_id]; [contradiction| |exact Fresh].
  destruct (Z.eqb z 0); [exact Fresh|].
  unfold kept, well_formed, with_graph.
  cbn [nx_graph uuid_next embedding_model graph].
  split; [|split; [apply mem_add_node_same|repeat split; lia]].
  unfold add_node. cbn [nodes]. apply wf_nodes_setitem; [exact Hwf|].
  unfold node_ok. cbn [fst snd]. apply content_attrs_shaped.
  destruct (get NodeId_eqb (nodes (nx_graph self)) (Neo z)) as [d|] eqn:G;
    [|reflexivity].
  pose proof (@wf_node_at _ _ _ _ Hwf G) as Hok. unfold node_ok in Hok.
  cbn [fst snd] in Hok. apply Hok.
Qed.

Lemma process_faq_kept (c : NodeId) (self : t) (cd : ContentData) :
  well_formed self -> mem NodeId_eqb (nodes (nx_graph self)) c = true ->
  kept c self (_process_faq_content self c cd).
Proof.
  intros W M. unfold _process_faq_content.
  apply kept_fold; [|exact W|exact M].
  intros s x Ws Ms. now apply faq_step_kept.
Qed.

Lemma process_data_kept (c : NodeId) (self : t) (cd : ContentData) :
  well_formed self -> mem NodeId_eqb (nodes (nx_graph self)) c = true ->
  kept c self (_process_data_content self c cd).
Proof.
  intros W M. unfold _process_data_content.
  assert (K1 : kept c self
            match data_info cd with
            | Some {| specifications := Some spec |} =>
                derive c self [("type", AStr "specifications"); ("data", spec)]
                       "has_specifications"
            | _ => self
            end).
  { destruct (data_info cd) as [[[spec|]]|]; try now apply kept_refl.
    apply derive_kept; [exact W|exact M|].
    apply derived_node_shaped; discriminate. }
  eapply kept_trans; [exact K1|].
  apply kept_fold; [|apply K1|apply K1].
  intros s x Ws Ms. unfold link_step.
  apply derive_kept; [exact Ws|exact Ms|apply link_attrs_shaped].
Qed.

Lemma process_api_kept (c : NodeId) (self : t) (cd : ContentData) :
  well_formed self -> mem NodeId_eqb (nodes (nx_graph self)) c = true ->
  kept c self (_process_api_content self c cd).
Proof.
  intros W M. unfold _process_api_content.
  set (api := getd (api_info cd) _).
  assert (K1 : kept c self
            match documentation api with
            | Some doc =>
                derive c self
                       [("type", AStr "api_documentation"); ("text", AStr doc)]
                       "has_documentation"
            | None => self
            end).
  { destruct (documentation api); [|now apply kept_refl].
    apply derive_kept; [exact W|exact M|].
    apply derived_node_shaped; discriminate. }
  destruct (code_examples api); [|exact K1].
  eapply kept_trans; [exact K1|].
  apply derive_kept; [apply K1|apply K1|].
  apply derived_node_shaped; discriminate.
Qed.

Lemma add_to_local_graph_wf (self : t) (cd : ContentData)
  (given : option NodeId) :
  well_formed self -> neo_or_none given ->
  well_formed (snd (_add_to_local_graph self cd given)).
Proof.
  intros W Hg. rewrite add_to_local_graph_eq. cbn [snd].
  pose proof (@content_added_kept self cd given W Hg) as K.
  destruct K as (W1 & M1 & _).
  destruct (content_type cd) as [ct|]; [|exact W1].
  destruct (ct =? "faq"); [now apply process_faq_kept|].
  destruct (ct =? "data"); [now apply process_data_kept|].
  destruct (ct =? "api"); [now apply process_api_kept|exact W1].
Qed.

Theorem reachable_well_formed (self : t) : reachable self -> well_formed self.
Proof.
  induction 1 as [neo4j model|self neo cd _ IH|self _ IH].
  - split; [constructor|constructor].
  - rewrite add_content_eq. apply add_to_local_graph_wf; [exact IH|].
    apply given_key_neo_or_none.
  - split; [constructor|constructor].
Qed.

(** ** Counting what a FAQ page adds *)

Lemma count_setitem (f : attrs -> bool) (ns : dict NodeId attrs) (id : NodeId)
  (d : attrs) :
  f d = false ->
  (forall old, get NodeId_eqb ns id = Some old -> f old = false) ->
  length (filter (fun nd => f (snd nd)) (setitem NodeId_eqb ns id d)) =
  length (filter (fun nd => f (snd nd)) ns).
Proof.
  intros Hd. induction ns as [|[k0 v0] ns IH]; intros Hold; cbn [setitem].
  - cbn. now rewrite Hd.
  - cbn [get] in Hold. destruct (NodeId_eqb id k0) eqn:E.
    + cbn [filter snd]. rewrite Hd, (Hold v0 eq_refl). reflexivity.
    + cbn [filter snd]. destruct (f v0); cbn [length]; now rewrite IH.
Qed.

Lemma content_added_edges (self : t) (cd : ContentData) (given : option NodeId) :
  edges (nx_graph (content_added self cd given)) = edges (nx_graph self).
Proof.
  unfold content_added, with_graph, uuid4. cbn [nx_graph].
  destruct given as [[n|z]|]; cbn [falsy_id snd nx_graph]; try reflexivity.
  destruct (Z.eqb z 0); reflexivity.
Qed.

Lemma content_added_nodes (self : t) (cd : ContentData) (given : option NodeId) :
  nodes (nx_graph (content_added self cd given)) =
  nodes (add_node (nx_graph self) (content_key self given) (content_attrs cd)).
Proof.
  unfold content_added, with_graph, uuid4. cbn [nx_graph].
  destruct given as [[n|z]|]; cbn [falsy_id snd nx_graph]; try reflexivity.
  destruct (Z.eqb z 0); reflexivity.
Qed.

(** Adding the content node changes no count of another kind. *)
Lemma count_content_added (ty : string) (self : t) (cd : ContentData)
  (given : option NodeId) :
  ty <> "content" -> well_formed self -> neo_or_none given ->
  count_nodes ty (nx_graph (content_added self cd given)) =
  count_nodes ty (nx_graph self).
Proof.
  intros Hty Hwf Hg. unfold count_nodes. rewrite content_added_nodes.
  unfold add_node. cbn [nodes].
  remember (content_key self given) as c eqn:Ec.
  assert (Hold : forall old,
             get NodeId_eqb (nodes (nx_graph self)) c = Some old ->
             content_shaped old).
  { intros old G. pose proof (@wf_node_at _ _ _ _ Hwf G) as Hok.
    unfold node_ok in Hok. cbn [fst snd] in Hok.
    destruct c as [n|z]; [|exact Hok].
    exfalso. destruct Hok as [Hn _].
    unfold content_key in Ec.
    destruct given as [[m|z]|]; cbn [falsy_id] in Ec.
    - contradiction.
    - destruct (Z.eqb z 0); [|discriminate]. injection Ec as ->. lia.
    - injection Ec as ->. lia. }
  apply count_setitem.
  - apply has_type_other with (t1 := "content"); [|congruence].
    apply content_attrs_shaped.
    destruct (get NodeId_eqb (nodes (nx_graph self)) c) as [old|] eqn:G;
      [apply (Hold old eq_refl)|reflexivity].
  - intros old G. rewrite G in *.
    apply has_type_other with (t1 := "content"); [|congruence].
    apply (Hold old eq_refl).
Qed.

Lemma count_faq_nodes (self : t) (u : nat) (fs : list Faq) :
  length (filter (fun nd => has_type "question" (snd nd)) (faq_nodes self u fs))
    = length fs /\
  length (filter (fun nd => has_type "answer" (snd nd)) (faq_nodes self u fs))
    = length fs.
Proof.
  revert u. induction fs as [|faq fs IH]; intros u; cbn [faq_nodes].
  - split; reflexivity.
  - destruct (IH (S (S u))) as [Hq Ha].
    cbn [filter snd].
    change (has_type "question" (question_attrs self faq)) with true.
    change (has_type "question" (answer_attrs self faq)) with false.
    change (has_type "answer" (question_attrs self faq)) with false.
    change (has_type "answer" (answer_attrs self faq)) with true.
    cbn [length]. now rewrite Hq, Ha.
Qed.

Lemma count_faq_edges (c : NodeId) (u : nat) (fs : list Faq) :
  length (filter (fun e => has_type "contains" (snd e)) (faq_edges c u fs))
    = length fs /\
  length (filter (fun e => has_type "has_answer" (snd e)) (faq_edges c u fs))
    = length fs.
Proof.
  revert u. induction fs as [|faq fs IH]; intros u; cbn [faq_edges].
  - split; reflexivity.
  - destruct (IH (S (S u))) as [Hq Ha].
    cbn [filter snd].
    change (has_type "contains" [("type", AStr "contains")]) with true.
    change (has_type "contains" [("type", AStr "has_answer")]) with false.
    change (has_type "has_answer" [("type", AStr "contains")]) with false.
    change (has_type "has_answer" [("type", AStr "has_answer")]) with true.
    cbn [length]. now rewrite Hq, Ha.
Qed.

(** C5.  For every reachable state and every [add_content] call with a
    payload of content-type [faq] holding N question/answer pairs, whatever
    Neo4j does: the graph gains exactly N question nodes and N answer nodes,
    N [contains] edges and N [has_answer] edges; the new edges are, pair by
    pair, one [contains] edge from the content node to the question node and
    one [has_answer] edge from the question node to its answer node. *)
Theorem faq_ingestion_counts (self : t) (neo : neo_outcome) (cd : ContentData) :
  reachable self ->
  content_type cd = Some "faq" ->
  let fs := getd (faqs cd) [] in
  let g := nx_graph self in
  let g' := nx_graph (snd (add_content self neo cd)) in
  let c := content_key self (given_key self neo) in
  count_nodes "question" g' = count_nodes "question" g + length fs /\
  count_nodes "answer" g' = count_nodes "answer" g + length fs /\
  count_edges "contains" g' = count_edges "contains" g + length fs /\
  count_edges "has_answer" g' = count_edges "has_answer" g + length fs /\
  mem NodeId_eqb (nodes g') c = true /\
  exists u,
    nodes g' =
      (nodes (add_node g c (content_attrs cd)) ++ faq_nodes self u fs)%list /\
    edges g' = (edges g ++ faq_edges c u fs)%list.
Proof.
  intros Hreach Hct fs g g' c.
  pose proof (reachable_well_formed Hreach) as Hwf.
  pose proof (given_key_neo_or_none self neo) as Hg.
  pose proof (@content_added_kept self cd _ Hwf Hg) as K.
  fold c in K.
  set (s1 := content_added self cd (given_key self neo)) in *.
  assert (Eg : g' = nx_graph (fold_left (faq_step c) fs s1)).
  { unfold g'. rewrite add_content_eq, add_to_local_graph_eq. cbn [snd].
    rewrite Hct. cbn. reflexivity. }
  destruct (@faq_fold_eq c fs s1 (proj1 K) (proj1 (proj2 K)))
    as (Hn & He & _ & K2).
  rewrite <- Eg in Hn, He.
  assert (Em : faq_nodes s1 (uuid_next s1) fs = faq_nodes self (uuid_next s1) fs)
    by (apply faq_nodes_model; apply K).
  rewrite Em in Hn.
  unfold s1 in Hn at 1. rewrite content_added_nodes in Hn. fold c in Hn.
  unfold s1 in He at 1. rewrite content_added_edges in He.
  pose proof (@count_content_added "question" self cd _
                ltac:(discriminate) Hwf Hg) as Cq.
  pose proof (@count_content_added "answer" self cd _
                ltac:(discriminate) Hwf Hg) as Ca.
  unfold count_nodes in Cq, Ca. rewrite content_added_nodes in Cq, Ca.
  fold c in Cq, Ca.
  destruct (count_faq_nodes self (uuid_next s1) fs) as [Nq Na].
  destruct (count_faq_edges c (uuid_next s1) fs) as [Ec Eh].
  unfold count_nodes, count_edges. rewrite Hn, He.
  rewrite !filter_app, !length_app, Cq, Ca, Nq, Na, Ec, Eh.
  repeat split; try reflexivity.
  - rewrite <- Hn, Eg. apply K2.
  - exists (uuid_next s1). split; reflexivity.
Qed.

Lemma faq_ingestion_counts_witness :
  reachable (init true (Some unit_model)) /\
  content_type faq_page = Some "faq" /\
  count_nodes "question" (nx_graph unit_encoded) = 0 + 2 /\
  count_nodes "answer" (nx_graph unit_encoded) = 0 + 2 /\
  count_edges "contains" (nx_graph unit_encoded) = 0 + 2 /\
  count_edges "has_answer" (nx_graph unit_encoded) = 0 + 2.
Proof.
  pose proof (@faq_ingestion_counts (init true (Some unit_model))
                (NeoCreated 7) faq_page
                (reach_init true (Some unit_model)) eq_refl) as H.
  cbv zeta in H. destruct H as (Hq & Ha & Hc & Hh & _).
  split; [apply reach_init|]. split; [reflexivity|].
  split; [exact Hq|]. split; [exact Ha|]. split; [exact Hc|exact Hh].
Defined.

(** ** The two searches *)

Lemma text_score_eq (nd : NodeId * attrs) (query : string) :
  text_fields_ok nd ->
  text_score (snd nd) (lower query) = Ok (lexical_points (snd nd) query).
Proof.
  intros [Ht Hx]. unfold text_score, field_matches, lexical_points,
    in_field_lowered.
  destruct (get String.eqb (snd nd) "title") as [a|].
  - destruct (Ht a eq_refl) as [s ->]. cbn [attr_lower bind].
    destruct (get String.eqb (snd nd) "text_content") as [b|].
    + destruct (Hx b eq_refl) as [s' ->]. cbn [attr_lower bind].
      destruct (contains (lower query) (lower s)),
        (contains (lower query) (lower s')); reflexivity.
    + cbn [bind]. destruct (contains (lower query) (lower s)); reflexivity.
  - cbn [bind].
    destruct (get String.eqb (snd nd) "text_content") as [b|].
    + destruct (Hx b eq_refl) as [s' ->]. cbn [attr_lower bind].
      destruct (contains (lower query) (lower s')); reflexivity.
    + reflexivity.
Qed.

(** The loop of [_text_search], in one expression. *)
Lemma text_hits_eq (ns : dict NodeId attrs) (query : string) :
  Forall text_fields_ok ns ->
  text_hits ns (lower query) =
  Ok (map (lexical_hit query)
          (filter (fun nd => Nat.ltb 0 (lexical_points (snd nd) query)) ns)).
Proof.
  induction 1 as [|[id d] ns Hd _ IH]; cbn [text_hits].
  - reflexivity.
  - pose proof (@text_score_eq (id, d) query Hd) as Hs. cbn [snd] in Hs.
    rewrite Hs. cbn [bind snd].
    rewrite IH. cbn [bind filter snd].
    destruct (Nat.ltb 0 (lexical_points d query)); reflexivity.
Qed.

Lemma text_search_eq (self : t) (query : string) (limit : Z) :
  Forall text_fields_ok (nodes (nx_graph self)) ->
  _text_search self query limit =
  Ok (slice_to
        (sort_desc similarity
           (map (lexical_hit query)
                (filter (fun nd => Nat.ltb 0 (lexical_points (snd nd) query))
                        (nodes (nx_graph self)))))
        limit).
Proof.
  intros H. unfold _text_search. now rewrite (@text_hits_eq _ query H).
Qed.

Lemma shaped_text_fields_ok (nd : NodeId * attrs) :
  content_shaped (snd nd) \/ derived_shaped (snd nd) -> text_fields_ok nd.
Proof.
  intros [(_ & _ & [s Hs] & [s' Hs'])|(Ht & Hx & _)]; split; intros a Ha.
  - rewrite Hs in Ha. injection Ha as <-. now exists s.
  - rewrite Hs' in Ha. injection Ha as <-. now exists s'.
  - congruence.
  - congruence.
Qed.

Lemma node_ok_shaped (b : nat) (nd : NodeId * attrs) :
  node_ok b nd -> content_shaped (snd nd) \/ derived_shaped (snd nd).
Proof.
  unfold node_ok. destruct (fst nd); [tauto|now left].
Qed.

Lemma well_formed_text_fields (self : t) :
  well_formed self -> Forall text_fields_ok (nodes (nx_graph self)).
Proof.
  intros [_ HF]. eapply Forall_impl; [|exact HF].
  intros nd Hok. apply shaped_text_fields_ok. eapply node_ok_shaped, Hok.
Qed.

(** A zero-norm query vector has similarity 0 with everything. *)
Lemma cosine_similarity_zero_query (vec1 : list R) (e : attr) :
  np_norm vec1 = 0%R -> _cosine_similarity vec1 e = 0%R.
Proof.
  intros Hn. unfold _cosine_similarity, cosine_body, np_array, np_dot.
  destruct e as [s| |v|d]; cbn [bind]; try reflexivity.
  destruct (Nat.eqb (length vec1) (length v)); cbn [bind]; [|reflexivity].
  destruct (Req_dec_T (np_norm vec1) 0); [reflexivity|contradiction].
Qed.

Lemma embedding_hits_zero_query (ns : dict NodeId attrs) (qe : list R) :
  np_norm qe = 0%R -> embedding_hits ns qe = [].
Proof.
  intros Hn. unfold embedding_hits.
  induction ns as [|[id d] ns IH]; cbn [flat_map]; [reflexivity|].
  rewrite IH, app_nil_r.
  destruct (get String.eqb d "embedding") as [e|]; [|reflexivity].
  destruct (truthy e); [|reflexivity].
  rewrite (@cosine_similarity_zero_query qe e Hn).
  destruct (Rgt_dec 0 threshold) as [H|H]; [|reflexivity].
  unfold threshold in H. lra.
Qed.

(** Which search answers. *)
Lemma search_content_without_model (self : t) (query : string) (limit : Z) :
  embedding_model self = None ->
  search_content self query limit = _text_search self query limit.
Proof. intros E. unfold search_content. now rewrite E. Qed.

Lemma search_content_encoder_raises (self : t) (query : string) (limit : Z)
  (model : string -> result (list R)) (e : exn) :
  embedding_model self = Some model -> model query = Raise e ->
  search_content self query limit = _text_search self query limit.
Proof. intros E Hm. unfold search_content. rewrite E, Hm. reflexivity. Qed.

Lemma search_content_encoded (self : t) (query : string) (limit : Z)
  (model : string -> result (list R)) (qe : list R) :
  embedding_model self = Some model -> model query = Ok qe ->
  search_content self query limit =
  Ok (slice_to (sort_desc similarity
                  (embedding_hits (nodes (nx_graph self)) qe)) limit).
Proof. intros E Hm. unfold search_content. rewrite E, Hm. reflexivity. Qed.

(** Both candidate lists follow the insertion order of the nodes. *)
Lemma embedding_hits_subseq (ns : dict NodeId attrs) (qe : list R) :
  subseq (map node_id (embedding_hits ns qe)) (keys ns).
Proof.
  unfold embedding_hits.
  induction ns as [|[id d] ns IH]; cbn [flat_map keys map fst].
  - constructor.
  - rewrite map_app.
    destruct (get String.eqb d "embedding") as [e|];
      [|now apply sub_skip].
    destruct (truthy e); [|now apply sub_skip].
    destruct (Rgt_dec _ threshold); [|now apply sub_skip].
    cbn [map app node_id]. now apply sub_take.
Qed.

Lemma lexical_hits_subseq (ns : dict NodeId attrs) (query : string) :
  subseq (map node_id
            (map (lexical_hit query)
                 (filter (fun nd => Nat.ltb 0 (lexical_points (snd nd) query))
                         ns)))
         (keys ns).
Proof.
  induction ns as [|[id d] ns IH]; cbn [filter keys map fst snd].
  - constructor.
  - destruct (Nat.ltb 0 (lexical_points d query)).
    + cbn [map lexical_hit node_id fst]. now apply sub_take.
    + now apply sub_skip.
Qed.

(** In a well-formed state [search_content] returns, and what it returns is
    a prefix of the stable sort of candidates drawn in node order. *)
Lemma search_content_returns (self : t) (query : string) (limit : Z) :
  well_formed self ->
  exists cands,
    search_content self query limit =
      Ok (slice_to (sort_desc similarity cands) limit) /\
    subseq (map node_id cands) (keys (nodes (nx_graph self))).
Proof.
  intros Hwf. pose proof (@well_formed_text_fields self Hwf) as Htf.
  assert (T : exists cands,
             _text_search self query limit =
               Ok (slice_to (sort_desc similarity cands) limit) /\
             subseq (map node_id cands) (keys (nodes (nx_graph self)))).
  { eexists. split; [apply (@text_search_eq self query limit Htf)|].
    apply lexical_hits_subseq. }
  destruct (embedding_model self) as [model|] eqn:E.
  - destruct (model query) as [qe|e] eqn:Hm.
    + eexists. split; [apply (@search_content_encoded self query limit model qe E Hm)|].
      apply embedding_hits_subseq.
    + rewrite (@search_content_encoder_raises self query limit model e E Hm). exact T.
  - rewrite (@search_content_without_model self query limit E). exact T.
Qed.

(** ** Properties of the search *)

Lemma two_pages_reachable : reachable two_pages.
Proof. unfold two_pages. repeat apply reach_add. apply reach_init. Qed.

Lemma zero_encoded_reachable : reachable zero_encoded.
Proof. unfold zero_encoded. repeat apply reach_add. apply reach_init. Qed.

Lemma unit_encoded_reachable : reachable unit_encoded.
Proof. unfold unit_encoded. repeat apply reach_add. apply reach_init. Qed.

(** C1, as worded, fails for a negative limit: of two matching pages,
    limit -1 returns one, which is more than the limit. *)
Lemma search_negative_limit :
  exists hits,
    search_content two_pages "ocean" (-1) = Ok hits /\
    length hits = 1 /\
    ~ (Z.of_nat (length hits) <= -1)%Z.
Proof.
  pose proof (well_formed_text_fields
                (reachable_well_formed two_pages_reachable)) as Htf.
  rewrite (@search_content_without_model two_pages "ocean" (-1) eq_refl).
  rewrite (@text_search_eq two_pages "ocean" (-1) Htf).
  eexists. split; [reflexivity|].
  assert (L : length (slice_to
                 (sort_desc similarity
                    (map (lexical_hit "ocean")
                       (filter (fun nd => Nat.ltb 0 (lexical_points (snd nd) "ocean"))
                               (nodes (nx_graph two_pages))))) (-1)) = 1).
  { unfold slice_to. cbn [Z.ltb Z.compare Z.opp].
    rewrite length_firstn, sort_desc_length, length_map.
    replace (length (filter _ (nodes (nx_graph two_pages)))) with 2
      by (vm_compute; reflexivity).
    reflexivity. }
  rewrite L. split; [reflexivity|lia].
Qed.

(** C1, amended.  In every reachable state, for every query text and every
    limit that is not negative, [search_content] returns a list of at most
    [limit] results in which a result never has a lower score than a later
    one, and of two results with the same score the one whose node was
    inserted into the graph first comes first. *)
Theorem search_results_ranked (self : t) (query : string) (limit : Z) :
  reachable self ->
  (0 <= limit)%Z ->
  exists hits,
    search_content self query limit = Ok hits /\
    (Z.of_nat (length hits) <= limit)%Z /\
    forall h1 h2,
      before hits h1 h2 ->
      (similarity h2 <= similarity h1)%R /\
      (similarity h1 = similarity h2 ->
       inserted_before (nx_graph self) (node_id h1) (node_id h2) /\
       ~ inserted_before (nx_graph self) (node_id h2) (node_id h1)).
Proof.
  intros Hreach Hlim.
  pose proof (reachable_well_formed Hreach) as Hwf.
  destruct (@search_content_returns self query limit Hwf) as (cands & Hs & Hsub).
  exists (slice_to (sort_desc similarity cands) limit).
  split; [exact Hs|]. split; [now apply slice_to_length|].
  intros h1 h2 Hb.
  set (prec := fun a b : SearchHit =>
                 before (keys (nodes (nx_graph self))) (node_id a) (node_id b)).
  assert (HS : StronglySorted (ranked_before similarity prec)
                 (slice_to (sort_desc similarity cands) limit)).
  { destruct (slice_to_prefix (sort_desc similarity cands) limit) as [n ->].
    apply StronglySorted_firstn. apply sort_desc_sorted.
    apply (subseq_sorted node_id cands Hsub). }
  pose proof (StronglySorted_before HS Hb) as [Hlt|[Heq Hprec]].
  - split; [lra|]. intros E. rewrite E in Hlt. lra.
  - split; [lra|]. intros _. split; [exact Hprec|].
    apply before_NoDup_asym; [apply Hwf|exact Hprec].
Qed.

Lemma search_results_ranked_witness :
  reachable two_pages /\
  (0 <= 1)%Z /\
  exists hits,
    search_content two_pages "ocean" 1 = Ok hits /\
    (Z.of_nat (length hits) <= 1)%Z.
Proof.
  split; [exact two_pages_reachable|]. split; [lia|].
  destruct (@search_results_ranked two_pages "ocean" 1 two_pages_reachable
              ltac:(lia)) as (hits & Hs & Hl & _).
  exists hits. split; assumption.
Defined.

(** C6, as worded, fails.  The lower-cased query [forecast] is not a
    substring of the title [Ocean State Forecast] nor of the raw text
    [Forecast of the ocean state.] as they are stored, yet the page scores 3
    points and is returned: the code lower-cases the attributes too. *)
Lemma text_search_ignores_case :
  exists nd h,
    nodes (nx_graph two_pages) = nd :: tl (nodes (nx_graph two_pages)) /\
    get String.eqb (snd nd) "title" = Some (AStr "Ocean State Forecast") /\
    points_as_stored (snd nd) "forecast" = 0 /\
    text_score (snd nd) (lower "forecast") = Ok 3 /\
    _text_search two_pages "forecast" 10 = Ok [h] /\
    node_id h = fst nd /\
    similarity h = (INR 3 / 3)%R.
Proof.
  pose proof (well_formed_text_fields
                (reachable_well_formed two_pages_reachable)) as Htf.
  eexists. exists (lexical_hit "forecast" (hd (Uuid 0, []) (nodes (nx_graph two_pages)))).
  split; [reflexivity|]. split; [reflexivity|].
  split; [vm_compute; reflexivity|]. split; [vm_compute; reflexivity|].
  split; [|split; reflexivity].
  rewrite (@text_search_eq two_pages "forecast" 10 Htf).
  replace (filter (fun nd => Nat.ltb 0 (lexical_points (snd nd) "forecast"))
                  (nodes (nx_graph two_pages)))
    with [hd (Uuid 0, []) (nodes (nx_graph two_pages))]
    by (vm_compute; reflexivity).
  reflexivity.
Qed.

(** C6, amended.  In lexical search every node gets 2 points if the
    lower-cased query is a substring of its lower-cased title and 1 point if
    it is a substring of its lower-cased raw text; the score is the points
    divided by 3; exactly the nodes with at least one point are kept, in
    node order, before the stable sort by decreasing score and the cut at
    [limit]. *)
Theorem text_search_scoring (self : t) (query : string) (limit : Z) :
  Forall text_fields_ok (nodes (nx_graph self)) ->
  text_hits (nodes (nx_graph self)) (lower query) =
    Ok (map (lexical_hit query)
            (filter (fun nd => Nat.ltb 0 (lexical_points (snd nd) query))
                    (nodes (nx_graph self)))) /\
  _text_search self query limit =
    Ok (slice_to
          (sort_desc similarity
             (map (lexical_hit query)
                  (filter (fun nd => Nat.ltb 0 (lexical_points (snd nd) query))
                          (nodes (nx_graph self)))))
          limit) /\
  (forall nd, In nd (nodes (nx_graph self)) ->
              text_score (snd nd) (lower query) =
                Ok (lexical_points (snd nd) query) /\
              similarity (lexical_hit query nd) =
                (INR (lexical_points (snd nd) query) / 3)%R).
Proof.
  intros Htf. split; [now apply text_hits_eq|].
  split; [now apply text_search_eq|].
  intros nd Hin. split; [|reflexivity].
  apply text_score_eq. rewrite Forall_forall in Htf. now apply Htf.
Qed.

Lemma text_search_scoring_witness :
  Forall text_fields_ok (nodes (nx_graph two_pages)) /\
  _text_search two_pages "Ocean" 10 =
    Ok (slice_to
          (sort_desc similarity
             (map (lexical_hit "Ocean")
                  (filter (fun nd => Nat.ltb 0 (lexical_points (snd nd) "Ocean"))
                          (nodes (nx_graph two_pages)))))
          10).
Proof.
  assert (H : Forall text_fields_ok (nodes (nx_graph two_pages))).
  { repeat constructor; intros a Ha; vm_compute in Ha; injection Ha as <-;
      eexists; reflexivity. }
  split; [exact H|].
  exact (proj1 (proj2 (@text_search_scoring two_pages "Ocean" 10 H))).
Defined.

Lemma zero_model_norm : np_norm [0%R; 0%R] = 0%R.
Proof.
  unfold np_norm. cbn [dot_aligned].
  replace (0 * 0 + (0 * 0 + 0))%R with 0%R by lra. apply sqrt_0.
Qed.

(** C7, as worded, fails.  With an encoder that maps the query to the zero
    vector, [search_content] stays in embedding mode and returns nothing,
    although lexical scoring finds the ocean page. *)
Lemma zero_norm_query_no_fallback :
  embedding_model zero_encoded = Some zero_model /\
  zero_model "ocean" = Ok [0%R; 0%R] /\
  np_norm [0%R; 0%R] = 0%R /\
  search_content zero_encoded "ocean" 10 = Ok [] /\
  exists h, _text_search zero_encoded "ocean" 10 = Ok [h] /\
            search_content zero_encoded "ocean" 10 <>
            _text_search zero_encoded "ocean" 10.
Proof.
  split; [reflexivity|]. split; [reflexivity|]. split; [exact zero_model_norm|].
  assert (S0 : search_content zero_encoded "ocean" 10 = Ok []).
  { rewrite (@search_content_encoded zero_encoded "ocean" 10 zero_model
               [0%R; 0%R] eq_refl eq_refl).
    rewrite (@embedding_hits_zero_query _ _ zero_model_norm). reflexivity. }
  split; [exact S0|].
  pose proof (well_formed_text_fields
                (reachable_well_formed zero_encoded_reachable)) as Htf.
  assert (T0 : _text_search zero_encoded "ocean" 10 =
               Ok [lexical_hit "ocean"
                     (nth 5 (nodes (nx_graph zero_encoded)) (Uuid 0, []))]).
  { rewrite (@text_search_eq zero_encoded "ocean" 10 Htf).
    assert (F : filter (fun nd => Nat.ltb 0 (lexical_points (snd nd) "ocean"))
                       (nodes (nx_graph zero_encoded)) =
                [nth 5 (nodes (nx_graph zero_encoded)) (Uuid 0, [])]).
    { unfold zero_encoded, add_content. cbn [init graph negb].
      rewrite !add_to_local_graph_eq. cbn. reflexivity. }
    rewrite F. reflexivity. }
  eexists. split; [exact T0|]. rewrite S0, T0. discriminate.
Qed.

(** C7, amended.  In every reachable state and for every query,
    [search_content] never raises.  Without an encoder, and when encoding the
    query raises, it returns what lexical scoring returns.  When the encoder
    returns a zero-norm vector there is no fallback: the result is empty. *)
Theorem search_fallback (self : t) (query : string) (limit : Z) :
  reachable self ->
  (exists hits, search_content self query limit = Ok hits) /\
  (exists hits, _text_search self query limit = Ok hits) /\
  (embedding_model self = None ->
   search_content self query limit = _text_search self query limit) /\
  (forall model e,
     embedding_model self = Some model -> model query = Raise e ->
     search_content self query limit = _text_search self query limit) /\
  (forall model qe,
     embedding_model self = Some model -> model query = Ok qe ->
     np_norm qe = 0%R ->
     search_content self query limit = Ok []).
Proof.
  intros Hreach. pose proof (reachable_well_formed Hreach) as Hwf.
  split; [|split; [|split; [|split]]].
  - destruct (@search_content_returns self query limit Hwf) as (c & Hs & _).
    eexists. exact Hs.
  - eexists. apply text_search_eq. now apply well_formed_text_fields.
  - apply search_content_without_model.
  - intros model e. apply search_content_encoder_raises.
  - intros model qe E Hm Hn.
    rewrite (@search_content_encoded self query limit model qe E Hm).
    rewrite (@embedding_hits_zero_query _ _ Hn). cbn [sort_desc fold_right].
    now rewrite slice_to_nil.
Qed.

Lemma search_fallback_witness :
  reachable zero_encoded /\
  embedding_model zero_encoded = Some zero_model /\
  zero_model "ocean" = Ok [0%R; 0%R] /\
  np_norm [0%R; 0%R] = 0%R /\
  search_content zero_encoded "ocean" 10 = Ok [] /\
  reachable two_pages /\
  embedding_model two_pages = None /\
  search_content two_pages "ocean" 10 = _text_search two_pages "ocean" 10.
Proof.
  split; [exact zero_encoded_reachable|]. split; [reflexivity|].
  split; [reflexivity|]. split; [exact zero_model_norm|].
  split.
  - exact (proj2 (proj2 (proj2 (proj2
             (@search_fallback zero_encoded "ocean" 10 zero_encoded_reachable))))
             zero_model [0%R; 0%R] eq_refl eq_refl zero_model_norm).
  - split; [exact two_pages_reachable|]. split; [reflexivity|].
    exact (proj1 (proj2 (proj2
             (@search_fallback two_pages "ocean" 10 two_pages_reachable)))
             eq_refl).
Defined.

(** ** The two searches draw from different nodes *)

Lemma embedding_hit_inv (ns : dict NodeId attrs) (qe : list R) (h : SearchHit) :
  In h (embedding_hits ns qe) ->
  In (node_id h, data h) ns /\
  exists e, get String.eqb (data h) "embedding" = Some e /\ truthy e = true.
Proof.
  unfold embedding_hits. intros H. apply in_flat_map in H.
  destruct H as ([id d] & Hin & Hh).
  destruct (get String.eqb d "embedding") as [e|] eqn:G; [|contradiction].
  destruct (truthy e) eqn:T; [|contradiction].
  destruct (Rgt_dec _ threshold); [|contradiction].
  destruct Hh as [<-|[]]. cbn [node_id data]. split; [exact Hin|].
  exists e. split; assumption.
Qed.

Lemma lexical_hit_inv (ns : dict NodeId attrs) (query : string) (h : SearchHit) :
  In h (map (lexical_hit query)
            (filter (fun nd => Nat.ltb 0 (lexical_points (snd nd) query)) ns)) ->
  In (node_id h, data h) ns /\ 0 < lexical_points (data h) query.
Proof.
  intros H. apply in_map_iff in H. destruct H as ([id d] & <- & Hin).
  apply filter_In in Hin. destruct Hin as [Hin Hp].
  cbn [lexical_hit node_id data fst snd] in *. split; [exact Hin|].
  now apply Nat.ltb_lt.
Qed.

Lemma lexical_points_pos (d : attrs) (query : string) :
  0 < lexical_points d query ->
  mem String.eqb d "title" || mem String.eqb d "text_content" = true.
Proof.
  unfold lexical_points, in_field_lowered, mem.
  destruct (get String.eqb d "title") as [a|]; [reflexivity|].
  destruct (get String.eqb d "text_content") as [b|]; [reflexivity|].
  cbn. lia.
Qed.

Lemma well_formed_shape (self : t) (id : NodeId) (d : attrs) :
  well_formed self -> In (id, d) (nodes (nx_graph self)) ->
  content_shaped d \/ derived_shaped d.
Proof.
  intros [_ HF] Hin. rewrite Forall_forall in HF.
  exact (@node_ok_shaped _ _ (HF _ Hin)).
Qed.

Lemma truthy_not_none (e : attr) : truthy e = true -> e <> ANone.
Proof. intros H ->. discriminate H. Qed.

(** What a result of either search looks like. *)
Lemma embedding_result_shape (self : t) (h : SearchHit) (e : attr) :
  well_formed self ->
  In (node_id h, data h) (nodes (nx_graph self)) ->
  get String.eqb (data h) "embedding" = Some e -> truthy e = true ->
  has_type "question" (data h) || has_type "answer" (data h) = true /\
  get String.eqb (data h) "title" = None /\
  get String.eqb (data h) "text_content" = None.
Proof.
  intros Hwf Hin G T.
  destruct (@well_formed_shape self _ _ Hwf Hin)
    as [(_ & Hn & _)|(Ht & Hx & _ & He)].
  - congruence.
  - repeat split; try assumption. exact (He e G T).
Qed.

Lemma lexical_result_shape (self : t) (h : SearchHit) (query : string) :
  well_formed self ->
  In (node_id h, data h) (nodes (nx_graph self)) ->
  0 < lexical_points (data h) query ->
  has_type "content" (data h) = true /\
  has_type "question" (data h) || has_type "answer" (data h) = false /\
  get String.eqb (data h) "embedding" = None.
Proof.
  intros Hwf Hin Hp. apply lexical_points_pos in Hp.
  destruct (@well_formed_shape self _ _ Hwf Hin)
    as [(Hc & Hn & _)|(Ht & Hx & _)].
  - repeat split; try assumption.
    rewrite (@has_type_other "content" "question" _ Hc) by discriminate.
    rewrite (@has_type_other "content" "answer" _ Hc) by discriminate.
    reflexivity.
  - unfold mem in Hp. rewrite Ht, Hx in Hp. discriminate Hp.
Qed.

(** C10.  In every reachable state the two modes draw from different nodes.
    A result of embedding mode is a node with a non-null embedding, and such
    a node is a question or an answer, without title and raw text.  A result
    of lexical mode has a title or a raw text, and such a node is a content
    node, without embedding: no question and no answer is ever returned by
    the lexical search.  No node is returned by both. *)
Theorem search_modes_disjoint (self : t) :
  reachable self ->
  (forall query limit model qe hits h,
     embedding_model self = Some model -> model query = Ok qe ->
     search_content self query limit = Ok hits -> In h hits ->
     In (node_id h, data h) (nodes (nx_graph self)) /\
     (exists e, get String.eqb (data h) "embedding" = Some e /\ e <> ANone) /\
     has_type "question" (data h) || has_type "answer" (data h) = true /\
     get String.eqb (data h) "title" = None /\
     get String.eqb (data h) "text_content" = None) /\
  (forall query limit hits h,
     _text_search self query limit = Ok hits -> In h hits ->
     In (node_id h, data h) (nodes (nx_graph self)) /\
     mem String.eqb (data h) "title" || mem String.eqb (data h) "text_content"
       = true /\
     has_type "content" (data h) = true /\
     has_type "question" (data h) || has_type "answer" (data h) = false /\
     get String.eqb (data h) "embedding" = None) /\
  (forall q1 l1 model qe hits1 q2 l2 hits2 h1 h2,
     embedding_model self = Some model -> model q1 = Ok qe ->
     search_content self q1 l1 = Ok hits1 ->
     _text_search self q2 l2 = Ok hits2 ->
     In h1 hits1 -> In h2 hits2 -> node_id h1 <> node_id h2).
Proof.
  intros Hreach. pose proof (reachable_well_formed Hreach) as Hwf.
  pose proof (@well_formed_text_fields self Hwf) as Htf.
  assert (P1 : forall query limit model qe hits h,
             embedding_model self = Some model -> model query = Ok qe ->
             search_content self query limit = Ok hits -> In h hits ->
             In (node_id h, data h) (nodes (nx_graph self)) /\
             exists e, get String.eqb (data h) "embedding" = Some e /\
                       truthy e = true).
  { intros query limit model qe hits h E Hm Hs Hin.
    rewrite (@search_content_encoded self query limit model qe E Hm) in Hs.
    injection Hs as <-. apply slice_to_In in Hin.
    apply (proj1 (sort_desc_In similarity h _)) in Hin.
    now apply embedding_hit_inv in Hin. }
  assert (P2 : forall query limit hits h,
             _text_search self query limit = Ok hits -> In h hits ->
             In (node_id h, data h) (nodes (nx_graph self)) /\
             0 < lexical_points (data h) query).
  { intros query limit hits h Hs Hin.
    rewrite (@text_search_eq self query limit Htf) in Hs.
    injection Hs as <-. apply slice_to_In in Hin.
    apply (proj1 (sort_desc_In similarity h _)) in Hin.
    now apply lexical_hit_inv in Hin. }
  split; [|split].
  - intros query limit model qe hits h E Hm Hs Hin.
    destruct (P1 _ _ _ _ _ _ E Hm Hs Hin) as (Hn & e & G & T).
    split; [exact Hn|]. split.
    + exists e. split; [exact G|now apply truthy_not_none].
    + exact (@embedding_result_shape self h e Hwf Hn G T).
  - intros query limit hits h Hs Hin.
    destruct (P2 _ _ _ _ Hs Hin) as (Hn & Hp).
    split; [exact Hn|]. split; [now apply lexical_points_pos with (query := query)|].
    exact (@lexical_result_shape self h query Hwf Hn Hp).
  - intros q1 l1 model qe hits1 q2 l2 hits2 h1 h2 E Hm Hs1 Hs2 Hin1 Hin2 Heq.
    destruct (P1 _ _ _ _ _ _ E Hm Hs1 Hin1) as (Hn1 & e & G & T).
    destruct (P2 _ _ _ _ Hs2 Hin2) as (Hn2 & Hp).
    destruct (@embedding_result_shape self h1 e Hwf Hn1 G T) as (Hqa & _).
    destruct (@lexical_result_shape self h2 q2 Hwf Hn2 Hp) as (_ & Hnqa & _).
    rewrite Heq in Hn1.
    pose proof (In_get_NoDup _ NodeId_eqb_eq _ _ _ (proj1 Hwf) Hn1) as G1.
    pose proof (In_get_NoDup _ NodeId_eqb_eq _ _ _ (proj1 Hwf) Hn2) as G2.
    rewrite G1 in G2. injection G2 as Hd. rewrite Hd in Hqa. congruence.
Qed.

Lemma search_modes_disjoint_witness :
  reachable unit_encoded /\
  (forall h,
     In h (slice_to (sort_desc similarity
                       (embedding_hits (nodes (nx_graph unit_encoded))
                                       [1%R; 0%R])) 10) ->
     has_type "question" (data h) || has_type "answer" (data h) = true) /\
  (forall hits h,
     _text_search unit_encoded "asked" 10 = Ok hits -> In h hits ->
     has_type "content" (data h) = true).
Proof.
  destruct (@search_modes_disjoint unit_encoded unit_encoded_reachable)
    as (H1 & H2 & _).
  split; [exact unit_encoded_reachable|]. split.
  - intros h Hin.
    exact (proj1 (proj2 (proj2
             (H1 "What is MOSDAC?" 10%Z unit_model [1%R; 0%R] _ h
                 eq_refl eq_refl
                 (@search_content_encoded unit_encoded "What is MOSDAC?" 10
                    unit_model [1%R; 0%R] eq_refl eq_refl)
                 Hin)))).
  - intros hits h Hs Hin.
    exact (proj1 (proj2 (proj2 (H2 "asked" 10%Z hits h Hs Hin)))).
Defined.

(** ** Export *)

(** C9, as worded, fails.  For a format that is not supported the
    [ValueError] is caught inside [export_graph]: the call returns normally,
    nothing is written and the error only reaches the log. *)
Lemma export_unknown_format_returns :
  fst (export_graph sample_io two_pages empty_world "graph.xml" "xml") = Ok tt /\
  ~ raises (fst (export_graph sample_io two_pages empty_world "graph.xml" "xml")) /\
  snd (export_graph sample_io two_pages empty_world "graph.xml" "xml") =
    {| files := [];
       log := [("ERROR", "Error exporting graph: Unsupported format: xml")] |}.
Proof.
  split; [reflexivity|]. split; [|reflexivity].
  intros [e He]. cbn in He. discriminate He.
Qed.

(** C9, amended.  [export_graph] returns normally for every format and
    whatever the writers do.  For a format other than [json], [gml] and
    [graphml] nothing is written and the error is logged.  For these three
    the corresponding representation (the flat node and edge records for
    JSON, the graph itself for GML and GraphML) is handed to the writer, the
    files are what the writer leaves, and the outcome is logged: success, or
    the writer's error. *)
Theorem export_graph_outcome
  (io_write : dict string string -> string -> payload ->
              dict string string * option exn)
  (self : t) (w : World) (filepath format : string) :
  fst (export_graph io_write self w filepath format) = Ok tt /\
  (payload_for format (nx_graph self) = None <->
   format <> "json" /\ format <> "gml" /\ format <> "graphml") /\
  match payload_for format (nx_graph self) with
  | None =>
      snd (export_graph io_write self w filepath format) =
      add_log w "ERROR"
              ("Error exporting graph: Unsupported format: " ++ format)
  | Some p =>
      snd (export_graph io_write self w filepath format) =
      add_log {| files := fst (io_write (files w) filepath p); log := log w |}
              (match snd (io_write (files w) filepath p) with
               | None => "INFO"
               | Some _ => "ERROR"
               end)
              (match snd (io_write (files w) filepath p) with
               | None => "Exported graph to " ++ filepath
               | Some e => "Error exporting graph: " ++ exn_message e
               end)
  end /\
  json_nodes (json_graph_data (nx_graph self)) =
    map node_record (nodes (nx_graph self)).
Proof.
  split; [|split; [|split; [|reflexivity]]].
  - unfold export_graph.
    destruct (export_try io_write self w filepath format) as [w' [e|]];
      reflexivity.
  - unfold payload_for.
    destruct (String.eqb_spec format "json") as [->|Hj].
    { split; [discriminate|]. intros (H & _). now contradiction H. }
    destruct (String.eqb_spec format "gml") as [->|Hg].
    { split; [discriminate|]. intros (_ & H & _). now contradiction H. }
    destruct (String.eqb_spec format "graphml") as [->|Hm].
    { split; [discriminate|]. intros (_ & _ & H). now contradiction H. }
    split; auto.
  - unfold payload_for, export_graph, export_try.
    destruct (format =? "json").
    { destruct (io_write (files w) filepath _) as [fs [e|]]; reflexivity. }
    destruct (format =? "gml").
    { destruct (io_write (files w) filepath _) as [fs [e|]]; reflexivity. }
    destruct (format =? "graphml").
    { destruct (io_write (files w) filepath _) as [fs [e|]]; reflexivity. }
    reflexivity.
Qed.

End GraphManagerFacts.

(* ================================================================== *)
(** * The graph as a store: schema, related content, statistics *)
(* ================================================================== *)

Module GraphStoreFacts.
Import Py GraphManager PyFacts GraphManagerFacts.
Local Open Scope string_scope.

(** ** Kinds of nodes *)

Lemma kind_of_has_type (d : attrs) (k : string) :
  kind_of d = Some k <-> has_type k d = true.
Proof.
  unfold kind_of, has_type.
  destruct (get String.eqb d "type") as [[s| | |]|]; split; intros H;
    try discriminate.
  - injection H as ->. apply String.eqb_refl.
  - apply String.eqb_eq in H. now subst.
Qed.

Lemma content_shaped_kind (d : attrs) :
  content_shaped d -> kind_of d = Some "content".
Proof. intros (H & _). now apply kind_of_has_type. Qed.

Lemma content_attrs_kind (old : attrs) (cd : ContentData) :
  kind_of (update String.eqb old (content_attrs cd)) = Some "content".
Proof.
  unfold kind_of. rewrite (get_update _ string_eqb_eq). reflexivity.
Qed.

Lemma node_kind_app (ns new : dict NodeId attrs) (es : list (NodeId * NodeId * attrs))
  (es' : list (NodeId * NodeId * attrs)) (x : NodeId) (k : string) :
  node_kind {| nodes := ns; edges := es |} x = Some k ->
  node_kind {| nodes := (ns ++ new)%list; edges := es' |} x = Some k.
Proof.
  unfold node_kind. cbn [nodes]. rewrite get_app.
  destruct (get NodeId_eqb ns x); [tauto|discriminate].
Qed.

Lemma node_kind_present (g : MultiDiGraph) (x : NodeId) (k : string) :
  node_kind g x = Some k -> In x (keys (nodes g)).
Proof.
  unfold node_kind. destruct (get NodeId_eqb (nodes g) x) as [d|] eqn:G;
    [|discriminate].
  intros _. apply (get_Some_In _ NodeId_eqb_eq) in G.
  unfold keys. change x with (fst (x, d)). now apply in_map.
Qed.

Lemma edge_ok_endpoints (g : MultiDiGraph) (e : NodeId * NodeId * attrs) :
  edge_ok g e ->
  In (fst (fst e)) (keys (nodes g)) /\ In (snd (fst e)) (keys (nodes g)).
Proof.
  intros (rel & ks & kt & _ & Hs & Ht & _).
  split; eapply node_kind_present; eassumption.
Qed.

Lemma NodeId_eqb_refl (x : NodeId) : NodeId_eqb x x = true.
Proof. now apply NodeId_eqb_eq. Qed.

Lemma NodeId_eqb_neq (x y : NodeId) : x <> y -> NodeId_eqb x y = false.
Proof.
  intros H. destruct (NodeId_eqb x y) eqn:E; [|reflexivity].
  apply NodeId_eqb_eq in E. contradiction.
Qed.

(** No edge of a graph that keeps its schema touches a key outside it. *)
Lemma no_edge_from_absent (g : MultiDiGraph) (x : NodeId) :
  Forall (edge_ok g) (edges g) -> ~ In x (keys (nodes g)) ->
  out_edges g x = [] /\ in_edges g x = [].
Proof.
  intros HE Hx. unfold out_edges, in_edges.
  induction (edges g) as [|e es IH]; [split; reflexivity|].
  inversion HE as [|? ? He HE']; subst.
  destruct (IH HE') as [Ho Hi]. destruct (edge_ok_endpoints He) as [Hs Ht].
  cbn [filter].
  rewrite (@NodeId_eqb_neq (fst (fst e)) x) by congruence.
  rewrite (@NodeId_eqb_neq (snd (fst e)) x) by congruence.
  split; assumption.
Qed.

Lemma filter_none {A : Type} (f : A -> bool) (l : list A) :
  (forall x, In x l -> f x = false) -> filter f l = [].
Proof.
  induction l as [|x l IH]; intros H; cbn [filter]; [reflexivity|].
  rewrite (H x (or_introl eq_refl)). apply IH.
  intros y Hy. apply H. now right.
Qed.

Lemma In_keys {K V : Type} (d : dict K V) (k : K) (v : V) :
  In (k, v) d -> In k (keys d).
Proof. intros H. unfold keys. change k with (fst (k, v)). now apply in_map. Qed.

Lemma In_keys_get (ns : dict NodeId attrs) (k : NodeId) :
  In k (keys ns) -> exists d, get NodeId_eqb ns k = Some d.
Proof.
  intros H. destruct (get NodeId_eqb ns k) as [d|] eqn:G; [now exists d|].
  apply (get_None_keys _ NodeId_eqb_eq) in G. contradiction.
Qed.

(** ** The schema is kept when fresh nodes and their edges are appended *)

Lemma schema_extend (ns new : dict NodeId attrs)
  (es es_new : list (NodeId * NodeId * attrs)) :
  let g := {| nodes := ns; edges := es |} in
  let g' := {| nodes := (ns ++ new)%list; edges := (es ++ es_new)%list |} in
  schema_ok g ->
  (forall id, In id (keys new) -> get NodeId_eqb ns id = None) ->
  (forall id d, In (id, d) new ->
                exists k, kind_of d = Some k /\ In k node_kinds) ->
  Forall (edge_ok g') es_new ->
  (forall e, In e es_new ->
             node_kind g (fst (fst e)) = Some "content" \/
             In (fst (fst e)) (keys new)) ->
  (forall e, In e es_new -> In (snd (fst e)) (keys new)) ->
  (forall q, In q (keys new) -> node_kind g' q = Some "question" ->
             length (filter (fun e => NodeId_eqb (fst (fst e)) q) es_new) = 1) ->
  (forall v, In v (keys new) ->
             length (filter (fun e => NodeId_eqb (snd (fst e)) v) es_new) = 1) ->
  schema_ok g'.
Proof.
  intros g g' (HN & HE & HQ & HI) Hfresh Hkinds Hnew Hsrc Htgt Hq Hv.
  assert (Hold : forall x k, node_kind g x = Some k -> node_kind g' x = Some k).
  { intros x k. apply node_kind_app. }
  assert (Hsplit : forall x k, node_kind g' x = Some k ->
                     node_kind g x = Some k \/
                     (get NodeId_eqb ns x = None /\ In x (keys new))).
  { intros x k. unfold node_kind, g, g'. cbn [nodes]. rewrite get_app.
    destruct (get NodeId_eqb ns x) as [d|]; [now left|].
    destruct (get NodeId_eqb new x) as [d|] eqn:G; [|discriminate].
    intros _. right. split; [reflexivity|].
    apply (get_Some_In _ NodeId_eqb_eq) in G. eapply In_keys, G. }
  assert (Habsent : forall x, get NodeId_eqb ns x = None ->
                      out_edges g x = [] /\ in_edges g x = []).
  { intros x G. apply no_edge_from_absent; [exact HE|].
    now apply (get_None_keys _ NodeId_eqb_eq). }
  split; [|split; [|split]].
  - intros id d Hin. cbn [nodes g'] in Hin. apply in_app_or in Hin.
    destruct Hin as [Hin|Hin]; [now apply (HN id d)|now apply (Hkinds id d)].
  - cbn [edges g']. apply Forall_app. split; [|exact Hnew].
    eapply Forall_impl; [|exact HE].
    intros e (rel & ks & kt & Ha & Hs & Ht & Hr).
    exists rel, ks, kt. repeat split; auto.
  - intros q Hk. unfold out_edges. cbn [edges g'].
    rewrite filter_app, length_app.
    destruct (Hsplit q _ Hk) as [Hg|[Hg Hin]].
    + rewrite (@filter_none _ _ es_new).
      * cbn [length]. rewrite Nat.add_0_r. now apply HQ.
      * intros e He. apply NodeId_eqb_neq. intros Eq.
        destruct (Hsrc e He) as [Hc|Hn].
        -- rewrite Eq in Hc. congruence.
        -- rewrite Eq in Hn. apply Hfresh in Hn.
           unfold node_kind, g in Hg. cbn [nodes] in Hg.
           rewrite Hn in Hg. discriminate.
    + destruct (Habsent q Hg) as [Ho _]. unfold out_edges, g in Ho.
      cbn [edges] in Ho. rewrite Ho. cbn [length]. now apply Hq.
  - intros v k Hk Hnc. unfold in_edges. cbn [edges g'].
    rewrite filter_app, length_app.
    destruct (Hsplit v _ Hk) as [Hg|[Hg Hin]].
    + rewrite (@filter_none _ _ es_new).
      * cbn [length]. rewrite Nat.add_0_r. now apply (HI v k).
      * intros e He. apply NodeId_eqb_neq. intros Eq.
        pose proof (Htgt e He) as Hn. rewrite Eq in Hn. apply Hfresh in Hn.
        unfold node_kind, g in Hg. cbn [nodes] in Hg.
        rewrite Hn in Hg. discriminate.
    + destruct (Habsent v Hg) as [_ Hi]. unfold in_edges, g in Hi.
      cbn [edges] in Hi. rewrite Hi. cbn [length]. now apply Hv.
Qed.

Lemma schema_extend_graph (g : MultiDiGraph) (new : dict NodeId attrs)
  (es_new : list (NodeId * NodeId * attrs)) :
  let g' := {| nodes := (nodes g ++ new)%list;
               edges := (edges g ++ es_new)%list |} in
  schema_ok g ->
  (forall id, In id (keys new) -> get NodeId_eqb (nodes g) id = None) ->
  (forall id d, In (id, d) new ->
                exists k, kind_of d = Some k /\ In k node_kinds) ->
  Forall (edge_ok g') es_new ->
  (forall e, In e es_new ->
             node_kind g (fst (fst e)) = Some "content" \/
             In (fst (fst e)) (keys new)) ->
  (forall e, In e es_new -> In (snd (fst e)) (keys new)) ->
  (forall q, In q (keys new) -> node_kind g' q = Some "question" ->
             length (filter (fun e => NodeId_eqb (fst (fst e)) q) es_new) = 1) ->
  (forall v, In v (keys new) ->
             length (filter (fun e => NodeId_eqb (snd (fst e)) v) es_new) = 1) ->
  schema_ok g'.
Proof. destruct g as [ns es]. apply schema_extend. Qed.

(** ** One derived node *)

Lemma derive_eq (c : NodeId) (self : t) (a : attrs) (relation : string) :
  well_formed self ->
  mem NodeId_eqb (nodes (nx_graph self)) c = true ->
  derive c self a relation =
  {| graph := graph self;
     nx_graph :=
       {| nodes := (nodes (nx_graph self) ++
                    [(Uuid (uuid_next self), update String.eqb [] a)])%list;
          edges := (edges (nx_graph self) ++
                    [(c, Uuid (uuid_next self), [("type", AStr relation)])])%list |};
     embedding_model := embedding_model self;
     uuid_next := S (uuid_next self) |}.
Proof.
  intros Hwf Hc. unfold derive, uuid4, with_graph.
  cbn [nx_graph uuid_next embedding_model graph].
  assert (F : get NodeId_eqb (nodes (nx_graph self)) (Uuid (uuid_next self))
              = None) by (apply (wf_nodes_fresh Hwf); lia).
  rewrite (@add_node_fresh _ _ a F).
  rewrite add_edge_present.
  - reflexivity.
  - cbn [nodes]. rewrite mem_app, Hc. reflexivity.
  - cbn [nodes]. rewrite mem_app. unfold mem at 2. cbn [get NodeId_eqb].
    rewrite Nat.eqb_refl. apply orb_true_r.
Qed.

Lemma mem_node_kind (g : MultiDiGraph) (c : NodeId) (k : string) :
  node_kind g c = Some k -> mem NodeId_eqb (nodes g) c = true.
Proof.
  unfold node_kind, mem. destruct (get NodeId_eqb (nodes g) c);
    [reflexivity|discriminate].
Qed.

Lemma fresh_not_content (self : t) (c : NodeId) (k : string) (u : nat) :
  well_formed self -> node_kind (nx_graph self) c = Some k ->
  uuid_next self <= u -> NodeId_eqb c (Uuid u) = false.
Proof.
  intros Hwf Hk Hu. apply NodeId_eqb_neq. intros ->.
  unfold node_kind in Hk. rewrite (wf_nodes_fresh Hwf Hu) in Hk. discriminate.
Qed.

Lemma derive_schema (c : NodeId) (self : t) (a : attrs) (relation k : string) :
  well_formed self ->
  schema_ok (nx_graph self) ->
  node_kind (nx_graph self) c = Some "content" ->
  derived_shaped (update String.eqb [] a) ->
  kind_of (update String.eqb [] a) = Some k ->
  In k node_kinds -> k <> "question" ->
  relation_ok relation "content" k = true ->
  schema_kept c self (derive c self a relation).
Proof.
  intros Hwf Hs Hc Hshape Hk Hin Hnq Hrel.
  pose proof (mem_node_kind _ _ Hc) as Hm.
  split; [now apply derive_kept|].
  rewrite (@derive_eq c self a relation Hwf Hm). cbn [nx_graph].
  set (u := uuid_next self).
  assert (F : get NodeId_eqb (nodes (nx_graph self)) (Uuid u) = None)
    by (apply (wf_nodes_fresh Hwf); unfold u; lia).
  assert (Kc : node_kind
                 {| nodes := (nodes (nx_graph self) ++
                              [(Uuid u, update String.eqb [] a)])%list;
                    edges := (edges (nx_graph self) ++
                              [(c, Uuid u, [("type", AStr relation)])])%list |}
                 c = Some "content").
  { unfold node_kind in *. cbn [nodes]. rewrite get_app.
    destruct (get NodeId_eqb (nodes (nx_graph self)) c); [exact Hc|discriminate]. }
  assert (Ku : node_kind
                 {| nodes := (nodes (nx_graph self) ++
                              [(Uuid u, update String.eqb [] a)])%list;
                    edges := (edges (nx_graph self) ++
                              [(c, Uuid u, [("type", AStr relation)])])%list |}
                 (Uuid u) = Some k).
  { unfold node_kind. cbn [nodes]. rewrite get_app, F. cbn [get NodeId_eqb].
    now rewrite Nat.eqb_refl. }
  split; [|exact Kc].
  apply schema_extend_graph; try assumption.
  - intros id [<-|[]]. exact F.
  - intros id d [[= <- <-]|[]]. now exists k.
  - constructor; [|constructor].
    exists relation, "content", k. cbn [fst snd]. repeat split; assumption.
  - intros e [<-|[]]. now left.
  - intros e [<-|[]]. now left.
  - intros q [<-|[]] Hq.
    assert (E : Some k = Some "question") by (rewrite <- Ku; exact Hq).
    congruence.
  - intros v [<-|[]]. cbn [filter fst snd]. now rewrite NodeId_eqb_refl.
Qed.

(** ** One question and its answer *)

Lemma faq_step_schema (c : NodeId) (self : t) (faq : Faq) :
  well_formed self ->
  schema_ok (nx_graph self) ->
  node_kind (nx_graph self) c = Some "content" ->
  schema_kept c self (faq_step c self faq).
Proof.
  intros Hwf Hs Hc.
  pose proof (mem_node_kind _ _ Hc) as Hm.
  split; [now apply faq_step_kept|].
  rewrite (@faq_step_eq c self faq Hwf Hm). cbn [nx_graph].
  set (u := uuid_next self).
  assert (F : get NodeId_eqb (nodes (nx_graph self)) (Uuid u) = None)
    by (apply (wf_nodes_fresh Hwf); unfold u; lia).
  assert (F' : get NodeId_eqb (nodes (nx_graph self)) (Uuid (S u)) = None)
    by (apply (wf_nodes_fresh Hwf); unfold u; lia).
  assert (Ncu : NodeId_eqb c (Uuid u) = false)
    by (apply (@fresh_not_content self c "content" u Hwf Hc); unfold u; lia).
  assert (Ncu' : NodeId_eqb c (Uuid (S u)) = false)
    by (apply (@fresh_not_content self c "content" (S u) Hwf Hc); unfold u; lia).
  set (g' := {| nodes := (nodes (nx_graph self) ++
                          [(Uuid u, question_attrs self faq);
                           (Uuid (S u), answer_attrs self faq)])%list;
                edges := (edges (nx_graph self) ++
                          [(c, Uuid u, [("type", AStr "contains")]);
                           (Uuid u, Uuid (S u),
                            [("type", AStr "has_answer")])])%list |}).
  assert (Kc : node_kind g' c = Some "content").
  { unfold node_kind in *. cbn [nodes g']. rewrite get_app.
    destruct (get NodeId_eqb (nodes (nx_graph self)) c); [exact Hc|discriminate]. }
  assert (Kq : node_kind g' (Uuid u) = Some "question").
  { unfold node_kind. cbn [nodes g']. rewrite get_app, F. cbn [get NodeId_eqb].
    now rewrite Nat.eqb_refl. }
  assert (Ka : node_kind g' (Uuid (S u)) = Some "answer").
  { unfold node_kind. cbn [nodes g']. rewrite get_app, F'. cbn [get NodeId_eqb].
    replace (Nat.eqb (S u) u) with false
      by (symmetry; apply Nat.eqb_neq; lia).
    now rewrite Nat.eqb_refl. }
  split; [|exact Kc].
  apply schema_extend_graph; try assumption.
  - intros id [<-|[<-|[]]]; assumption.
  - intros id d [[= <- <-]|[[= <- <-]|[]]].
    + exists "question". split; [reflexivity|]. cbn. tauto.
    + exists "answer". split; [reflexivity|]. cbn. tauto.
  - constructor; [|constructor; [|constructor]].
    + exists "contains", "content", "question". cbn [fst snd].
      repeat split; assumption || reflexivity.
    + exists "has_answer", "question", "answer". cbn [fst snd].
      repeat split; assumption || reflexivity.
  - intros e [<-|[<-|[]]]; cbn [fst snd keys map]; [now left|right; now left].
  - intros e [<-|[<-|[]]]; cbn [fst snd keys map]; [now left|right; now left].
  - intros q [<-|[<-|[]]] Hq.
    + cbn [filter fst snd]. rewrite Ncu, NodeId_eqb_refl. reflexivity.
    + assert (E : Some "answer" = Some "question") by (rewrite <- Ka; exact Hq).
      discriminate.
  - intros v [<-|[<-|[]]]; cbn [filter fst snd].
    + rewrite NodeId_eqb_refl.
      replace (NodeId_eqb (Uuid (S u)) (Uuid u)) with false
        by (symmetry; apply NodeId_eqb_neq; intros [= E]; lia).
      reflexivity.
    + rewrite NodeId_eqb_refl.
      replace (NodeId_eqb (Uuid u) (Uuid (S u))) with false
        by (symmetry; apply NodeId_eqb_neq; intros [= E]; lia).
      reflexivity.
Qed.

(** ** Sequences of steps *)

Lemma schema_kept_trans (c : NodeId) (s1 s2 s3 : t) :
  schema_kept c s1 s2 -> schema_kept c s2 s3 -> schema_kept c s1 s3.
Proof.
  intros (K1 & _ & _) (K2 & S2 & C2).
  split; [exact (kept_trans K1 K2)|split; assumption].
Qed.

Lemma schema_kept_refl (c : NodeId) (self : t) :
  well_formed self -> schema_ok (nx_graph self) ->
  node_kind (nx_graph self) c = Some "content" ->
  schema_kept c self self.
Proof.
  intros Hwf Hs Hc. split; [|split; assumption].
  apply kept_refl; [assumption|]. eapply mem_node_kind, Hc.
Qed.

Lemma schema_kept_fold {X : Type} (c : NodeId) (step : t -> X -> t)
  (xs : list X) :
  (forall s x, well_formed s -> schema_ok (nx_graph s) ->
               node_kind (nx_graph s) c = Some "content" ->
               schema_kept c s (step s x)) ->
  forall self, well_formed self -> schema_ok (nx_graph self) ->
               node_kind (nx_graph self) c = Some "content" ->
               schema_kept c self (fold_left step xs self).
Proof.
  intros Hstep. induction xs as [|x xs IH]; intros self Hwf Hs Hc; cbn [fold_left].
  - now apply schema_kept_refl.
  - pose proof (Hstep self x Hwf Hs Hc) as K.
    eapply schema_kept_trans; [exact K|].
    destruct K as ((Hwf' & _) & Hs' & Hc'). now apply IH.
Qed.

Lemma process_faq_schema (c : NodeId) (self : t) (cd : ContentData) :
  well_formed self -> schema_ok (nx_graph self) ->
  node_kind (nx_graph self) c = Some "content" ->
  schema_kept c self (_process_faq_content self c cd).
Proof.
  intros Hwf Hs Hc. unfold _process_faq_content.
  apply schema_kept_fold; try assumption.
  intros s x. apply faq_step_schema.
Qed.

Lemma link_step_schema (c : NodeId) (self : t) (link : DownloadLink) :
  well_formed self -> schema_ok (nx_graph self) ->
  node_kind (nx_graph self) c = Some "content" ->
  schema_kept c self (link_step c self link).
Proof.
  intros Hwf Hs Hc. unfold link_step.
  apply (@derive_schema c self (link_attrs link) "has_download" "download_link");
    try assumption.
  - apply link_attrs_shaped.
  - reflexivity.
  - cbn. tauto.
  - discriminate.
  - reflexivity.
Qed.

Lemma process_data_schema (c : NodeId) (self : t) (cd : ContentData) :
  well_formed self -> schema_ok (nx_graph self) ->
  node_kind (nx_graph self) c = Some "content" ->
  schema_kept c self (_process_data_content self c cd).
Proof.
  intros Hwf Hs Hc. unfold _process_data_content.
  assert (K : schema_kept c self
                match data_info cd with
                | Some {| specifications := Some spec |} =>
                    derive c self
                           [("type", AStr "specifications"); ("data", spec)]
                           "has_specifications"
                | _ => self
                end).
  { destruct (data_info cd) as [[[spec|]]|]; try now apply schema_kept_refl.
    apply (@derive_schema c self _ "has_specifications" "specifications");
      try assumption.
    - apply derived_node_shaped; discriminate.
    - reflexivity.
    - cbn. tauto.
    - discriminate.
    - reflexivity. }
  eapply schema_kept_trans; [exact K|].
  destruct K as ((Hwf' & _) & Hs' & Hc').
  apply schema_kept_fold; try assumption.
  intros s x. apply link_step_schema.
Qed.

Lemma process_api_schema (c : NodeId) (self : t) (cd : ContentData) :
  well_formed self -> schema_ok (nx_graph self) ->
  node_kind (nx_graph self) c = Some "content" ->
  schema_kept c self (_process_api_content self c cd).
Proof.
  intros Hwf Hs Hc. unfold _process_api_content.
  set (api := getd (api_info cd) _).
  assert (K : schema_kept c self
                match documentation api with
                | Some doc =>
                    derive c self
                           [("type", AStr "api_documentation"); ("text", AStr doc)]
                           "has_documentation"
                | None => self
                end).
  { destruct (documentation api) as [doc|]; [|now apply schema_kept_refl].
    apply (@derive_schema c self _ "has_documentation" "api_documentation");
      try assumption.
    - apply derived_node_shaped; discriminate.
    - reflexivity.
    - cbn. tauto.
    - discriminate.
    - reflexivity. }
  destruct (code_examples api) as [code|]; [|exact K].
  eapply schema_kept_trans; [exact K|].
  destruct K as ((Hwf' & _) & Hs' & Hc').
  apply (@derive_schema c _ _ "has_example" "code_example"); try assumption.
  - apply derived_node_shaped; discriminate.
  - reflexivity.
  - cbn. tauto.
  - discriminate.
  - reflexivity.
Qed.

(** ** The content node *)

Lemma schema_add_content (g : MultiDiGraph) (c : NodeId) (cd : ContentData) :
  schema_ok g ->
  (forall d, get NodeId_eqb (nodes g) c = Some d -> kind_of d = Some "content") ->
  schema_ok (add_node g c (content_attrs cd)) /\
  node_kind (add_node g c (content_attrs cd)) c = Some "content".
Proof.
  intros (HN & HE & HQ & HI) Hold.
  set (g' := add_node g c (content_attrs cd)).
  assert (K : forall x, node_kind g' x =
                        if NodeId_eqb x c then Some "content" else node_kind g x).
  { intros x. unfold node_kind, g', add_node. cbn [nodes].
    rewrite (get_setitem _ NodeId_eqb_eq).
    destruct (NodeId_eqb x c); [apply content_attrs_kind|reflexivity]. }
  assert (Kfwd : forall x k, node_kind g x = Some k -> node_kind g' x = Some k).
  { intros x k Hk. rewrite K. destruct (NodeId_eqb x c) eqn:E; [|exact Hk].
    apply NodeId_eqb_eq in E. subst x. unfold node_kind in Hk.
    destruct (get NodeId_eqb (nodes g) c) as [d|]; [|discriminate].
    rewrite (Hold d eq_refl) in Hk. exact Hk. }
  assert (Kback : forall x k, node_kind g' x = Some k -> k <> "content" ->
                              node_kind g x = Some k).
  { intros x k Hk Hne. rewrite K in Hk.
    destruct (NodeId_eqb x c); [congruence|exact Hk]. }
  split.
  - split; [|split; [|split]].
    + intros id d Hin. unfold g', add_node in Hin. cbn [nodes] in Hin.
      apply (In_setitem _ NodeId_eqb_eq) in Hin. destruct Hin as [[= -> ->]|Hin].
      * exists "content". split; [apply content_attrs_kind|cbn; tauto].
      * now apply (HN id d).
    + change (edges g') with (edges g).
      eapply Forall_impl; [|exact HE].
      intros e (rel & ks & kt & Ha & Hs & Ht & Hr).
      exists rel, ks, kt. repeat split; auto.
    + intros q Hq. change (out_edges g' q) with (out_edges g q).
      apply HQ, Kback; [exact Hq|discriminate].
    + intros v k Hk Hne. change (in_edges g' v) with (in_edges g v).
      apply (HI v k); [now apply Kback|exact Hne].
  - rewrite K, NodeId_eqb_refl. reflexivity.
Qed.

Lemma content_added_graph (self : t) (cd : ContentData) (given : option NodeId) :
  nx_graph (content_added self cd given) =
  add_node (nx_graph self) (content_key self given) (content_attrs cd).
Proof.
  unfold content_added.
  destruct given as [id|]; [destruct (falsy_id (Some id))|]; reflexivity.
Qed.

Lemma content_key_old (self : t) (given : option NodeId) (d : attrs) :
  well_formed self -> neo_or_none given ->
  get NodeId_eqb (nodes (nx_graph self)) (content_key self given) = Some d ->
  kind_of d = Some "content".
Proof.
  intros Hwf Hg G.
  assert (Fresh : get NodeId_eqb (nodes (nx_graph self))
                      (Uuid (uuid_next self)) = None)
    by (apply (wf_nodes_fresh Hwf); lia).
  unfold content_key in G.
  destruct given as [[n|z]|]; cbn [neo_or_none] in Hg; try contradiction;
    [|congruence].
  destruct (falsy_id (Some (Neo z))); [congruence|].
  pose proof (@wf_node_at _ _ _ _ Hwf G) as Hok. cbn in Hok.
  now apply content_shaped_kind.
Qed.

Lemma content_added_schema (self : t) (cd : ContentData) (given : option NodeId) :
  well_formed self -> neo_or_none given -> schema_ok (nx_graph self) ->
  schema_kept (content_key self given) self (content_added self cd given).
Proof.
  intros Hwf Hg Hs.
  split; [now apply content_added_kept|].
  rewrite content_added_graph.
  apply schema_add_content; [exact Hs|].
  intros d. now apply content_key_old.
Qed.

Lemma add_to_local_graph_schema (self : t) (cd : ContentData)
  (given : option NodeId) :
  well_formed self -> neo_or_none given -> schema_ok (nx_graph self) ->
  schema_kept (content_key self given) self
              (snd (_add_to_local_graph self cd given)).
Proof.
  intros Hwf Hg Hs. rewrite add_to_local_graph_eq. cbn [snd].
  pose proof (@content_added_schema self cd given Hwf Hg Hs) as K.
  pose proof K as ((Hwf' & _) & Hs' & Hc').
  destruct (content_type cd) as [ct|]; [|exact K].
  destruct (ct =? "faq");
    [eapply schema_kept_trans; [exact K|now apply process_faq_schema]|].
  destruct (ct =? "data");
    [eapply schema_kept_trans; [exact K|now apply process_data_schema]|].
  destruct (ct =? "api");
    [eapply schema_kept_trans; [exact K|now apply process_api_schema]|].
  exact K.
Qed.

Lemma schema_empty : schema_ok empty_graph.
Proof.
  split; [|split; [|split]].
  - intros id d [].
  - constructor.
  - intros q H. discriminate.
  - intros v k H. discriminate.
Qed.

Lemma reachable_schema (self : t) : reachable self -> schema_ok (nx_graph self).
Proof.
  induction 1 as [neo4j model|self neo cd Hr IH|self Hr IH].
  - apply schema_empty.
  - rewrite add_content_eq.
    apply (@add_to_local_graph_schema self cd (given_key self neo)).
    + now apply reachable_well_formed.
    + apply given_key_neo_or_none.
    + exact IH.
  - apply schema_empty.
Qed.

(** ** Grouping a list by key *)

Lemma existsb_NodeId (x : NodeId) (l : list NodeId) :
  existsb (NodeId_eqb x) l = true <-> In x l.
Proof.
  rewrite existsb_exists. split.
  - intros (y & Hy & E). apply NodeId_eqb_eq in E. now subst.
  - intros H. exists x. split; [exact H|apply NodeId_eqb_refl].
Qed.

Lemma distinct_ids_In (ids seen : list NodeId) (x : NodeId) :
  In x (distinct_ids seen ids) <-> In x ids /\ ~ In x seen.
Proof.
  revert seen. induction ids as [|id ids IH]; intros seen; cbn [distinct_ids].
  - cbn. tauto.
  - destruct (existsb (NodeId_eqb id) seen) eqn:E.
    + apply existsb_NodeId in E. rewrite IH. cbn [In]. split.
      * intros [H1 H2]. tauto.
      * intros [[->|H1] H2]; [contradiction|tauto].
    + assert (Hid : ~ In id seen).
      { intros H. apply existsb_NodeId in H. congruence. }
      cbn [In]. rewrite IH. cbn [In]. split.
      * intros [<-|[H1 H2]]; [tauto|]. split; [tauto|]. tauto.
      * intros [[->|H1] H2]; [now left|].
        destruct (NodeId_eqb id x) eqn:Ex.
        -- apply NodeId_eqb_eq in Ex. now left.
        -- right. split; [exact H1|]. intros [->|H3]; [|contradiction].
           rewrite NodeId_eqb_refl in Ex. discriminate.
Qed.

Lemma distinct_ids_NoDup (ids seen : list NodeId) :
  NoDup (distinct_ids seen ids).
Proof.
  revert seen. induction ids as [|id ids IH]; intros seen; cbn [distinct_ids].
  - constructor.
  - destruct (existsb (NodeId_eqb id) seen); [apply IH|].
    constructor; [|apply IH].
    rewrite distinct_ids_In. cbn [In]. tauto.
Qed.

Lemma filter_disjoint {A : Type} (p q : A -> bool) (l : list A) :
  (forall x, In x l -> p x = true -> q x = false) ->
  Permutation (filter p l ++ filter q l) (filter (fun x => p x || q x) l).
Proof.
  induction l as [|x l IH]; intros H; cbn [filter]; [constructor|].
  assert (IH' := IH (fun y Hy => H y (or_intror Hy))).
  destruct (p x) eqn:Ep.
  - rewrite (H x (or_introl eq_refl) Ep). cbn [orb app].
    now constructor.
  - cbn [orb]. destruct (q x).
    + apply Permutation_sym. apply Permutation_cons_app.
      now apply Permutation_sym.
    + exact IH'.
Qed.

Lemma filter_all {A : Type} (p : A -> bool) (l : list A) :
  (forall x, In x l -> p x = true) -> filter p l = l.
Proof.
  induction l as [|x l IH]; intros H; cbn [filter]; [reflexivity|].
  rewrite (H x (or_introl eq_refl)). f_equal. apply IH.
  intros y Hy. apply H. now right.
Qed.

(** Listing the elements key by key, over keys that do not repeat, lists each
    element whose key is among them once. *)
Lemma group_by_key {A : Type} (f : A -> NodeId) (ks : list NodeId) (l : list A) :
  NoDup ks ->
  Permutation (flat_map (fun k => filter (fun x => NodeId_eqb (f x) k) l) ks)
              (filter (fun x => existsb (NodeId_eqb (f x)) ks) l).
Proof.
  induction 1 as [|k ks Hk ND IH]; cbn [flat_map existsb].
  - rewrite filter_none by reflexivity. constructor.
  - eapply Permutation_trans; [apply Permutation_app_head, IH|].
    apply filter_disjoint.
    intros x _ E. apply NodeId_eqb_eq in E.
    destruct (existsb (NodeId_eqb (f x)) ks) eqn:E'; [|reflexivity].
    apply existsb_NodeId in E'. congruence.
Qed.

Lemma group_by_key_all {A : Type} (f : A -> NodeId) (ks : list NodeId)
  (l : list A) :
  NoDup ks -> (forall x, In x l -> In (f x) ks) ->
  Permutation (flat_map (fun k => filter (fun x => NodeId_eqb (f x) k) l) ks) l.
Proof.
  intros ND Hall.
  eapply Permutation_trans; [now apply group_by_key|].
  rewrite filter_all; [apply Permutation_refl|].
  intros x Hx. apply existsb_NodeId. now apply Hall.
Qed.

(** The edges out of a node, neighbour by neighbour. *)
Lemma out_edges_by_neighbor (g : MultiDiGraph) (u : NodeId) :
  Permutation
    (flat_map (fun v => filter (fun e => NodeId_eqb (snd (fst e)) v)
                               (out_edges g u))
              (neighbors g u))
    (out_edges g u).
Proof.
  apply group_by_key_all.
  - apply distinct_ids_NoDup.
  - intros e He. unfold neighbors. rewrite distinct_ids_In.
    split; [|tauto].
    exact (in_map (fun e0 : NodeId * NodeId * attrs => snd (fst e0)) _ _ He).
Qed.

Lemma Permutation_filter_length {A : Type} (p : A -> bool) (l l' : list A) :
  Permutation l l' -> length (filter p l) = length (filter p l').
Proof.
  induction 1 as [|x l l' HP IH|x y l|l l' l'' H1 IH1 H2 IH2]; cbn [filter].
  - reflexivity.
  - destruct (p x); cbn [length]; congruence.
  - destruct (p x), (p y); reflexivity.
  - congruence.
Qed.

(** ** Related content *)

Lemma related_entries_eq (g : MultiDiGraph) (u : NodeId) (vs : list NodeId) :
  flat_map
    (fun neighbor =>
       map (fun edge_attrs =>
              {| related_id := neighbor;
                 relationship :=
                   getd (get String.eqb edge_attrs "type") (AStr "unknown");
                 related_data := node_attrs g neighbor |})
           (get_edge_data g u neighbor))
    vs =
  map (related_of_edge g)
      (flat_map (fun v => filter (fun e => NodeId_eqb (snd (fst e)) v)
                                 (out_edges g u)) vs).
Proof.
  induction vs as [|v vs IH]; cbn [flat_map]; [reflexivity|].
  rewrite map_app, IH. f_equal. clear IH.
  unfold get_edge_data. rewrite map_map.
  generalize (out_edges g u). intros es.
  induction es as [|e es IHe]; cbn [filter]; [reflexivity|].
  destruct (NodeId_eqb (snd (fst e)) v) eqn:E; [|exact IHe].
  apply NodeId_eqb_eq in E. cbn [map]. rewrite IHe. f_equal.
  unfold related_of_edge. now rewrite E.
Qed.

Lemma related_unfiltered (self : t) (u : NodeId) :
  mem NodeId_eqb (nodes (nx_graph self)) u = true ->
  Permutation (get_related_content self u None)
              (map (related_of_edge (nx_graph self))
                   (out_edges (nx_graph self) u)).
Proof.
  intros Hm. unfold get_related_content. rewrite Hm. cbn [negb].
  rewrite related_entries_eq. apply Permutation_map, out_edges_by_neighbor.
Qed.

Lemma related_filtered_eq (self : t) (u : NodeId) (ty : string) :
  ty <> "" ->
  mem NodeId_eqb (nodes (nx_graph self)) u = true ->
  get_related_content self u (Some ty) =
  map (fun v => {| related_id := v; relationship := AStr ty;
                   related_data := node_attrs (nx_graph self) v |})
      (filter (fun v => existsb (has_type ty)
                                (get_edge_data (nx_graph self) u v))
              (neighbors (nx_graph self) u)).
Proof.
  intros Hty Hm. unfold get_related_content. rewrite Hm. cbn [negb].
  apply String.eqb_neq in Hty. rewrite Hty.
  induction (neighbors (nx_graph self) u) as [|v vs IH]; cbn [flat_map filter];
    [reflexivity|].
  destruct (existsb (has_type ty) (get_edge_data (nx_graph self) u v));
    cbn [map app]; now rewrite IH.
Qed.

Lemma related_absent (self : t) (u : NodeId) (rt : option string) :
  mem NodeId_eqb (nodes (nx_graph self)) u = false ->
  get_related_content self u rt = [].
Proof. intros Hm. unfold get_related_content. now rewrite Hm. Qed.

Lemma three_kinds_reachable : reachable three_kinds.
Proof. unfold three_kinds. repeat apply reach_add. apply reach_init. Qed.

Lemma relation_ok_inv (rel ks kt : string) :
  relation_ok rel ks kt = true ->
  In (rel, ks, kt)
     [("contains", "content", "question");
      ("has_answer", "question", "answer");
      ("has_specifications", "content", "specifications");
      ("has_download", "content", "download_link");
      ("has_documentation", "content", "api_documentation");
      ("has_example", "content", "code_example")].
Proof.
  unfold relation_ok.
  rewrite !orb_true_iff, !andb_true_iff, !String.eqb_eq. cbn [In].
  intros [[[[[H|H]|H]|H]|H]|H]; destruct H as [[-> ->] ->]; auto 10.
Qed.

Lemma length_one {A : Type} (l : list A) :
  length l = 1 -> exists x, l = [x].
Proof.
  destruct l as [|x [|y l]]; try discriminate. intros _. now exists x.
Qed.

Lemma out_edge_inv (g : MultiDiGraph) (u : NodeId)
  (e : NodeId * NodeId * attrs) :
  In e (out_edges g u) -> In e (edges g) /\ fst (fst e) = u.
Proof.
  unfold out_edges. rewrite filter_In. intros [H E].
  apply NodeId_eqb_eq in E. now split.
Qed.

Lemma in_edge_inv (g : MultiDiGraph) (v : NodeId)
  (e : NodeId * NodeId * attrs) :
  In e (in_edges g v) -> In e (edges g) /\ snd (fst e) = v.
Proof.
  unfold in_edges. rewrite filter_In. intros [H E].
  apply NodeId_eqb_eq in E. now split.
Qed.

(** The one edge out of a question node. *)
Lemma question_out_edge (g : MultiDiGraph) (q : NodeId) :
  schema_ok g -> node_kind g q = Some "question" ->
  exists a, out_edges g q = [(q, a, [("type", AStr "has_answer")])] /\
            node_kind g a = Some "answer".
Proof.
  intros (HN & HE & HQ & HI) Hq.
  destruct (@length_one _ _ (HQ q Hq)) as [[[u a] d] He].
  assert (Hin : In (u, a, d) (out_edges g q)) by (rewrite He; now left).
  apply out_edge_inv in Hin. destruct Hin as [Hin Hu]. cbn [fst] in Hu. subst u.
  rewrite Forall_forall in HE.
  destruct (HE _ Hin) as (rel & ks & kt & Ha & Hs & Ht & Hr).
  cbn [fst snd] in *. rewrite Hq in Hs. injection Hs as <-.
  apply relation_ok_inv in Hr. cbn [In] in Hr.
  destruct Hr as [Hr|[Hr|[Hr|[Hr|[Hr|[Hr|[]]]]]]]; try discriminate.
  injection Hr as <- <-. exists a. subst d. split; [exact He|exact Ht].
Qed.

(** No edge leaves a node that is neither a page nor a question. *)
Lemma leaf_out_edges (g : MultiDiGraph) (v : NodeId) (k : string) :
  schema_ok g -> node_kind g v = Some k ->
  k <> "content" -> k <> "question" -> out_edges g v = [].
Proof.
  intros (HN & HE & HQ & HI) Hk Hc Hq.
  destruct (out_edges g v) as [|e es] eqn:Eo; [reflexivity|exfalso].
  assert (Hin : In e (out_edges g v)) by (rewrite Eo; now left).
  apply out_edge_inv in Hin. destruct Hin as [Hin Hu].
  rewrite Forall_forall in HE.
  destruct (HE _ Hin) as (rel & ks & kt & Ha & Hs & Ht & Hr).
  rewrite Hu, Hk in Hs. injection Hs as <-.
  apply relation_ok_inv in Hr. cbn [In] in Hr.
  destruct Hr as [Hr|[Hr|[Hr|[Hr|[Hr|[Hr|[]]]]]]]; injection Hr as _ <- _;
    congruence.
Qed.

(** X1.  In every state a manager reaches, the local graph follows the
    schema of ingestion: every node is typed with one of the seven kinds;
    every edge carries its relation only and joins two nodes of the graph of
    the kinds that relation asks for; a question node has exactly one
    outgoing edge, a [has_answer] edge to an answer node; and a node that is
    not a page has exactly one incoming edge, from a node of the kind its
    relation asks for. *)
Theorem graph_follows_schema (self : t) :
  reachable self ->
  let g := nx_graph self in
  (forall id d, In (id, d) (nodes g) ->
                exists k, kind_of d = Some k /\ In k node_kinds) /\
  (forall u v a, In (u, v, a) (edges g) ->
                 exists rel ks kt,
                   a = [("type", AStr rel)] /\
                   node_kind g u = Some ks /\ node_kind g v = Some kt /\
                   relation_ok rel ks kt = true) /\
  (forall q, node_kind g q = Some "question" ->
             exists a, out_edges g q = [(q, a, [("type", AStr "has_answer")])] /\
                       node_kind g a = Some "answer") /\
  (forall v k, node_kind g v = Some k -> k <> "content" ->
               exists u rel ks,
                 in_edges g v = [(u, v, [("type", AStr rel)])] /\
                 node_kind g u = Some ks /\ relation_ok rel ks k = true).
Proof.
  intros Hr g. pose proof (@reachable_schema self Hr) as Hs. fold g in Hs.
  pose proof Hs as (HN & HE & HQ & HI).
  rewrite Forall_forall in HE.
  split; [exact HN|]. split; [|split].
  - intros u v a Hin. exact (HE _ Hin).
  - intros q Hq. now apply question_out_edge.
  - intros v k Hk Hne.
    destruct (@length_one _ _ (HI v k Hk Hne)) as [[[u v'] d] He].
    assert (Hin : In (u, v', d) (in_edges g v)) by (rewrite He; now left).
    apply in_edge_inv in Hin. destruct Hin as [Hin Hv]. cbn [fst snd] in Hv.
    subst v'.
    destruct (HE _ Hin) as (rel & ks & kt & Ha & Hks & Hkt & Hrel).
    cbn [fst snd] in *. rewrite Hk in Hkt. injection Hkt as <-. subst d.
    exists u, rel, ks. repeat split; assumption.
Qed.

Lemma graph_follows_schema_witness :
  reachable three_kinds /\
  (forall q, node_kind (nx_graph three_kinds) q = Some "question" ->
             exists a, out_edges (nx_graph three_kinds) q =
                         [(q, a, [("type", AStr "has_answer")])] /\
                       node_kind (nx_graph three_kinds) a = Some "answer").
Proof.
  split; [exact three_kinds_reachable|].
  apply (@graph_follows_schema three_kinds three_kinds_reachable).
Defined.

Lemma related_of_single (self : t) (u v : NodeId) (rel : string) :
  out_edges (nx_graph self) u = [(u, v, [("type", AStr rel)])] ->
  mem NodeId_eqb (nodes (nx_graph self)) u = true ->
  get_related_content self u None =
    [{| related_id := v; relationship := AStr rel;
        related_data := node_attrs (nx_graph self) v |}] /\
  forall ty, ty <> "" ->
    get_related_content self u (Some ty) =
    if rel =? ty
    then [{| related_id := v; relationship := AStr ty;
             related_data := node_attrs (nx_graph self) v |}]
    else [].
Proof.
  intros Ho Hm. split.
  - unfold get_related_content, neighbors, get_edge_data.
    rewrite Hm, Ho. cbn [negb map fst snd distinct_ids existsb flat_map filter].
    rewrite NodeId_eqb_refl. reflexivity.
  - intros ty Hty. apply String.eqb_neq in Hty.
    unfold get_related_content, neighbors, get_edge_data.
    rewrite Hm, Ho, Hty.
    cbn [negb map fst snd distinct_ids existsb flat_map filter].
    rewrite NodeId_eqb_refl.
    cbn [map snd existsb]. unfold has_type. cbn [get].
    change ("type" =? "type") with true. cbn iota.
    destruct (rel =? ty); reflexivity.
Qed.

(** X2.  In every state a manager reaches, the related content of a
    question node is exactly its answer: one entry, for an answer node,
    under the relationship [has_answer], whether no relationship type is
    asked for or [has_answer] is; any other relationship type gives
    nothing. *)
Theorem related_content_of_question (self : t) (q : NodeId) :
  reachable self ->
  node_kind (nx_graph self) q = Some "question" ->
  exists a,
    node_kind (nx_graph self) a = Some "answer" /\
    get_related_content self q None =
      [{| related_id := a; relationship := AStr "has_answer";
          related_data := node_attrs (nx_graph self) a |}] /\
    get_related_content self q (Some "has_answer") =
      get_related_content self q None /\
    forall ty, ty <> "" -> ty <> "has_answer" ->
               get_related_content self q (Some ty) = [].
Proof.
  intros Hr Hq.
  destruct (@question_out_edge _ q (@reachable_schema self Hr) Hq)
    as (a & Ho & Ha).
  pose proof (mem_node_kind _ _ Hq) as Hm.
  destruct (@related_of_single self q a "has_answer" Ho Hm) as [Hnone Hsome].
  exists a. split; [exact Ha|]. split; [exact Hnone|]. split.
  - rewrite Hnone. rewrite (Hsome "has_answer") by discriminate. reflexivity.
  - intros ty Hty Hne. rewrite (Hsome ty Hty).
    destruct ("has_answer" =? ty) eqn:E; [|reflexivity].
    apply String.eqb_eq in E. congruence.
Qed.

Lemma related_content_of_question_witness :
  reachable three_kinds /\
  node_kind (nx_graph three_kinds) (Uuid 1) = Some "question" /\
  exists a,
    node_kind (nx_graph three_kinds) a = Some "answer" /\
    get_related_content three_kinds (Uuid 1) None =
      [{| related_id := a; relationship := AStr "has_answer";
          related_data := node_attrs (nx_graph three_kinds) a |}].
Proof.
  split; [exact three_kinds_reachable|]. split; [reflexivity|].
  destruct (@related_content_of_question three_kinds (Uuid 1)
              three_kinds_reachable eq_refl) as (a & Ha & Hn & _).
  exists a. split; assumption.
Defined.

(** X3.  In every state a manager reaches, a node that is neither a page
    nor a question (an answer, a specification, a download link, an API
    documentation, a code example) has no related content, whatever
    relationship type is asked for. *)
Theorem related_content_of_leaf (self : t) (v : NodeId) (k : string)
  (relationship_type : option string) :
  reachable self ->
  node_kind (nx_graph self) v = Some k ->
  k <> "content" -> k <> "question" ->
  get_related_content self v relationship_type = [].
Proof.
  intros Hr Hk Hc Hq.
  pose proof (@leaf_out_edges _ v k (@reachable_schema self Hr) Hk Hc Hq) as Ho.
  unfold get_related_content, neighbors. rewrite Ho.
  cbn [map distinct_ids flat_map].
  destruct (negb _); [reflexivity|].
  destruct relationship_type as [ty|]; [|reflexivity].
  destruct (ty =? ""); reflexivity.
Qed.

Lemma related_content_of_leaf_witness :
  reachable three_kinds /\
  node_kind (nx_graph three_kinds) (Uuid 2) = Some "answer" /\
  "answer" <> "content" /\ "answer" <> "question" /\
  get_related_content three_kinds (Uuid 2) None = [].
Proof.
  split; [exact three_kinds_reachable|]. split; [reflexivity|].
  split; [discriminate|]. split; [discriminate|].
  apply (@related_content_of_leaf three_kinds (Uuid 2) "answer" None
           three_kinds_reachable eq_refl); discriminate.
Defined.

Lemma distinct_ids_length (ids seen : list NodeId) :
  length (distinct_ids seen ids) <= length ids.
Proof.
  revert seen. induction ids as [|id ids IH]; intros seen; cbn [distinct_ids];
    [lia|].
  destruct (existsb (NodeId_eqb id) seen); cbn [length].
  - specialize (IH seen). lia.
  - specialize (IH (id :: seen)). lia.
Qed.

(** X4.  In every state, with no relationship type (or the empty one, which
    is falsy), the related content of a node of the graph has one entry per
    edge out of the node (parallel edges included), listed neighbour by
    neighbour, each with the relation of its edge, or [unknown] when the edge
    has none; for a key that is not a node the result is empty. *)
Theorem related_content_unfiltered (self : t) (u : NodeId) :
  let g := nx_graph self in
  get_related_content self u (Some "") = get_related_content self u None /\
  Permutation (get_related_content self u None)
              (if mem NodeId_eqb (nodes g) u
               then map (related_of_edge g) (out_edges g u)
               else []) /\
  length (get_related_content self u None) =
    (if mem NodeId_eqb (nodes g) u then length (out_edges g u) else 0).
Proof.
  intros g. split; [reflexivity|].
  destruct (mem NodeId_eqb (nodes g) u) eqn:Hm.
  - pose proof (related_unfiltered self u Hm) as P. fold g in P.
    split; [exact P|].
    rewrite (Permutation_length P). apply length_map.
  - rewrite (related_absent self u None Hm). split; [constructor|reflexivity].
Qed.

Lemma edge_data_In (g : MultiDiGraph) (u v : NodeId) (a : attrs) :
  In a (get_edge_data g u v) <-> In (u, v, a) (edges g).
Proof.
  unfold get_edge_data, out_edges. rewrite in_map_iff. split.
  - intros ([[u' v'] a'] & E & Hin). cbn [snd] in E. subst a'.
    rewrite !filter_In in Hin. cbn [fst snd] in Hin.
    destruct Hin as [[Hin Eu] Ev].
    apply NodeId_eqb_eq in Eu. apply NodeId_eqb_eq in Ev. now subst.
  - intros Hin. exists (u, v, a). split; [reflexivity|].
    rewrite !filter_In. cbn [fst snd]. rewrite !NodeId_eqb_refl. tauto.
Qed.

(** X5.  In every state, with a non-empty relationship type, the related
    content of a node lists each neighbour at most once, under the type asked
    for: a neighbour is listed exactly when some edge from the node to it has
    that type, and the result is never longer than the one without a type. *)
Theorem related_content_by_type (self : t) (u : NodeId) (ty : string) :
  ty <> "" ->
  let g := nx_graph self in
  let r := get_related_content self u (Some ty) in
  NoDup (map related_id r) /\
  (forall x, In x r ->
             relationship x = AStr ty /\
             related_data x = node_attrs g (related_id x)) /\
  (forall v, In v (map related_id r) <->
             mem NodeId_eqb (nodes g) u = true /\
             exists a, In (u, v, a) (edges g) /\ has_type ty a = true) /\
  length r <= length (get_related_content self u None).
Proof.
  intros Hty g r.
  destruct (mem NodeId_eqb (nodes g) u) eqn:Hm.
  - assert (Er : r = map (fun v => {| related_id := v; relationship := AStr ty;
                                      related_data := node_attrs g v |})
                         (filter (fun v => existsb (has_type ty)
                                                   (get_edge_data g u v))
                                 (neighbors g u)))
      by (apply related_filtered_eq; assumption).
    assert (Ids : map related_id r =
                  filter (fun v => existsb (has_type ty) (get_edge_data g u v))
                         (neighbors g u)).
    { rewrite Er, map_map. cbn [related_id]. apply map_id. }
    split; [|split; [|split]].
    + rewrite Ids. apply NoDup_filter, distinct_ids_NoDup.
    + intros x Hx. rewrite Er in Hx. apply in_map_iff in Hx.
      destruct Hx as (v & <- & _). split; reflexivity.
    + intros v. rewrite Ids, filter_In, existsb_exists. split.
      * intros (_ & a & Ha & Ht). split; [reflexivity|].
        exists a. split; [now apply edge_data_In|exact Ht].
      * intros (_ & a & Ha & Ht). split.
        -- unfold neighbors. rewrite distinct_ids_In. split; [|tauto].
           apply in_map_iff. exists (u, v, a). split; [reflexivity|].
           unfold out_edges. rewrite filter_In. cbn [fst].
           rewrite NodeId_eqb_refl. tauto.
        -- exists a. split; [now apply edge_data_In|exact Ht].
    + rewrite (Permutation_length (related_unfiltered self u Hm)).
      rewrite length_map. rewrite <- (length_map related_id), Ids.
      eapply Nat.le_trans; [apply filter_length_le|].
      unfold neighbors.
      eapply Nat.le_trans; [apply distinct_ids_length|].
      rewrite length_map. apply Nat.le_refl.
  - assert (Er : r = []) by (apply related_absent; exact Hm).
    rewrite Er. cbn [map length In]. split; [constructor|].
    split; [tauto|]. split; [|lia].
    intros v. split; [tauto|]. intros [H _]. discriminate.
Qed.

Lemma related_content_by_type_witness :
  "contains" <> "" /\
  NoDup (map related_id
             (get_related_content three_kinds (Uuid 0) (Some "contains"))) /\
  length (get_related_content three_kinds (Uuid 0) (Some "contains")) = 2.
Proof.
  split; [discriminate|].
  destruct (@related_content_by_type three_kinds (Uuid 0) "contains"
              ltac:(discriminate)) as (H & _).
  split; [exact H|]. vm_compute. reflexivity.
Defined.

(** ** Statistics *)

Lemma label_eqb_eq (a b : label) : label_eqb a b = true <-> a = b.
Proof.
  destruct a as [x|], b as [y|]; cbn [label_eqb]; split; intros H;
    try discriminate; try reflexivity.
  - apply String.eqb_eq in H. now subst.
  - injection H as ->. apply String.eqb_refl.
Qed.

Lemma kind_type_label (d : attrs) (k : string) :
  kind_of d = Some k -> type_label d = Ok (LStr k).
Proof.
  unfold kind_of, type_label.
  destruct (get String.eqb d "type") as [[s| | |]|]; try discriminate.
  now intros [= ->].
Qed.

Lemma has_type_kind (d : attrs) (k s : string) :
  kind_of d = Some k -> has_type s d = (k =? s).
Proof.
  unfold kind_of, has_type.
  destruct (get String.eqb d "type") as [[x| | |]|]; try discriminate.
  now intros [= ->].
Qed.

Lemma sum_count_label (h : dict label nat) (l : label) :
  list_sum (values (count_label h l)) = list_sum (values h) + 1.
Proof.
  unfold count_label, values. induction h as [|[k v] h IH].
  - reflexivity.
  - cbn [get setitem]. destruct (label_eqb l k) eqn:E.
    + simpl. lia.
    + simpl in *. rewrite IH. lia.
Qed.

Lemma histogram_counts (ds : list attrs) :
  (forall d, In d ds -> exists k, kind_of d = Some k) ->
  forall h, exists h',
    histogram ds h = Ok h' /\
    (forall s, getd (get label_eqb h' (LStr s)) 0 =
               getd (get label_eqb h (LStr s)) 0 + length (filter (has_type s) ds)) /\
    get label_eqb h' LNone = get label_eqb h LNone /\
    list_sum (values h') = list_sum (values h) + length ds.
Proof.
  induction ds as [|d ds IH]; intros Hk h.
  - exists h. cbn [histogram filter length]. repeat split; lia.
  - destruct (Hk d (or_introl eq_refl)) as [k Kd].
    destruct (IH (fun x Hx => Hk x (or_intror Hx)) (count_label h (LStr k)))
      as (h' & Hh & Hget & Hnone & Hsum).
    exists h'. cbn [histogram]. rewrite (kind_type_label _ Kd). cbn [bind].
    split; [exact Hh|]. split; [|split].
    + intros s. rewrite Hget. unfold count_label at 1.
      rewrite (get_setitem _ label_eqb_eq). cbn [label_eqb filter].
      rewrite (has_type_kind _ s Kd).
      destruct (s =? k) eqn:E.
      * apply String.eqb_eq in E. subst s. rewrite String.eqb_refl.
        cbn [getd length]. lia.
      * rewrite String.eqb_sym, E. lia.
    + rewrite Hnone. unfold count_label.
      rewrite (get_setitem _ label_eqb_eq). reflexivity.
    + rewrite Hsum, sum_count_label. cbn [length]. lia.
Qed.

Lemma filter_map_snd {A B : Type} (p : B -> bool) (l : list (A * B)) :
  length (filter p (map snd l)) = length (filter (fun e => p (snd e)) l).
Proof.
  induction l as [|x l IH]; cbn [map filter]; [reflexivity|].
  destruct (p (snd x)); cbn [length]; now rewrite IH.
Qed.

Lemma Permutation_flat_map_pointwise {A B : Type} (f f' : A -> list B)
  (l : list A) :
  (forall x, Permutation (f x) (f' x)) ->
  Permutation (flat_map f l) (flat_map f' l).
Proof.
  intros H. induction l as [|x l IH]; cbn [flat_map]; [constructor|].
  now apply Permutation_app.
Qed.

(** The adjacency walk of [G.edges] meets every edge once. *)
Lemma edges_view_permutation (g : MultiDiGraph) :
  NoDup (keys (nodes g)) -> Forall (edge_ok g) (edges g) ->
  Permutation (edges_view g) (edges g).
Proof.
  intros ND HE. unfold edges_view.
  eapply Permutation_trans.
  - apply Permutation_flat_map_pointwise with
      (f' := fun u => filter (fun e : NodeId * NodeId * attrs =>
                                NodeId_eqb (fst (fst e)) u) (edges g)).
    intros u. exact (out_edges_by_neighbor g u).
  - apply group_by_key_all; [exact ND|].
    intros e He. rewrite Forall_forall in HE.
    now destruct (edge_ok_endpoints (HE e He)).
Qed.

Lemma edge_ok_kind (g : MultiDiGraph) (e : NodeId * NodeId * attrs) :
  edge_ok g e -> exists rel, kind_of (snd e) = Some rel.
Proof. intros (rel & ks & kt & -> & _). now exists rel. Qed.

(** X6.  In every state a manager reaches, [get_graph_stats] does not
    raise; on a graph without nodes it gives the empty dictionary; otherwise
    it reports the number of nodes and of edges, and in both histograms the
    entry of a type is the number of nodes, respectively edges, of that type
    ([None] is never a key), so that the entries of each histogram add up to
    the total it goes with. *)
Theorem graph_stats_counts (self : t) :
  reachable self ->
  let g := nx_graph self in
  (nodes g = [] -> get_graph_stats self = Ok None) /\
  (nodes g <> [] ->
   exists st,
     get_graph_stats self = Ok (Some st) /\
     total_nodes st = length (nodes g) /\
     total_edges st = length (edges g) /\
     (forall ty, getd (get label_eqb (node_types st) (LStr ty)) 0 =
                 count_nodes ty g) /\
     (forall ty, getd (get label_eqb (edge_types st) (LStr ty)) 0 =
                 count_edges ty g) /\
     get label_eqb (node_types st) LNone = None /\
     get label_eqb (edge_types st) LNone = None /\
     list_sum (values (node_types st)) = total_nodes st /\
     list_sum (values (edge_types st)) = total_edges st).
Proof.
  intros Hr g.
  pose proof (@reachable_schema self Hr) as (HN & HE & _). fold g in HN, HE.
  pose proof (@reachable_well_formed self Hr) as [ND _]. fold g in ND.
  pose proof (edges_view_permutation ND HE) as P.
  split.
  - intros E. unfold get_graph_stats. fold g. now rewrite E.
  - intros Hne.
    destruct (@histogram_counts (values (nodes g))) with (h := @nil (label * nat))
      as (nt & Hnt & Gnt & Nnt & Snt).
    { intros d Hd. unfold values in Hd. apply in_map_iff in Hd.
      destruct Hd as ([id d'] & <- & Hin).
      destruct (HN id d' Hin) as (k & Hk & _). now exists k. }
    destruct (@histogram_counts (map snd (edges_view g)))
      with (h := @nil (label * nat)) as (et & Het & Get & Net & Set_).
    { intros d Hd. apply in_map_iff in Hd. destruct Hd as (e & <- & Hin).
      apply edge_ok_kind with (g := g).
      rewrite Forall_forall in HE. apply HE.
      eapply Permutation_in; [exact P|exact Hin]. }
    exists {| total_nodes := length (nodes g); total_edges := length (edges g);
              node_types := nt; edge_types := et |}.
    split.
    { unfold get_graph_stats. fold g. rewrite Hnt, Het. cbn [bind].
      destruct (nodes g); [congruence|reflexivity]. }
    cbn [total_nodes total_edges node_types edge_types].
    split; [reflexivity|]. split; [reflexivity|]. split; [|split].
    + intros ty. rewrite Gnt. cbn [get getd]. unfold count_nodes, values.
      now rewrite filter_map_snd.
    + intros ty. rewrite Get. cbn [get getd]. unfold count_edges.
      rewrite filter_map_snd. now apply Permutation_filter_length.
    + split; [exact Nnt|]. split; [exact Net|]. split.
      * rewrite Snt. unfold values. cbn [list_sum map]. now rewrite length_map.
      * rewrite Set_. cbn [values list_sum map].
        rewrite length_map. now apply Permutation_length.
Qed.

Lemma graph_stats_counts_witness :
  reachable three_kinds /\
  nodes (nx_graph three_kinds) <> [] /\
  exists st,
    get_graph_stats three_kinds = Ok (Some st) /\
    total_nodes st = length (nodes (nx_graph three_kinds)) /\
    total_edges st = length (edges (nx_graph three_kinds)).
Proof.
  split; [exact three_kinds_reachable|].
  assert (Hne : nodes (nx_graph three_kinds) <> []) by (vm_compute; discriminate).
  split; [exact Hne|].
  destruct (@graph_stats_counts three_kinds three_kinds_reachable) as [_ H].
  destruct (H Hne) as (st & Hs & Hn & He & _).
  exists st. repeat split; assumption.
Defined.

(** ** What a product page and an API page add *)

Lemma link_fold_eq (c : NodeId) (ls : list DownloadLink) (self : t) :
  well_formed self ->
  mem NodeId_eqb (nodes (nx_graph self)) c = true ->
  let self' := fold_left (link_step c) ls self in
  nodes (nx_graph self') =
    (nodes (nx_graph self) ++ link_nodes (uuid_next self) ls)%list /\
  edges (nx_graph self') =
    (edges (nx_graph self) ++ link_edges c (uuid_next self) ls)%list /\
  uuid_next self' = uuid_next self + length ls.
Proof.
  revert self. induction ls as [|link ls IH]; intros self Hwf Hc;
    cbn [fold_left link_nodes link_edges length].
  - rewrite !app_nil_r. repeat split; lia.
  - assert (K : kept c self (link_step c self link))
      by (apply derive_kept; [assumption|assumption|apply link_attrs_shaped]).
    destruct (IH _ (proj1 K) (proj1 (proj2 K))) as (Hn & He & Hu).
    rewrite Hn, He, Hu. unfold link_step.
    rewrite (@derive_eq c self (link_attrs link) "has_download" Hwf Hc).
    cbn [nx_graph nodes edges uuid_next]. rewrite <- !app_assoc.
    repeat split; try reflexivity. lia.
Qed.

Lemma process_data_eq (c : NodeId) (self : t) (cd : ContentData) :
  well_formed self ->
  mem NodeId_eqb (nodes (nx_graph self)) c = true ->
  let u := uuid_next self in
  let n := length (spec_nodes u cd) in
  let self' := _process_data_content self c cd in
  nodes (nx_graph self') =
    (nodes (nx_graph self) ++ spec_nodes u cd ++
     link_nodes (u + n) (getd (download_links cd) []))%list /\
  edges (nx_graph self') =
    (edges (nx_graph self) ++ spec_edges c u cd ++
     link_edges c (u + n) (getd (download_links cd) []))%list.
Proof.
  intros Hwf Hc u n self'. unfold self', _process_data_content, n.
  unfold spec_nodes, spec_edges.
  destruct (data_info cd) as [[[spec|]]|]; cbn [length app].
  - assert (K : kept c self
                  (derive c self
                          [("type", AStr "specifications"); ("data", spec)]
                          "has_specifications"))
      by (apply derive_kept; [assumption|assumption|];
          apply derived_node_shaped; discriminate).
    destruct (@link_fold_eq c (getd (download_links cd) []) _
                (proj1 K) (proj1 (proj2 K))) as (Hn & He & _).
    rewrite Hn, He. rewrite (@derive_eq c self _ "has_specifications" Hwf Hc).
    cbn [nx_graph nodes edges uuid_next]. rewrite <- !app_assoc.
    fold u. replace (u + 1) with (S u) by lia. split; reflexivity.
  - destruct (@link_fold_eq c (getd (download_links cd) []) self Hwf Hc)
      as (Hn & He & _).
    rewrite Hn, He. fold u. rewrite Nat.add_0_r. split; reflexivity.
  - destruct (@link_fold_eq c (getd (download_links cd) []) self Hwf Hc)
      as (Hn & He & _).
    rewrite Hn, He. fold u. rewrite Nat.add_0_r. split; reflexivity.
Qed.

Lemma process_api_eq (c : NodeId) (self : t) (cd : ContentData) :
  well_formed self ->
  mem NodeId_eqb (nodes (nx_graph self)) c = true ->
  let u := uuid_next self in
  let n := length (doc_nodes u cd) in
  let self' := _process_api_content self c cd in
  nodes (nx_graph self') =
    (nodes (nx_graph self) ++ doc_nodes u cd ++ code_nodes (u + n) cd)%list /\
  edges (nx_graph self') =
    (edges (nx_graph self) ++ doc_edges c u cd ++ code_edges c (u + n) cd)%list.
Proof.
  intros Hwf Hc u n self'. unfold self', _process_api_content, n.
  unfold doc_nodes, doc_edges, code_nodes, code_edges.
  fold (api_of cd).
  destruct (documentation (api_of cd)) as [doc|]; cbn [length app].
  - assert (K : kept c self
                  (derive c self
                          [("type", AStr "api_documentation"); ("text", AStr doc)]
                          "has_documentation"))
      by (apply derive_kept; [assumption|assumption|];
          apply derived_node_shaped; discriminate).
    destruct (code_examples (api_of cd)) as [code|].
    + rewrite (@derive_eq c _ _ "has_example" (proj1 K) (proj1 (proj2 K))).
      rewrite (@derive_eq c self _ "has_documentation" Hwf Hc).
      cbn [nx_graph nodes edges uuid_next]. rewrite <- !app_assoc.
      fold u. replace (u + 1) with (S u) by lia. split; reflexivity.
    + rewrite (@derive_eq c self _ "has_documentation" Hwf Hc).
      cbn [nx_graph nodes edges]. split; reflexivity.
  - destruct (code_examples (api_of cd)) as [code|].
    + rewrite (@derive_eq c self _ "has_example" Hwf Hc).
      cbn [nx_graph nodes edges]. fold u. rewrite Nat.add_0_r.
      split; reflexivity.
    + rewrite !app_nil_r. split; reflexivity.
Qed.

Lemma count_link_nodes (ty : string) (u : nat) (ls : list DownloadLink) :
  length (filter (fun nd => has_type ty (snd nd)) (link_nodes u ls)) =
  if "download_link" =? ty then length ls else 0.
Proof.
  revert u. induction ls as [|link ls IH]; intros u; cbn [link_nodes filter].
  - now destruct ("download_link" =? ty).
  - cbn [snd]. change (has_type ty (link_attrs link)) with ("download_link" =? ty).
    specialize (IH (S u)).
    destruct ("download_link" =? ty); cbn [length]; now rewrite IH.
Qed.

Lemma count_link_edges (ty : string) (c : NodeId) (u : nat)
  (ls : list DownloadLink) :
  length (filter (fun e => has_type ty (snd e)) (link_edges c u ls)) =
  if "has_download" =? ty then length ls else 0.
Proof.
  revert u. induction ls as [|link ls IH]; intros u; cbn [link_edges filter].
  - now destruct ("has_download" =? ty).
  - cbn [snd].
    change (has_type ty [("type", AStr "has_download")])
      with ("has_download" =? ty).
    specialize (IH (S u)).
    destruct ("has_download" =? ty); cbn [length]; now rewrite IH.
Qed.

Lemma count_spec_nodes (ty : string) (u : nat) (cd : ContentData) :
  length (filter (fun nd => has_type ty (snd nd)) (spec_nodes u cd)) =
  if "specifications" =? ty then length (spec_nodes u cd) else 0.
Proof.
  unfold spec_nodes. destruct (data_info cd) as [[[spec|]]|];
    cbn [filter snd length]; try now destruct ("specifications" =? ty).
  change (has_type ty [("type", AStr "specifications"); ("data", spec)])
    with ("specifications" =? ty).
  now destruct ("specifications" =? ty).
Qed.

Lemma count_spec_edges (ty : string) (c : NodeId) (u : nat) (cd : ContentData) :
  length (filter (fun e => has_type ty (snd e)) (spec_edges c u cd)) =
  if "has_specifications" =? ty then length (spec_nodes u cd) else 0.
Proof.
  unfold spec_edges, spec_nodes. destruct (data_info cd) as [[[spec|]]|];
    cbn [filter snd length]; try now destruct ("has_specifications" =? ty).
  change (has_type ty [("type", AStr "has_specifications")])
    with ("has_specifications" =? ty).
  now destruct ("has_specifications" =? ty).
Qed.

Lemma count_app_nodes (ty : string) (ns new : dict NodeId attrs) :
  length (filter (fun nd : NodeId * attrs => has_type ty (snd nd)) (ns ++ new)) =
  length (filter (fun nd : NodeId * attrs => has_type ty (snd nd)) ns) +
  length (filter (fun nd : NodeId * attrs => has_type ty (snd nd)) new).
Proof. now rewrite filter_app, length_app. Qed.

Lemma count_app_edges (ty : string) (es new : list (NodeId * NodeId * attrs)) :
  length (filter (fun e : NodeId * NodeId * attrs => has_type ty (snd e))
                 (es ++ new)) =
  length (filter (fun e : NodeId * NodeId * attrs => has_type ty (snd e)) es) +
  length (filter (fun e : NodeId * NodeId * attrs => has_type ty (snd e)) new).
Proof. now rewrite filter_app, length_app. Qed.

(** The state in which the page's own processing starts. *)
Lemma content_added_state (self : t) (neo : neo_outcome) (cd : ContentData) :
  well_formed self ->
  let c := content_key self (given_key self neo) in
  let s1 := content_added self cd (given_key self neo) in
  well_formed s1 /\
  mem NodeId_eqb (nodes (nx_graph s1)) c = true /\
  nodes (nx_graph s1) = nodes (add_node (nx_graph self) c (content_attrs cd)) /\
  edges (nx_graph s1) = edges (nx_graph self) /\
  (forall ty, ty <> "content" ->
              count_nodes ty (nx_graph s1) = count_nodes ty (nx_graph self)).
Proof.
  intros Hwf c s1.
  pose proof (given_key_neo_or_none self neo) as Hg.
  pose proof (@content_added_kept self cd _ Hwf Hg) as (K1 & K2 & _).
  split; [exact K1|]. split; [exact K2|].
  split; [apply content_added_nodes|]. split; [apply content_added_edges|].
  intros ty Hty. now apply count_content_added.
Qed.

(** X7.  Ingesting a page of content type [data] adds, besides the content
    node, one specifications node with its [has_specifications] edge exactly
    when the page's [data_info] has specifications, and one download-link node
    with its [has_download] edge per download link, every edge leaving the
    content node; questions and [contains] edges are not touched, whatever
    else the record holds. *)
Theorem data_ingestion_counts (self : t) (neo : neo_outcome) (cd : ContentData) :
  reachable self ->
  content_type cd = Some "data" ->
  let ls := getd (download_links cd) [] in
  let g := nx_graph self in
  let g' := nx_graph (snd (add_content self neo cd)) in
  let c := content_key self (given_key self neo) in
  exists u n,
    (n = 1 /\ (exists spec, data_info cd = Some {| specifications := Some spec |})
     \/ n = 0 /\ spec_nodes u cd = []) /\
    nodes g' = (nodes (add_node g c (content_attrs cd)) ++ spec_nodes u cd ++
                link_nodes (u + n) ls)%list /\
    edges g' = (edges g ++ spec_edges c u cd ++ link_edges c (u + n) ls)%list /\
    count_nodes "specifications" g' = count_nodes "specifications" g + n /\
    count_nodes "download_link" g' = count_nodes "download_link" g + length ls /\
    count_edges "has_specifications" g' =
      count_edges "has_specifications" g + n /\
    count_edges "has_download" g' = count_edges "has_download" g + length ls /\
    count_nodes "question" g' = count_nodes "question" g /\
    count_edges "contains" g' = count_edges "contains" g.
Proof.
  intros Hr Hct ls g g' c.
  pose proof (@reachable_well_formed self Hr) as Hwf.
  destruct (@content_added_state self neo cd Hwf) as (W1 & M1 & N1 & E1 & C1).
  fold c in M1, N1. fold g in N1, E1, C1.
  set (s1 := content_added self cd (given_key self neo)) in *.
  assert (Eg : g' = nx_graph (_process_data_content s1 c cd)).
  { unfold g'. rewrite add_content_eq, add_to_local_graph_eq. cbn [snd].
    rewrite Hct. reflexivity. }
  destruct (@process_data_eq c s1 cd W1 M1) as [Hn He].
  rewrite <- Eg, N1 in Hn. rewrite <- Eg, E1 in He. fold ls in Hn, He.
  set (u := uuid_next s1) in *.
  exists u, (length (spec_nodes u cd)).
  split.
  { unfold spec_nodes. destruct (data_info cd) as [[[spec|]]|].
    - left. split; [reflexivity|]. now exists spec.
    - right. split; reflexivity.
    - right. split; reflexivity. }
  split; [exact Hn|]. split; [exact He|].
  assert (CN : forall ty, ty <> "content" ->
             count_nodes ty g' =
             count_nodes ty g +
             (if "specifications" =? ty then length (spec_nodes u cd) else 0) +
             (if "download_link" =? ty then length ls else 0)).
  { intros ty Hty. unfold count_nodes at 1. rewrite Hn.
    rewrite !count_app_nodes, count_spec_nodes, count_link_nodes.
    rewrite <- N1. fold (count_nodes ty (nx_graph s1)). rewrite (C1 ty Hty).
    lia. }
  assert (CE : forall ty,
             count_edges ty g' =
             count_edges ty g +
             (if "has_specifications" =? ty then length (spec_nodes u cd) else 0) +
             (if "has_download" =? ty then length ls else 0)).
  { intros ty. unfold count_edges at 1. rewrite He.
    rewrite !count_app_edges, count_spec_edges, count_link_edges.
    fold (count_edges ty g). lia. }
  rewrite (CN "specifications"), (CN "download_link"), (CN "question")
    by discriminate.
  rewrite (CE "has_specifications"), (CE "has_download"), (CE "contains").
  cbn [String.eqb Ascii.eqb Bool.eqb]. repeat split; lia.
Qed.

Lemma data_ingestion_counts_witness :
  reachable (init false None) /\
  content_type data_page = Some "data" /\
  count_nodes "download_link"
    (nx_graph (snd (add_content (init false None)
                                (NeoFailed (OSError "no database")) data_page))) =
  count_nodes "download_link" (nx_graph (init false None)) +
  length (getd (download_links data_page) []).
Proof.
  split; [apply reach_init|]. split; [reflexivity|].
  destruct (@data_ingestion_counts (init false None)
              (NeoFailed (OSError "no database")) data_page
              (reach_init false None) eq_refl)
    as (u & n & _ & _ & _ & _ & Hl & _).
  exact Hl.
Defined.

Lemma count_doc_nodes (ty : string) (u : nat) (cd : ContentData) :
  length (filter (fun nd => has_type ty (snd nd)) (doc_nodes u cd)) =
  if "api_documentation" =? ty then length (doc_nodes u cd) else 0.
Proof.
  unfold doc_nodes. destruct (documentation (api_of cd)) as [doc|];
    cbn [filter snd length]; try now destruct ("api_documentation" =? ty).
  change (has_type ty [("type", AStr "api_documentation"); ("text", AStr doc)])
    with ("api_documentation" =? ty).
  now destruct ("api_documentation" =? ty).
Qed.

Lemma count_doc_edges (ty : string) (c : NodeId) (u : nat) (cd : ContentData) :
  length (filter (fun e => has_type ty (snd e)) (doc_edges c u cd)) =
  if "has_documentation" =? ty then length (doc_nodes u cd) else 0.
Proof.
  unfold doc_edges, doc_nodes. destruct (documentation (api_of cd)) as [doc|];
    cbn [filter snd length]; try now destruct ("has_documentation" =? ty).
  change (has_type ty [("type", AStr "has_documentation")])
    with ("has_documentation" =? ty).
  now destruct ("has_documentation" =? ty).
Qed.

Lemma count_code_nodes (ty : string) (u : nat) (cd : ContentData) :
  length (filter (fun nd => has_type ty (snd nd)) (code_nodes u cd)) =
  if "code_example" =? ty then length (code_nodes u cd) else 0.
Proof.
  unfold code_nodes. destruct (code_examples (api_of cd)) as [code|];
    cbn [filter snd length]; try now destruct ("code_example" =? ty).
  change (has_type ty [("type", AStr "code_example"); ("code", AStr code)])
    with ("code_example" =? ty).
  now destruct ("code_example" =? ty).
Qed.

Lemma count_code_edges (ty : string) (c : NodeId) (u : nat) (cd : ContentData) :
  length (filter (fun e => has_type ty (snd e)) (code_edges c u cd)) =
  if "has_example" =? ty then length (code_nodes u cd) else 0.
Proof.
  unfold code_edges, code_nodes. destruct (code_examples (api_of cd)) as [code|];
    cbn [filter snd length]; try now destruct ("has_example" =? ty).
  change (has_type ty [("type", AStr "has_example")])
    with ("has_example" =? ty).
  now destruct ("has_example" =? ty).
Qed.

(** X8.  Ingesting a page of content type [api] adds, besides the content
    node, one documentation node with its [has_documentation] edge exactly
    when [api_info] has a documentation, and one code-example node with its
    [has_example] edge exactly when it has code examples: at most two nodes
    and two edges, the edges leaving the content node. *)
Theorem api_ingestion_counts (self : t) (neo : neo_outcome) (cd : ContentData) :
  reachable self ->
  content_type cd = Some "api" ->
  let g := nx_graph self in
  let g' := nx_graph (snd (add_content self neo cd)) in
  let c := content_key self (given_key self neo) in
  let n_doc := match documentation (api_of cd) with Some _ => 1 | None => 0 end in
  let n_code := match code_examples (api_of cd) with Some _ => 1 | None => 0 end in
  exists u,
    nodes g' = (nodes (add_node g c (content_attrs cd)) ++ doc_nodes u cd ++
                code_nodes (u + n_doc) cd)%list /\
    edges g' = (edges g ++ doc_edges c u cd ++ code_edges c (u + n_doc) cd)%list /\
    count_nodes "api_documentation" g' = count_nodes "api_documentation" g + n_doc /\
    count_nodes "code_example" g' = count_nodes "code_example" g + n_code /\
    count_edges "has_documentation" g' =
      count_edges "has_documentation" g + n_doc /\
    count_edges "has_example" g' = count_edges "has_example" g + n_code /\
    length (edges g') = length (edges g) + n_doc + n_code.
Proof.
  intros Hr Hct g g' c n_doc n_code.
  pose proof (@reachable_well_formed self Hr) as Hwf.
  destruct (@content_added_state self neo cd Hwf) as (W1 & M1 & N1 & E1 & C1).
  fold c in M1, N1. fold g in N1, E1, C1.
  set (s1 := content_added self cd (given_key self neo)) in *.
  assert (Eg : g' = nx_graph (_process_api_content s1 c cd)).
  { unfold g'. rewrite add_content_eq, add_to_local_graph_eq. cbn [snd].
    rewrite Hct. reflexivity. }
  destruct (@process_api_eq c s1 cd W1 M1) as [Hn He].
  rewrite <- Eg, N1 in Hn. rewrite <- Eg, E1 in He.
  set (u := uuid_next s1) in *.
  assert (Ld : forall v, length (doc_nodes v cd) = n_doc).
  { intros v. unfold doc_nodes, n_doc.
    now destruct (documentation (api_of cd)). }
  assert (Lc : forall v, length (code_nodes v cd) = n_code).
  { intros v. unfold code_nodes, n_code.
    now destruct (code_examples (api_of cd)). }
  assert (Lde : length (doc_edges c u cd) = n_doc).
  { unfold doc_edges, n_doc. now destruct (documentation (api_of cd)). }
  assert (Lce : forall v, length (code_edges c v cd) = n_code).
  { intros v. unfold code_edges, n_code.
    now destruct (code_examples (api_of cd)). }
  rewrite (Ld u) in Hn, He.
  exists u. split; [exact Hn|]. split; [exact He|].
  assert (CN : forall ty, ty <> "content" ->
             count_nodes ty g' =
             count_nodes ty g +
             (if "api_documentation" =? ty then n_doc else 0) +
             (if "code_example" =? ty then n_code else 0)).
  { intros ty Hty. unfold count_nodes at 1. rewrite Hn.
    rewrite !count_app_nodes, count_doc_nodes, count_code_nodes, Ld, Lc.
    rewrite <- N1. fold (count_nodes ty (nx_graph s1)). rewrite (C1 ty Hty).
    lia. }
  assert (CE : forall ty,
             count_edges ty g' =
             count_edges ty g +
             (if "has_documentation" =? ty then n_doc else 0) +
             (if "has_example" =? ty then n_code else 0)).
  { intros ty. unfold count_edges at 1. rewrite He.
    rewrite !count_app_edges, count_doc_edges, count_code_edges, Ld, Lc.
    fold (count_edges ty g). lia. }
  rewrite (CN "api_documentation"), (CN "code_example") by discriminate.
  rewrite (CE "has_documentation"), (CE "has_example").
  cbn [String.eqb Ascii.eqb Bool.eqb].
  repeat split; try lia.
  rewrite He, !length_app, Lde, Lce. lia.
Qed.

Lemma api_ingestion_counts_witness :
  reachable (init false None) /\
  content_type api_page = Some "api" /\
  exists u,
    edges (nx_graph (snd (add_content (init false None)
                                      (NeoFailed (OSError "no database"))
                                      api_page))) =
    (edges (nx_graph (init false None)) ++
     doc_edges (content_key (init false None)
                  (given_key (init false None)
                             (NeoFailed (OSError "no database")))) u api_page ++
     code_edges (content_key (init false None)
                   (given_key (init false None)
                              (NeoFailed (OSError "no database"))))
                (u + 1) api_page)%list.
Proof.
  split; [apply reach_init|]. split; [reflexivity|].
  destruct (@api_ingestion_counts (init false None)
              (NeoFailed (OSError "no database")) api_page
              (reach_init false None) eq_refl)
    as (u & _ & He & _).
  exists u. exact He.
Defined.

(** X9.  Ingesting a page whose content type is missing or is none of
    [faq], [data] and [api] adds or updates the content node and nothing
    else: no edge, and no node of another kind, whatever questions, links or
    API description the record holds. *)
Theorem plain_page_ingestion (self : t) (neo : neo_outcome) (cd : ContentData) :
  reachable self ->
  (forall ct, content_type cd = Some ct ->
              ct <> "faq" /\ ct <> "data" /\ ct <> "api") ->
  let g := nx_graph self in
  let g' := nx_graph (snd (add_content self neo cd)) in
  let c := content_key self (given_key self neo) in
  nodes g' = nodes (add_node g c (content_attrs cd)) /\
  edges g' = edges g /\
  length (nodes g') <= S (length (nodes g)) /\
  (forall ty, ty <> "content" -> count_nodes ty g' = count_nodes ty g).
Proof.
  intros Hr Hct g g' c.
  pose proof (@reachable_well_formed self Hr) as Hwf.
  destruct (@content_added_state self neo cd Hwf) as (W1 & M1 & N1 & E1 & C1).
  fold c in M1, N1. fold g in N1, E1, C1.
  set (s1 := content_added self cd (given_key self neo)) in *.
  assert (Eg : g' = nx_graph s1).
  { unfold g'. rewrite add_content_eq, add_to_local_graph_eq. cbn [snd].
    fold s1. destruct (content_type cd) as [ct|]; [|reflexivity].
    destruct (Hct ct eq_refl) as (H1 & H2 & H3).
    apply String.eqb_neq in H1, H2, H3. now rewrite H1, H2, H3. }
  rewrite Eg. split; [exact N1|]. split; [exact E1|]. split; [|exact C1].
  rewrite N1. unfold add_node. cbn [nodes].
  destruct (get NodeId_eqb (nodes g) c) as [old|] eqn:G.
  - assert (L : length (keys (setitem NodeId_eqb (nodes g) c
                                (update String.eqb old (content_attrs cd)))) =
                length (keys (nodes g)))
      by (now rewrite (keys_setitem_present _ _ _ _ G)).
    unfold keys in L. rewrite !length_map in L. lia.
  - rewrite (setitem_fresh _ _ _ _ G), length_app. cbn [length]. lia.
Qed.

Lemma plain_page_ingestion_witness :
  reachable (init false None) /\
  (forall ct, content_type ocean_page = Some ct ->
              ct <> "faq" /\ ct <> "data" /\ ct <> "api") /\
  edges (nx_graph (snd (add_content (init false None)
                                    (NeoFailed (OSError "no database"))
                                    ocean_page))) =
  edges (nx_graph (init false None)).
Proof.
  assert (H : forall ct, content_type ocean_page = Some ct ->
                         ct <> "faq" /\ ct <> "data" /\ ct <> "api").
  { intros ct [= <-]. repeat split; discriminate. }
  split; [apply reach_init|]. split; [exact H|].
  destruct (@plain_page_ingestion (init false None)
              (NeoFailed (OSError "no database")) ocean_page
              (reach_init false None) H) as (_ & He & _).
  exact He.
Defined.

(** ** What [add_content] keeps *)

Lemma faq_nodes_forms (self : t) (u : nat) (fs : list Faq) :
  Forall (fun nd => node_form (snd nd)) (faq_nodes self u fs).
Proof.
  revert u. induction fs as [|faq fs IH]; intros u; cbn [faq_nodes].
  - constructor.
  - constructor; [apply form_question|].
    constructor; [apply form_answer|apply IH].
Qed.

Lemma link_nodes_forms (u : nat) (ls : list DownloadLink) :
  Forall (fun nd => node_form (snd nd)) (link_nodes u ls).
Proof.
  revert u. induction ls as [|link ls IH]; intros u; cbn [link_nodes].
  - constructor.
  - constructor; [apply form_download_link|apply IH].
Qed.

Lemma spec_nodes_forms (u : nat) (cd : ContentData) :
  Forall (fun nd => node_form (snd nd)) (spec_nodes u cd).
Proof.
  unfold spec_nodes. destruct (data_info cd) as [[[spec|]]|]; constructor.
  - apply form_specifications.
  - constructor.
Qed.

Lemma doc_nodes_forms (u : nat) (cd : ContentData) :
  Forall (fun nd => node_form (snd nd)) (doc_nodes u cd).
Proof.
  unfold doc_nodes. destruct (documentation (api_of cd)); constructor.
  - apply form_api_documentation.
  - constructor.
Qed.

Lemma code_nodes_forms (u : nat) (cd : ContentData) :
  Forall (fun nd => node_form (snd nd)) (code_nodes u cd).
Proof.
  unfold code_nodes. destruct (code_examples (api_of cd)); constructor.
  - apply form_code_example.
  - constructor.
Qed.

Lemma local_graph_appends (self : t) (neo : neo_outcome) (cd : ContentData) :
  well_formed self ->
  let g := nx_graph self in
  let self' := snd (add_content self neo cd) in
  let c := content_key self (given_key self neo) in
  well_formed self' /\
  embedding_model self' = embedding_model self /\
  uuid_next self <= uuid_next self' /\
  exists new enew,
    nodes (nx_graph self') =
      (nodes (add_node g c (content_attrs cd)) ++ new)%list /\
    edges (nx_graph self') = (edges g ++ enew)%list /\
    Forall (fun nd => node_form (snd nd)) new.
Proof.
  intros Hwf g self' c.
  pose proof (given_key_neo_or_none self neo) as Hg.
  pose proof (@content_added_kept self cd _ Hwf Hg) as K0. fold c in K0.
  destruct (@content_added_state self neo cd Hwf) as (W1 & M1 & N1 & E1 & _).
  fold c in M1, N1. fold g in N1, E1.
  set (s1 := content_added self cd (given_key self neo)) in *.
  assert (Es : self' =
               match content_type cd with
               | Some ct =>
                   if ct =? "faq" then _process_faq_content s1 c cd
                   else if ct =? "data" then _process_data_content s1 c cd
                   else if ct =? "api" then _process_api_content s1 c cd
                   else s1
               | None => s1
               end).
  { unfold self'. rewrite add_content_eq, add_to_local_graph_eq. reflexivity. }
  assert (Same : well_formed s1 /\ embedding_model s1 = embedding_model self /\
                 uuid_next self <= uuid_next s1 /\
                 exists new enew,
                   nodes (nx_graph s1) =
                     (nodes (add_node g c (content_attrs cd)) ++ new)%list /\
                   edges (nx_graph s1) = (edges g ++ enew)%list /\
                   Forall (fun nd => node_form (snd nd)) new).
  { split; [exact W1|]. split; [apply K0|]. split; [apply K0|].
    exists [], []. rewrite !app_nil_r. repeat split; auto. }
  assert (Step : forall s2, kept c s1 s2 ->
             (exists new enew,
                 nodes (nx_graph s2) = (nodes (nx_graph s1) ++ new)%list /\
                 edges (nx_graph s2) = (edges (nx_graph s1) ++ enew)%list /\
                 Forall (fun nd => node_form (snd nd)) new) ->
             well_formed s2 /\ embedding_model s2 = embedding_model self /\
             uuid_next self <= uuid_next s2 /\
             exists new enew,
               nodes (nx_graph s2) =
                 (nodes (add_node g c (content_attrs cd)) ++ new)%list /\
               edges (nx_graph s2) = (edges g ++ enew)%list /\
               Forall (fun nd => node_form (snd nd)) new).
  { intros s2 K (new & enew & Hn & He & Hf).
    pose proof (kept_trans K0 K) as (W & _ & Em & _ & Hu).
    split; [exact W|]. split; [exact Em|]. split; [exact Hu|].
    exists new, enew. rewrite Hn, He, N1, E1. repeat split; auto. }
  rewrite Es. destruct (content_type cd) as [ct|]; [|exact Same].
  destruct (ct =? "faq").
  { apply Step; [now apply process_faq_kept|].
    destruct (@faq_fold_eq c (getd (faqs cd) []) s1 W1 M1) as (Hn & He & _).
    eexists. eexists. split; [exact Hn|]. split; [exact He|].
    apply faq_nodes_forms. }
  destruct (ct =? "data").
  { apply Step; [now apply process_data_kept|].
    destruct (@process_data_eq c s1 cd W1 M1) as (Hn & He).
    eexists. eexists. split; [exact Hn|]. split; [exact He|].
    apply Forall_app. split; [apply spec_nodes_forms|apply link_nodes_forms]. }
  destruct (ct =? "api").
  { apply Step; [now apply process_api_kept|].
    destruct (@process_api_eq c s1 cd W1 M1) as (Hn & He).
    eexists. eexists. split; [exact Hn|]. split; [exact He|].
    apply Forall_app. split; [apply doc_nodes_forms|apply code_nodes_forms]. }
  exact Same.
Qed.

Lemma content_node_stored (g : MultiDiGraph) (c : NodeId) (cd : ContentData)
  (new : dict NodeId attrs) :
  exists d,
    get NodeId_eqb (nodes (add_node g c (content_attrs cd)) ++ new)%list c
      = Some d /\
    get String.eqb d "type" = Some (AStr "content") /\
    get String.eqb d "url" = Some (AStr (getd (url cd) "")) /\
    get String.eqb d "content_type" =
      Some (AStr (getd (content_type cd) "unknown")) /\
    get String.eqb d "title" =
      Some (AStr (getd (get String.eqb (getd (metadata cd) []) "title") "")) /\
    get String.eqb d "text_content" = Some (AStr (getd (text_content cd) "")).
Proof.
  unfold add_node. cbn [nodes].
  eexists. split.
  - rewrite get_app, (get_setitem_same _ NodeId_eqb_eq). reflexivity.
  - repeat split; rewrite (get_update _ string_eqb_eq); reflexivity.
Qed.

(** X10.  In every state a manager reaches, [add_content] removes nothing
    from the local graph: the node keys and the edges of before are a prefix
    of those of after, the attributes of every node other than the page's own
    are unchanged, and the page's node holds the type [content] and the url,
    content type, title and text of the record, with the defaults of the code
    for missing fields; no UUID already drawn is drawn again. *)
Theorem add_content_keeps (self : t) (neo : neo_outcome) (cd : ContentData) :
  reachable self ->
  let g := nx_graph self in
  let self' := snd (add_content self neo cd) in
  let g' := nx_graph self' in
  let c := content_key self (given_key self neo) in
  (exists ks, keys (nodes g') = (keys (nodes g) ++ ks)%list) /\
  (exists es, edges g' = (edges g ++ es)%list) /\
  (forall id d, id <> c -> get NodeId_eqb (nodes g) id = Some d ->
                get NodeId_eqb (nodes g') id = Some d) /\
  (exists d,
     get NodeId_eqb (nodes g') c = Some d /\
     get String.eqb d "type" = Some (AStr "content") /\
     get String.eqb d "url" = Some (AStr (getd (url cd) "")) /\
     get String.eqb d "content_type" =
       Some (AStr (getd (content_type cd) "unknown")) /\
     get String.eqb d "title" =
       Some (AStr (getd (get String.eqb (getd (metadata cd) []) "title") "")) /\
     get String.eqb d "text_content" = Some (AStr (getd (text_content cd) ""))) /\
  uuid_next self <= uuid_next self'.
Proof.
  intros Hr g self' g' c.
  pose proof (@reachable_well_formed self Hr) as Hwf.
  destruct (@local_graph_appends self neo cd Hwf)
    as (_ & _ & Hu & new & enew & Hn & He & _).
  fold g c self' in Hn, He, Hu. fold g' in Hn, He.
  split; [|split; [|split; [|split]]].
  - unfold keys. rewrite Hn, map_app. unfold add_node. cbn [nodes].
    destruct (get NodeId_eqb (nodes g) c) as [old|] eqn:G.
    + pose proof (keys_setitem_present _ _ _
                    (update String.eqb old (content_attrs cd)) G) as L.
      unfold keys in L. exists (map fst new). f_equal. exact L.
    + cbv beta iota zeta.
      rewrite (setitem_fresh _ _ _ _ G), map_app, <- app_assoc.
      eexists. reflexivity.
  - exists enew. exact He.
  - intros id d Hid G. rewrite Hn, get_app. unfold add_node. cbn [nodes].
    rewrite (get_setitem_other _ NodeId_eqb_eq) by exact Hid.
    now rewrite G.
  - rewrite Hn. apply content_node_stored.
  - exact Hu.
Qed.

Lemma add_content_keeps_witness :
  reachable two_pages /\
  exists es,
    edges (nx_graph (snd (add_content two_pages (NeoCreated 7) faq_page))) =
    (edges (nx_graph two_pages) ++ es)%list.
Proof.
  split; [exact two_pages_reachable|].
  destruct (@add_content_keeps two_pages (NeoCreated 7) faq_page
              two_pages_reachable) as (_ & He & _).
  exact He.
Defined.

(** X11.  After [clear_graph] the local graph has neither nodes nor edges:
    the statistics are the empty dictionary, every search, semantic or
    lexical, returns the empty list, and no key has related content; the
    encoder is kept. *)
Theorem clear_graph_empties (self : t) :
  let s := clear_graph self in
  nodes (nx_graph s) = [] /\
  edges (nx_graph s) = [] /\
  get_graph_stats s = Ok None /\
  (forall query limit, _text_search s query limit = Ok []) /\
  (forall query limit, search_content s query limit = Ok []) /\
  (forall id relationship_type,
     get_related_content s id relationship_type = []) /\
  embedding_model s = embedding_model self.
Proof.
  intros s.
  assert (T : forall query limit, _text_search s query limit = Ok []).
  { intros query limit.
    unfold _text_search, s, clear_graph, with_graph, empty_graph.
    cbn [nx_graph nodes text_hits bind sort_desc fold_right].
    now rewrite slice_to_nil. }
  repeat split; try reflexivity; try exact T.
  intros query limit. unfold search_content.
  change (embedding_model s) with (embedding_model self).
  destruct (embedding_model self) as [model|]; [|apply T].
  destruct (model query) as [qe|e]; cbn [bind try_except].
  - unfold s, clear_graph, with_graph, empty_graph, embedding_hits.
    cbn [nx_graph nodes flat_map sort_desc fold_right].
    now rewrite slice_to_nil.
  - apply T.
Qed.

(** ** Lexical search over ingested pages *)

Lemma slice_to_all {A : Type} (xs : list A) (limit : Z) :
  (Z.of_nat (length xs) <= limit)%Z -> slice_to xs limit = xs.
Proof.
  intros H. unfold slice_to.
  destruct (Z.ltb_spec limit 0); [lia|].
  apply firstn_all2. lia.
Qed.

Lemma contains_empty (s : string) : contains "" s = true.
Proof. destruct s; reflexivity. Qed.

Lemma sort_desc_const {A : Type} (key : A -> R) (l : list A) (r : R) :
  (forall x, In x l -> key x = r) -> sort_desc key l = l.
Proof.
  induction l as [|x l IH]; intros H; [reflexivity|].
  cbn [sort_desc fold_right]. fold (sort_desc key l).
  rewrite IH by (intros y Hy; apply H; now right).
  destruct l as [|y l']; [reflexivity|]. cbn [insert_desc].
  destruct (Rlt_dec (key x) (key y)) as [Hlt|]; [|reflexivity].
  rewrite (H x), (H y) in Hlt by (cbn; tauto). lra.
Qed.

Lemma title_points (d : attrs) (query title : string) :
  get String.eqb d "title" = Some (AStr title) ->
  contains (lower query) (lower title) = true ->
  2 <= lexical_points d query <= 3.
Proof.
  intros G C.
  assert (T : in_field_lowered d "title" query = true)
    by (unfold in_field_lowered; rewrite G; exact C).
  unfold lexical_points. rewrite T.
  destruct (in_field_lowered d "text_content" query); cbn; lia.
Qed.

(** X12.  A page that has just been ingested is found by lexical search
    under its own title: in a manager without encoder, for every query whose
    lower-cased text occurs in the lower-cased title of the record, and every
    limit that does not cut the result list, search returns the page's
    content node with a similarity of at least 2/3. *)
Theorem ingested_page_found (self : t) (neo : neo_outcome) (cd : ContentData)
  (query : string) (limit : Z) :
  reachable self ->
  embedding_model self = None ->
  let title := getd (get String.eqb (getd (metadata cd) []) "title") "" in
  let self' := snd (add_content self neo cd) in
  let c := content_key self (given_key self neo) in
  contains (lower query) (lower title) = true ->
  (Z.of_nat (length (nodes (nx_graph self'))) <= limit)%Z ->
  exists hits h,
    search_content self' query limit = Ok hits /\
    In h hits /\
    node_id h = c /\
    (2 / 3 <= similarity h)%R /\
    has_type "content" (data h) = true.
Proof.
  intros Hr Hm title self' c Hc Hl.
  pose proof (@reachable_well_formed self Hr) as Hwf.
  destruct (@local_graph_appends self neo cd Hwf)
    as (W' & Em & _ & new & enew & Hn & _).
  fold self' c in W', Em, Hn.
  destruct (content_node_stored (nx_graph self) c cd new)
    as (d & Gd & Gty & _ & _ & Gt & _).
  rewrite <- Hn in Gd. fold title in Gt.
  pose proof (get_Some_In _ NodeId_eqb_eq _ _ Gd) as Hin.
  pose proof (title_points d query Gt Hc) as Hp.
  set (cands := map (lexical_hit query)
                    (filter (fun nd => Nat.ltb 0 (lexical_points (snd nd) query))
                            (nodes (nx_graph self')))).
  assert (Es : search_content self' query limit =
               Ok (sort_desc similarity cands)).
  { rewrite search_content_without_model by (rewrite Em; exact Hm).
    rewrite text_search_eq by (now apply well_formed_text_fields).
    fold cands. rewrite slice_to_all; [reflexivity|].
    rewrite sort_desc_length. unfold cands. rewrite length_map.
    pose proof (filter_length_le
                  (fun nd : NodeId * attrs =>
                     Nat.ltb 0 (lexical_points (snd nd) query))
                  (nodes (nx_graph self'))) as L.
    lia. }
  exists (sort_desc similarity cands), (lexical_hit query (c, d)).
  split; [exact Es|]. split; [|split; [reflexivity|split]].
  - apply (proj2 (@sort_desc_In _ similarity _ _)).
    unfold cands. apply in_map. apply filter_In. split; [exact Hin|].
    cbn [snd]. apply Nat.ltb_lt. lia.
  - cbn [lexical_hit similarity snd].
    assert (E : lexical_points d query = 2 \/ lexical_points d query = 3) by lia.
    destruct E as [-> | ->]; cbn [INR]; lra.
  - cbn [lexical_hit data snd]. unfold has_type. now rewrite Gty.
Qed.

Lemma ingested_page_found_witness :
  reachable two_pages /\
  embedding_model two_pages = None /\
  contains (lower "Frequently")
           (lower (getd (get String.eqb (getd (metadata faq_page) []) "title") ""))
    = true /\
  (Z.of_nat (length (nodes (nx_graph
      (snd (add_content two_pages (NeoCreated 7) faq_page))))) <= 10)%Z /\
  exists hits h,
    search_content (snd (add_content two_pages (NeoCreated 7) faq_page))
                   "Frequently" 10 = Ok hits /\
    In h hits /\
    (2 / 3 <= similarity h)%R.
Proof.
  assert (Hl : (Z.of_nat (length (nodes (nx_graph
      (snd (add_content two_pages (NeoCreated 7) faq_page))))) <= 10)%Z)
    by (vm_compute; discriminate).
  split; [exact two_pages_reachable|]. split; [reflexivity|].
  split; [reflexivity|]. split; [exact Hl|].
  destruct (@ingested_page_found two_pages (NeoCreated 7) faq_page
              "Frequently" 10 two_pages_reachable eq_refl eq_refl Hl)
    as (hits & h & Hs & Hin & _ & Hsim & _).
  exists hits, h. repeat split; assumption.
Defined.

Lemma shaped_empty_query (d : attrs) :
  content_shaped d \/ derived_shaped d ->
  Nat.ltb 0 (lexical_points d "") = has_type "content" d /\
  (has_type "content" d = true -> lexical_points d "" = 3).
Proof.
  intros [(Ht & _ & [st Gt] & [sx Gx])|(Gt & Gx & Ht & _)];
    unfold lexical_points, in_field_lowered; rewrite Gt, Gx, Ht.
  - cbn [lower]. rewrite !contains_empty. split; reflexivity.
  - split; [reflexivity|discriminate].
Qed.

(** X13.  In every state a manager reaches, lexical search with the empty
    query lists the content nodes and nothing else, in the order in which
    they were inserted, each with similarity 1, cut by the limit: the empty
    string occurs in every title and every text. *)
Theorem empty_query_lists_pages (self : t) (limit : Z) :
  reachable self ->
  let pages := filter (fun nd : NodeId * attrs => has_type "content" (snd nd))
                      (nodes (nx_graph self)) in
  _text_search self "" limit = Ok (slice_to (map (lexical_hit "") pages) limit) /\
  (forall nd, In nd pages -> similarity (lexical_hit "" nd) = 1%R) /\
  map node_id (map (lexical_hit "") pages) = keys pages.
Proof.
  intros Hr pages.
  pose proof (@reachable_well_formed self Hr) as Hwf.
  assert (Hshape : forall nd, In nd (nodes (nx_graph self)) ->
                     content_shaped (snd nd) \/ derived_shaped (snd nd)).
  { intros [id d] Hin. exact (@well_formed_shape self id d Hwf Hin). }
  assert (Ef : filter (fun nd : NodeId * attrs =>
                         Nat.ltb 0 (lexical_points (snd nd) ""))
                      (nodes (nx_graph self)) = pages).
  { unfold pages. apply filter_ext_in. intros nd Hin.
    apply shaped_empty_query. now apply Hshape. }
  assert (Sim : forall nd, In nd pages -> similarity (lexical_hit "" nd) = 1%R).
  { intros nd Hin. unfold pages in Hin. apply filter_In in Hin.
    destruct Hin as [Hin Ht]. cbn [lexical_hit similarity].
    rewrite (proj2 (shaped_empty_query (Hshape nd Hin)) Ht).
    cbn [INR]. lra. }
  split; [|split; [exact Sim|]].
  - rewrite text_search_eq by (now apply well_formed_text_fields).
    rewrite Ef. rewrite (@sort_desc_const _ similarity _ 1%R); [reflexivity|].
    intros h Hh. apply in_map_iff in Hh. destruct Hh as (nd & <- & Hnd).
    now apply Sim.
  - rewrite map_map. reflexivity.
Qed.

Lemma empty_query_lists_pages_witness :
  reachable three_kinds /\
  exists hits,
    _text_search three_kinds "" 10 = Ok hits /\ length hits = 3.
Proof.
  split; [exact three_kinds_reachable|].
  destruct (@empty_query_lists_pages three_kinds 10 three_kinds_reachable)
    as (Hs & _).
  eexists. split; [exact Hs|]. vm_compute. reflexivity.
Defined.

End GraphStoreFacts.

(* ================================================================== *)
(** * Suggestions, query enhancement and confidence *)
(* ================================================================== *)

Module QueryHelpFacts.
Import Py QueryProcessor PyFacts QueryProcessorFacts.
Local Open Scope string_scope.

(** ** The table of suggestions is filled in table order *)

Lemma listed_In (l : list string) (x : string) : listed l x = true <-> In x l.
Proof.
  unfold listed. rewrite existsb_exists. split.
  - intros (y & Hy & E). apply String.eqb_eq in E. now subst.
  - intros H. exists x. split; [exact H|apply String.eqb_refl].
Qed.

Lemma listed_app (l1 l2 : list string) (x : string) :
  listed (l1 ++ l2) x = listed l1 x || listed l2 x.
Proof. unfold listed. apply existsb_app. Qed.

(** In a table without repetition, the first entry that is neither selected
    nor among the first [k] entries left out is the next entry left out. *)
Lemma find_missing (p : string -> bool) (table : list string) :
  NoDup table ->
  forall (seen : list string) (k : nat),
    (forall x, In x table -> p x = true -> In x seen) ->
    (forall x, In x table -> p x = false -> ~ In x seen) ->
    find (fun x => negb (listed (seen ++ firstn k (filter (fun y => negb (p y)) table)) x))
         table
    = nth_error (filter (fun y => negb (p y)) table) k.
Proof.
  induction 1 as [|a table Ha ND IH]; intros seen k Hin Hout.
  - cbn [filter find]. now destruct k.
  - cbn [filter find]. destruct (p a) eqn:Pa; cbn [negb].
    + rewrite listed_app.
      rewrite (proj2 (listed_In seen a)) by (apply Hin; [now left|exact Pa]).
      cbn [orb negb]. apply IH.
      * intros x Hx. apply Hin. now right.
      * intros x Hx. apply Hout. now right.
    + destruct k as [|k]; cbn [firstn nth_error].
      * rewrite app_nil_r.
        destruct (listed seen a) eqn:L; [|reflexivity].
        apply listed_In in L. exfalso.
        exact (Hout a (or_introl eq_refl) Pa L).
      * rewrite listed_app. cbn [listed existsb].
        rewrite String.eqb_refl. rewrite orb_true_r. cbn [negb orb].
        specialize (IH (seen ++ [a])%list k).
        rewrite <- app_assoc in IH. cbn [app] in IH. apply IH.
        -- intros x Hx Px. apply in_or_app. left. apply Hin; [now right|exact Px].
        -- intros x Hx Px Hs. apply in_app_or in Hs.
           destruct Hs as [Hs|[->|[]]].
           ++ exact (Hout x (or_intror Hx) Px Hs).
           ++ contradiction.
Qed.

Lemma firstn_snoc {A : Type} (l : list A) (k : nat) (x : A) :
  nth_error l k = Some x -> (firstn k l ++ [x])%list = firstn (S k) l.
Proof.
  revert k. induction l as [|a l IH]; intros k H.
  - now destruct k.
  - destruct k as [|k]; cbn [nth_error] in H.
    + now injection H as ->.
    + cbn [firstn app]. f_equal. now apply IH.
Qed.

Lemma common_queries_NoDup : NoDup common_queries.
Proof.
  unfold common_queries.
  repeat (constructor; [cbn [In]; intuition discriminate|]). constructor.
Qed.

Lemma filter_partition_length {A : Type} (p : A -> bool) (l : list A) :
  length (filter p l) + length (filter (fun y => negb (p y)) l) = length l.
Proof.
  induction l as [|x l IH]; cbn [filter]; [reflexivity|].
  destruct (p x); cbn [negb length]; lia.
Qed.

Section Suggestions.
Variable query : string.

Let matched : list string :=
  filter (suggestion_matches (lower query)) common_queries.
Let others : list string :=
  filter (fun s => negb (suggestion_matches (lower query) s)) common_queries.

Lemma matched_others_length : length matched + length others = 8.
Proof.
  unfold matched, others. rewrite filter_partition_length. reflexivity.
Qed.

Lemma add_first_missing_next (k : nat) :
  k < length others ->
  add_first_missing (matched ++ firstn k others) =
  (matched ++ firstn (S k) others)%list.
Proof.
  intros Hk. unfold add_first_missing.
  pose proof (@find_missing (suggestion_matches (lower query)) common_queries
                common_queries_NoDup matched k) as F.
  fold others in F. rewrite F.
  - destruct (nth_error others k) as [x|] eqn:E.
    + rewrite <- app_assoc. f_equal. now apply firstn_snoc.
    + apply nth_error_None in E. lia.
  - intros x Hx Px. unfold matched. apply filter_In. now split.
  - intros x Hx Px Hm. unfold matched in Hm. apply filter_In in Hm.
    destruct Hm as [_ Hm]. congruence.
Qed.

(** The loop ends, with the selected entries followed by as many of the
    others as the limit asks for. *)
Lemma fill_suggestions_from (fuel : nat) (limit : Z) (k : nat) :
  k <= length others ->
  length others - k <= fuel ->
  fill_suggestions fuel limit (matched ++ firstn k others) =
  Some (matched ++
        firstn (Nat.max k (Z.to_nat (limit - Z.of_nat (length matched)))) others)%list.
Proof.
  pose proof matched_others_length as L8.
  revert k. induction fuel as [|fuel IH]; intros k Hk Hf.
  - assert (k = length others) by lia. subst k.
    cbn [fill_suggestions].
    rewrite length_app, firstn_all.
    replace (length matched + length others <? length common_queries)%nat
      with false by (symmetry; apply Nat.ltb_ge; cbn [common_queries length]; lia).
    rewrite andb_false_r.
    rewrite firstn_all2 by lia. reflexivity.
  - cbn [fill_suggestions].
    rewrite length_app, length_firstn, Nat.min_l by exact Hk.
    destruct (Z.ltb_spec (Z.of_nat (length matched + k)) limit) as [Hl|Hl];
      cbn [andb].
    + destruct (Nat.ltb_spec (length matched + k) (length common_queries))
        as [Hc|Hc].
      * assert (Hk' : k < length others)
          by (cbn [common_queries length] in Hc; lia).
        rewrite (add_first_missing_next Hk'). rewrite IH by lia.
        do 2 f_equal.
        destruct (Nat.le_gt_cases (length others)
                    (Z.to_nat (limit - Z.of_nat (length matched)))) as [Hbig|Hsm].
        -- rewrite !firstn_all2 by lia. reflexivity.
        -- f_equal. lia.
      * assert (k = length others)
          by (cbn [common_queries length] in Hc; lia). subst k.
        rewrite firstn_all, firstn_all2 by lia. reflexivity.
    + do 2 f_equal. f_equal. lia.
Qed.

Lemma fill_suggestions_result (fuel : nat) (limit : Z) :
  8 <= fuel ->
  fill_suggestions fuel limit matched =
  Some (matched ++
        firstn (Z.to_nat (limit - Z.of_nat (length matched))) others)%list.
Proof.
  intros Hf. pose proof matched_others_length as L8.
  pose proof (@fill_suggestions_from fuel limit 0) as F.
  cbn [firstn] in F. rewrite app_nil_r in F. rewrite F by lia.
  reflexivity.
Qed.

End Suggestions.

Lemma firstn_In {A : Type} (n : nat) (l : list A) (x : A) :
  In x (firstn n l) -> In x l.
Proof.
  intros H. rewrite <- (firstn_skipn n l). apply in_or_app. now left.
Qed.

Lemma firstn_NoDup {A : Type} (n : nat) (l : list A) :
  NoDup l -> NoDup (firstn n l).
Proof.
  intros H. rewrite <- (firstn_skipn n l) in H.
  exact (NoDup_app_remove_r _ _ H).
Qed.

Lemma query_suggestions_shape (fuel : nat) (query : string) :
  8 <= fuel ->
  exists l, get_query_suggestions fuel query 5 = Some l /\ length l = 5.
Proof.
  intros Hf. pose proof (matched_others_length query) as L8.
  unfold get_query_suggestions.
  rewrite (fill_suggestions_result query 5 Hf).
  eexists. split; [reflexivity|].
  unfold slice_to. cbn [Z.ltb Z.compare Z.to_nat Pos.to_nat Pos.iter_op].
  rewrite length_firstn, length_app, length_firstn.
  change (Pos.to_nat 5) with 5. lia.
Qed.



(** ** Query enhancement *)

Lemma append_empty_r (s : string) : s ++ "" = s.
Proof. induction s as [|c s IH]; cbn [append]; [reflexivity|now rewrite IH]. Qed.

Lemma lower_app (a b : string) : lower (a ++ b) = lower a ++ lower b.
Proof. induction a as [|c a IH]; cbn [append lower]; [reflexivity|now rewrite IH]. Qed.

Lemma startswith_app (p a b : string) :
  startswith p a = true -> startswith p (a ++ b) = true.
Proof.
  revert a. induction p as [|c p IH]; intros a H; [now destruct a|].
  destruct a as [|d a]; [discriminate|].
  cbn [append startswith] in *. apply andb_true_iff in H. destruct H as [H1 H2].
  now rewrite H1, IH.
Qed.

Lemma contains_nil (s : string) : contains "" s = true.
Proof. destruct s; reflexivity. Qed.

Lemma contains_app_l (n a b : string) :
  contains n a = true -> contains n (a ++ b) = true.
Proof.
  induction a as [|c a IH]; intros H.
  - cbn [contains] in H. rewrite orb_false_r in H.
    destruct n; [apply contains_nil|discriminate].
  - cbn [contains append] in *. apply orb_true_iff in H. destruct H as [H|H].
    + change (String c (a ++ b)) with (String c a ++ b).
      now rewrite (startswith_app _ _ b H).
    + rewrite (IH H). apply orb_true_r.
Qed.

Lemma contains_app_r (n a b : string) :
  contains n b = true -> contains n (a ++ b) = true.
Proof.
  intros H. induction a as [|c a IH]; [exact H|].
  cbn [contains append]. rewrite IH. apply orb_true_r.
Qed.

(** X15.  [enhance_query] only adds: the result is the query, preceded by
    [MOSDAC: ] when the query does not mention mosdac in any case, and
    followed by [ satellite data] when it mentions none of the context words;
    the result always mentions mosdac and a context word, so that enhancing
    it again changes nothing. *)
Theorem enhance_query_idempotent (query : string) :
  let e := enhance_query query in
  contains "mosdac" (lower e) = true /\
  any_in context_words (lower e) = true /\
  enhance_query e = e /\
  exists pre suf,
    e = pre ++ query ++ suf /\
    pre = (if contains "mosdac" (lower query) then "" else "MOSDAC: ") /\
    (suf = "" \/ suf = " satellite data").
Proof.
  intros e.
  set (q1 := if negb (contains "mosdac" (lower query))
             then "MOSDAC: " ++ query else query).
  assert (M1 : contains "mosdac" (lower q1) = true).
  { unfold q1. destruct (contains "mosdac" (lower query)) eqn:E; cbn [negb].
    - exact E.
    - rewrite lower_app. apply contains_app_l. reflexivity. }
  assert (Ee : e = if negb (any_in context_words (lower q1))
                   then q1 ++ " satellite data" else q1) by reflexivity.
  assert (Me : contains "mosdac" (lower e) = true).
  { rewrite Ee. destruct (negb (any_in context_words (lower q1))); [|exact M1].
    rewrite lower_app. now apply contains_app_l. }
  assert (Ce : any_in context_words (lower e) = true).
  { rewrite Ee. destruct (any_in context_words (lower q1)) eqn:E; cbn [negb].
    - exact E.
    - rewrite lower_app. unfold any_in, context_words. cbn [existsb].
      rewrite (contains_app_r "satellite" (lower q1) (lower " satellite data"))
        by reflexivity.
      reflexivity. }
  split; [exact Me|]. split; [exact Ce|]. split.
  - unfold enhance_query. rewrite Me. cbn [negb]. rewrite Ce. reflexivity.
  - exists (if contains "mosdac" (lower query) then "" else "MOSDAC: "),
           (if negb (any_in context_words (lower q1)) then " satellite data"
            else "").
    split; [|split; [reflexivity|]].
    + rewrite Ee. unfold q1.
      destruct (contains "mosdac" (lower query)); cbn [negb];
        destruct (negb (any_in context_words _)); cbn [append];
        rewrite ?append_empty_r; try reflexivity.
    + destruct (negb (any_in context_words (lower q1))); tauto.
Qed.

(** ** Confidence *)

Lemma intent_score_bounded (i : QueryIntent) (query : string) (es : Entities) :
  In i five_intents -> intent_score i query es <= 12.
Proof.
  intros Hi. unfold intent_score, keyword_count.
  pose proof (filter_length_le (fun kw => contains kw query) (keywords_of i)) as L.
  cbn [five_intents In] in Hi.
  destruct Hi as [<-|[<-|[<-|[<-|[<-|[]]]]]];
    cbn [keywords_of get intent_keywords intent_eqb length] in L |- *;
    cbn [entity_bonus];
    repeat match goal with |- context [if ?b then _ else _] => destruct b end;
    lia.
Qed.

Lemma ratio_bounds (m : nat) :
  1 <= m <= 12 ->
  min_one (nat_ratio m total_possible) = nat_ratio m total_possible /\
  ((1 # 51) <= nat_ratio m total_possible)%Q /\
  (nat_ratio m total_possible <= (12 # 51))%Q /\
  (nat_ratio m total_possible < (1 # 2))%Q.
Proof.
  intros [H1 H12].
  do 13 (destruct m as [|m]; [try lia; repeat split; vm_compute; congruence|]).
  lia.
Qed.

(** X16.  The confidence [_classify_intent] gives a recognised intent is the
    best score over 51, between 1/51 and 12/51: the cap at 1 never applies,
    and a recognised intent always has a lower confidence than the 1/2 that
    goes with the default, general question. *)
Theorem classify_confidence_bounds (query : string) (es : Entities) :
  let r := _classify_intent query es in
  (r = (GENERAL_QUESTION, (1 # 2)%Q) /\
   forall i, In i five_intents -> intent_score i query es = 0) \/
  (In (fst r) five_intents /\
   1 <= intent_score (fst r) query es <= 12 /\
   snd r = nat_ratio (intent_score (fst r) query es) total_possible /\
   ((1 # 51) <= snd r)%Q /\ (snd r <= (12 # 51))%Q /\ (snd r < (1 # 2))%Q).
Proof.
  intros r. unfold r. rewrite classify_intent_unfold.
  pose proof (max_of_five (fun i => intent_score i query es)) as H.
  cbv beta zeta in H. destruct H as (Hmax & Hin & Hle & _).
  set (scores := map (fun i => (i, intent_score i query es)) five_intents) in *.
  set (best := max_key INFORMATION_RETRIEVAL
                       (intent_score INFORMATION_RETRIEVAL query es)
                       (tl scores)) in *.
  destruct (Nat.eqb_spec (max_value scores) 0) as [E0|E0].
  - left. split; [reflexivity|].
    intros i Hi. specialize (Hle i Hi). lia.
  - right. cbn [fst snd].
    assert (Hb : 1 <= intent_score best query es <= 12).
    { split; [lia|]. now apply intent_score_bounded. }
    destruct (ratio_bounds Hb) as (Hmin & Hlo & Hhi & Hhalf).
    rewrite Hmax.
    split; [exact Hin|]. split; [exact Hb|].
    rewrite Hmin. repeat split; assumption.
Qed.

End QueryHelpFacts.

(* ================================================================== *)
(** * The bot: what the handlers can find *)
(* ================================================================== *)

Module AIHelpBotFacts.
Import Py GraphManager PyFacts GraphManagerFacts GraphStoreFacts.
Local Open Scope string_scope.

(** ** The attributes of the nodes of a reachable graph *)

Lemma form_content_inv (d : attrs) :
  node_form d -> kind_of d = Some "content" ->
  exists cd, d = content_attrs cd.
Proof.
  intros F K. destruct F; try (cbn in K; discriminate).
  now exists content_data.
Qed.

Lemma content_update_form (cd0 cd : ContentData) :
  update String.eqb (content_attrs cd0) (content_attrs cd) = content_attrs cd.
Proof. reflexivity. Qed.

Lemma reachable_forms (self : t) :
  reachable self ->
  forall id d, In (id, d) (nodes (nx_graph self)) -> node_form d.
Proof.
  induction 1 as [neo4j model|self neo cd Hr IH|self Hr IH]; intros id d Hin.
  - destruct Hin.
  - pose proof (@reachable_well_formed self Hr) as Hwf.
    destruct (@local_graph_appends self neo cd Hwf)
      as (_ & _ & _ & new & enew & Hn & _ & Hf).
    rewrite Hn in Hin. apply in_app_or in Hin. destruct Hin as [Hin|Hin].
    + unfold add_node in Hin. cbn [nodes] in Hin.
      apply (In_setitem _ NodeId_eqb_eq) in Hin.
      destruct Hin as [[= -> ->]|Hin]; [|exact (IH id d Hin)].
      destruct (get NodeId_eqb (nodes (nx_graph self))
                    (content_key self (given_key self neo))) as [old|] eqn:G.
      * pose proof (get_Some_In _ NodeId_eqb_eq _ _ G) as Hold.
        destruct (form_content_inv (IH _ _ Hold)) as [cd0 ->].
        { exact (@content_key_old self (given_key self neo) old Hwf
                   (given_key_neo_or_none self neo) G). }
        change (node_form (update String.eqb (content_attrs cd0)
                                  (content_attrs cd))).
        rewrite content_update_form. apply form_content.
      * change (node_form (content_attrs cd)). apply form_content.
    + rewrite Forall_forall in Hf. exact (Hf (id, d) Hin).
  - destruct Hin.
Qed.



(** ** What a search can return *)

(** A hit of the lexical pass is a content node. *)
Lemma lexical_hit_form (self : t) (query : string) (limit : Z)
  (hits : list SearchHit) (h : SearchHit) :
  reachable self ->
  _text_search self query limit = Ok hits -> In h hits ->
  exists cd, data h = content_attrs cd.
Proof.
  intros Hr Hs Hin.
  pose proof (@reachable_well_formed self Hr) as Hwf.
  rewrite text_search_eq in Hs by (now apply well_formed_text_fields).
  injection Hs as <-. apply slice_to_In in Hin.
  apply (proj1 (@sort_desc_In _ similarity _ _)) in Hin.
  apply lexical_hit_inv in Hin. destruct Hin as [Hn Hp].
  pose proof (reachable_forms Hr _ _ Hn) as F.
  destruct F; try (cbn in Hp; lia).
  now exists content_data.
Qed.

(** A hit of the semantic pass is a question or an answer. *)
Lemma semantic_hit_form (self : t) (qe : list R) (limit : Z) (h : SearchHit) :
  reachable self ->
  In h (slice_to (sort_desc similarity
                    (embedding_hits (nodes (nx_graph self)) qe)) limit) ->
  exists s faq, data h = question_attrs s faq \/ data h = answer_attrs s faq.
Proof.
  intros Hr Hin. apply slice_to_In in Hin.
  apply (proj1 (@sort_desc_In _ similarity _ _)) in Hin.
  apply embedding_hit_inv in Hin. destruct Hin as (Hn & e & Ge & Te).
  pose proof (reachable_forms Hr _ _ Hn) as F.
  destruct F; try (cbn in Ge; discriminate).
  - exists self0, faq. now left.
  - exists self0, faq. now right.
Qed.

(** The two ways a search goes. *)
Lemma search_content_mode (self : t) (query : string) (limit : Z) :
  search_content self query limit = _text_search self query limit \/
  exists model qe,
    embedding_model self = Some model /\ model query = Ok qe /\
    search_content self query limit =
      Ok (slice_to (sort_desc similarity
                      (embedding_hits (nodes (nx_graph self)) qe)) limit).
Proof.
  destruct (embedding_model self) as [model|] eqn:Em.
  - destruct (model query) as [qe|e] eqn:Eq.
    + right. exists model, qe. repeat split; try assumption.
      now apply search_content_encoded with (model := model).
    + left. now apply search_content_encoder_raises with (model := model) (e := e).
  - left. now apply search_content_without_model.
Qed.

Lemma search_hit_form (self : t) (query : string) (limit : Z)
  (hits : list SearchHit) (h : SearchHit) :
  reachable self ->
  search_content self query limit = Ok hits -> In h hits ->
  (exists cd, data h = content_attrs cd) \/
  (exists s faq, data h = question_attrs s faq \/ data h = answer_attrs s faq).
Proof.
  intros Hr Hs Hin.
  destruct (search_content_mode self query limit)
    as [E|(model & qe & Em & Eq & E)]; rewrite E in Hs.
  - left. eapply lexical_hit_form; eassumption.
  - right. injection Hs as <-. eapply semantic_hit_form; eassumption.
Qed.

Lemma search_content_ok (self : t) (query : string) (limit : Z) :
  reachable self -> exists hits, search_content self query limit = Ok hits.
Proof.
  intros Hr.
  destruct (@search_content_returns self query limit
              (@reachable_well_formed self Hr)) as (cands & E & _).
  eexists. exact E.
Qed.

Lemma search_content_length (self : t) (query : string) (limit : Z)
  (hits : list SearchHit) :
  reachable self -> (0 <= limit)%Z ->
  search_content self query limit = Ok hits ->
  (Z.of_nat (length hits) <= limit)%Z.
Proof.
  intros Hr Hl Hs.
  destruct (@search_content_returns self query limit
              (@reachable_well_formed self Hr)) as (cands & E & _).
  rewrite E in Hs. injection Hs as <-. now apply slice_to_length.
Qed.

(** ** What the handlers read off the hits *)

Lemma fold_left_fixed {A B : Type} (f : A -> B -> A) (l : list B) (a : A) :
  (forall x, In x l -> f a x = a) -> fold_left f l a = a.
Proof.
  induction l as [|x l IH]; intros H; cbn [fold_left]; [reflexivity|].
  rewrite (H x (or_introl eq_refl)). apply IH.
  intros y Hy. apply H. now right.
Qed.

Lemma extract_download_none (hits : list SearchHit) :
  (forall h, In h hits ->
             has_type "download_link" (data h) = false /\
             has_type "specifications" (data h) = false) ->
  AIHelpBot._extract_download_information hits =
  {| AIHelpBot.info_download_links := [];
     AIHelpBot.info_file_formats := [];
     AIHelpBot.info_data_specifications := [];
     AIHelpBot.info_access_instructions := [] |}.
Proof.
  intros H. unfold AIHelpBot._extract_download_information.
  apply fold_left_fixed. intros h Hh. destruct (H h Hh) as [H1 H2].
  unfold AIHelpBot.download_step. now rewrite H1, H2.
Qed.

Lemma extract_api_none (hits : list SearchHit) :
  (forall h, In h hits ->
             has_type "api_documentation" (data h) = false /\
             has_type "code_example" (data h) = false) ->
  AIHelpBot._extract_api_information hits =
  {| AIHelpBot.info_documentation := [];
     AIHelpBot.info_code_examples := [];
     AIHelpBot.info_endpoints := [];
     AIHelpBot.info_authentication := [] |}.
Proof.
  intros H. unfold AIHelpBot._extract_api_information.
  apply fold_left_fixed. intros h Hh. destruct (H h Hh) as [H1 H2].
  unfold AIHelpBot.api_step. now rewrite H1, H2.
Qed.

Lemma hit_not_product (self : t) (query : string) (limit : Z)
  (hits : list SearchHit) (h : SearchHit) (ty : string) :
  reachable self ->
  search_content self query limit = Ok hits -> In h hits ->
  In ty ["download_link"; "specifications"; "api_documentation";
         "code_example"] ->
  has_type ty (data h) = false.
Proof.
  intros Hr Hs Hin Hty.
  destruct (@search_hit_form self query limit hits h Hr Hs Hin)
    as [[cd ->]|(s & faq & [-> | ->])];
    cbn [In] in Hty;
    destruct Hty as [<-|[<-|[<-|[<-|[]]]]]; reflexivity.
Qed.

Section Handlers.
Variable SpatialResult : Type.

(** X18.  In every state the graph manager reaches, the data-download
    handler and the API handler answer with success, the first with at most
    10 results of a search for the query, the second with at most 8 results
    of a search for [API ] followed by the query; but the download
    information and the API information they extract are always empty: a
    search returns content nodes, questions and answers only, never a
    download link, a specification, a documentation or a code example. *)
Theorem product_handlers_find_nothing (gm : t) (query : string)
  (analysis : QueryProcessor.QueryAnalysis) :
  reachable gm ->
  let rd := @AIHelpBot._handle_data_download_query SpatialResult gm query
                                                   analysis in
  let ra := @AIHelpBot._handle_api_query SpatialResult gm query analysis in
  (AIHelpBot.success rd = true /\
   AIHelpBot.download_information rd =
     Some {| AIHelpBot.info_download_links := [];
             AIHelpBot.info_file_formats := [];
             AIHelpBot.info_data_specifications := [];
             AIHelpBot.info_access_instructions := [] |} /\
   exists hits,
     search_content gm query 10 = Ok hits /\
     AIHelpBot.knowledge_graph_results rd = Some hits /\
     length hits <= 10) /\
  (AIHelpBot.success ra = true /\
   AIHelpBot.api_information ra =
     Some {| AIHelpBot.info_documentation := [];
             AIHelpBot.info_code_examples := [];
             AIHelpBot.info_endpoints := [];
             AIHelpBot.info_authentication := [] |} /\
   exists hits,
     search_content gm ("API " ++ query) 8 = Ok hits /\
     AIHelpBot.knowledge_graph_results ra = Some hits /\
     length hits <= 8).
Proof.
  intros Hr rd ra. split.
  - destruct (@search_content_ok gm query 10 Hr) as [hits Hs].
    pose proof (@search_content_length gm query 10 hits Hr ltac:(lia) Hs) as Hl.
    unfold rd, AIHelpBot._handle_data_download_query. rewrite Hs.
    cbn [AIHelpBot.success AIHelpBot.found AIHelpBot.download_information
         AIHelpBot.knowledge_graph_results].
    split; [reflexivity|]. split.
    + f_equal. apply extract_download_none. intros h Hh.
      split; apply (@hit_not_product gm query 10 hits h _ Hr Hs Hh);
        cbn; tauto.
    + exists hits. repeat split; try reflexivity. lia.
  - destruct (@search_content_ok gm ("API " ++ query) 8 Hr) as [hits Hs].
    pose proof (@search_content_length gm ("API " ++ query) 8 hits Hr
                  ltac:(lia) Hs) as Hl.
    unfold ra, AIHelpBot._handle_api_query. rewrite Hs.
    cbn [AIHelpBot.success AIHelpBot.found AIHelpBot.api_information
         AIHelpBot.knowledge_graph_results].
    split; [reflexivity|]. split.
    + f_equal. apply extract_api_none. intros h Hh.
      split; apply (@hit_not_product gm ("API " ++ query) 8 hits h _ Hr Hs Hh);
        cbn; tauto.
    + exists hits. repeat split; try reflexivity. lia.
Qed.

End Handlers.

Lemma product_handlers_find_nothing_witness :
  reachable three_kinds /\
  AIHelpBot.download_information
    (@AIHelpBot._handle_data_download_query unit three_kinds "temperature"
       {| QueryProcessor.intent := QueryProcessor.DATA_DOWNLOAD;
          QueryProcessor.entities := [];
          QueryProcessor.confidence := (1 # 51)%Q;
          QueryProcessor.keywords := [];
          QueryProcessor.original_query := PyStr "temperature";
          QueryProcessor.processed_query := PyStr "temperature" |}) =
  Some {| AIHelpBot.info_download_links := [];
          AIHelpBot.info_file_formats := [];
          AIHelpBot.info_data_specifications := [];
          AIHelpBot.info_access_instructions := [] |}.
Proof.
  split; [exact three_kinds_reachable|].
  destruct (@product_handlers_find_nothing unit three_kinds "temperature"
              {| QueryProcessor.intent := QueryProcessor.DATA_DOWNLOAD;
                 QueryProcessor.entities := [];
                 QueryProcessor.confidence := (1 # 51)%Q;
                 QueryProcessor.keywords := [];
                 QueryProcessor.original_query := PyStr "temperature";
                 QueryProcessor.processed_query := PyStr "temperature" |}
              three_kinds_reachable) as ((_ & Hd & _) & _).
  exact Hd.
Defined.

(** ** Sources and answered questions *)

Lemma sources_of_pages (hits : list SearchHit) :
  (forall h, In h hits -> exists cd, data h = content_attrs cd) ->
  length (AIHelpBot._extract_sources hits) = length hits /\
  (forall src, In src (AIHelpBot._extract_sources hits) ->
     exists u ti ct,
       src = {| AIHelpBot.source_url := AStr u;
                AIHelpBot.source_title := AStr ti;
                AIHelpBot.source_type := AStr ct |}) /\
  AIHelpBot.info_faqs (AIHelpBot._extract_support_information hits) = [].
Proof.
  intros H. split; [|split].
  - induction hits as [|h hits IH]; [reflexivity|].
    destruct (H h (or_introl eq_refl)) as [cd E].
    unfold AIHelpBot._extract_sources in *. cbn [flat_map]. rewrite E.
    cbn [get content_attrs String.eqb Ascii.eqb Bool.eqb app length].
    f_equal. apply IH. intros x Hx. apply H. now right.
  - intros src Hs. unfold AIHelpBot._extract_sources in Hs.
    apply in_flat_map in Hs. destruct Hs as (h & Hh & Hs).
    destruct (H h Hh) as [cd E]. rewrite E in Hs.
    cbn in Hs. destruct Hs as [<-|[]]. eexists. eexists. eexists. reflexivity.
  - unfold AIHelpBot._extract_support_information.
    rewrite fold_left_fixed; [reflexivity|].
    intros h Hh. destruct (H h Hh) as [cd E].
    unfold AIHelpBot.support_step. now rewrite E.
Qed.

Lemma support_faqs_acc (hits : list SearchHit) (acc : AIHelpBot.SupportInfo) :
  AIHelpBot.info_faqs (fold_left AIHelpBot.support_step hits acc) =
  (AIHelpBot.info_faqs acc ++
   map (fun h => (getd (get String.eqb (data h) "text") (AStr ""),
                  AIHelpBot._find_answer_for_question
                    (getd (get String.eqb (data h) "text") (AStr ""))))
       (filter (fun h => has_type "question" (data h)) hits))%list.
Proof.
  revert acc. induction hits as [|h hits IH]; intros acc; cbn [fold_left filter].
  - now rewrite app_nil_r.
  - rewrite IH. unfold AIHelpBot.support_step.
    destruct (has_type "question" (data h)); cbn [AIHelpBot.info_faqs map].
    + now rewrite <- app_assoc.
    + reflexivity.
Qed.

Lemma sources_of_faq_nodes (hits : list SearchHit) :
  (forall h, In h hits ->
     exists s faq, data h = question_attrs s faq \/ data h = answer_attrs s faq) ->
  AIHelpBot._extract_sources hits = [].
Proof.
  intros H. induction hits as [|h hits IH]; [reflexivity|].
  unfold AIHelpBot._extract_sources in *. cbn [flat_map].
  rewrite IH by (intros x Hx; apply H; now right).
  destruct (H h (or_introl eq_refl)) as (s & faq & [E|E]); rewrite E; reflexivity.
Qed.

(** X19.  What a handler can cite depends on the search mode.  When the
    search is lexical (no encoder, or the encoder raises), every hit is a
    content node and gives one source, with a string for url, title and
    content type, and no hit is a question: the support information has no
    FAQ.  When the search is semantic, every hit is a question or an answer,
    which carry a [source_url] but no [url]: the list of sources is empty,
    and the FAQs are the question hits, each with the same fixed answer. *)
Theorem sources_by_search_mode (gm : t) (query : string) (limit : Z)
  (hits : list SearchHit) :
  reachable gm ->
  search_content gm query limit = Ok hits ->
  (search_content gm query limit = _text_search gm query limit ->
   length (AIHelpBot._extract_sources hits) = length hits /\
   (forall src, In src (AIHelpBot._extract_sources hits) ->
      exists u ti ct,
        src = {| AIHelpBot.source_url := AStr u;
                 AIHelpBot.source_title := AStr ti;
                 AIHelpBot.source_type := AStr ct |}) /\
   AIHelpBot.info_faqs (AIHelpBot._extract_support_information hits) = []) /\
  (forall model qe,
     embedding_model gm = Some model -> model query = Ok qe ->
     AIHelpBot._extract_sources hits = [] /\
     AIHelpBot.info_faqs (AIHelpBot._extract_support_information hits) =
       map (fun h =>
              (getd (get String.eqb (data h) "text") (AStr ""),
               "Please refer to the MOSDAC documentation for detailed information."))
           (filter (fun h => has_type "question" (data h)) hits)).
Proof.
  intros Hr Hs. split.
  - intros E. rewrite E in Hs. apply sources_of_pages.
    intros h Hh. eapply lexical_hit_form; eassumption.
  - intros model qe Em Eq.
    rewrite (@search_content_encoded gm query limit model qe Em Eq) in Hs.
    injection Hs as <-. split.
    + apply sources_of_faq_nodes. intros h Hh.
      eapply semantic_hit_form; eassumption.
    + unfold AIHelpBot._extract_support_information.
      rewrite support_faqs_acc. reflexivity.
Qed.

Lemma sources_by_search_mode_witness :
  reachable two_pages /\
  exists hits,
    search_content two_pages "ocean" 10 = Ok hits /\
    search_content two_pages "ocean" 10 = _text_search two_pages "ocean" 10 /\
    length (AIHelpBot._extract_sources hits) = length hits.
Proof.
  split; [exact two_pages_reachable|].
  destruct (@search_content_ok two_pages "ocean" 10 two_pages_reachable)
    as [hits Hs].
  assert (E : search_content two_pages "ocean" 10 =
              _text_search two_pages "ocean" 10) by reflexivity.
  exists hits. split; [exact Hs|]. split; [exact E|].
  destruct (@sources_by_search_mode two_pages "ocean" 10 hits
              two_pages_reachable Hs) as [H _].
  exact (proj1 (H E)).
Defined.

(** ** The conversation history *)

Section History.
Variable SpatialResult : Type.

(** X20.  [get_conversation_history] returns the last [limit] records for a
    positive limit (all of them when there are fewer); for the limit 0 it
    returns the whole history, not the empty list, since [-0] is [0]; and for
    a negative limit it drops the first [-limit] records. *)
Theorem conversation_history_window (self : AIHelpBot.t SpatialResult)
  (limit : Z) :
  let h := AIHelpBot.conversation_history self in
  let r := AIHelpBot.get_conversation_history self limit in
  ((0 < limit)%Z ->
   r = skipn (length h - Z.to_nat limit) h /\
   length r = Nat.min (Z.to_nat limit) (length h)) /\
  (limit = 0%Z -> r = h) /\
  ((limit < 0)%Z -> r = skipn (Z.to_nat (- limit)) h).
Proof.
  intros h r.
  assert (Er : r = AIHelpBot.slice_from h (- limit)).
  { unfold r, AIHelpBot.get_conversation_history. fold h.
    destruct h; [|reflexivity].
    unfold AIHelpBot.slice_from. destruct (- limit <? 0)%Z; now rewrite skipn_nil. }
  rewrite Er. unfold AIHelpBot.slice_from.
  split; [|split].
  - intros Hl. destruct (Z.ltb_spec (- limit) 0); [|lia].
    rewrite Z.opp_involutive. split; [reflexivity|].
    rewrite length_skipn. lia.
  - intros ->. reflexivity.
  - intros Hl. destruct (Z.ltb_spec (- limit) 0); [lia|reflexivity].
Qed.

Lemma intent_step_sum (acc : dict string nat)
  (conv : AIHelpBot.Conversation SpatialResult) :
  list_sum (values (AIHelpBot.intent_step acc conv)) =
  list_sum (values acc) + (if AIHelpBot.succeeded conv then 1 else 0).
Proof.
  unfold AIHelpBot.intent_step.
  destruct (AIHelpBot.succeeded conv); [|lia].
  generalize (AIHelpBot.intent_of conv). intros k. unfold values.
  induction acc as [|[k0 v0] acc IH].
  - reflexivity.
  - cbn [get setitem]. destruct (k =? k0)%string.
    + simpl. lia.
    + simpl in *. rewrite IH. lia.
Qed.

Lemma intent_fold (h : list (AIHelpBot.Conversation SpatialResult)) :
  forall acc,
    NoDup (keys acc) ->
    let counts := fold_left (@AIHelpBot.intent_step SpatialResult) h acc in
    NoDup (keys counts) /\
    list_sum (values counts) =
      list_sum (values acc) + length (filter (@AIHelpBot.succeeded _) h) /\
    forall i,
      getd (get String.eqb counts i) 0 =
      getd (get String.eqb acc i) 0 +
      length (filter (fun conv => AIHelpBot.succeeded conv
                                  && (AIHelpBot.intent_of conv =? i)) h).
Proof.
  induction h as [|conv h IH]; intros acc ND; cbn [fold_left filter].
  - repeat split; try assumption; cbn [length]; lia.
  - assert (ND' : NoDup (keys (AIHelpBot.intent_step acc conv))).
    { unfold AIHelpBot.intent_step. destruct (AIHelpBot.succeeded conv);
        [|exact ND].
      now apply (NoDup_keys_setitem _ string_eqb_eq). }
    destruct (IH _ ND') as (N & S & G). split; [exact N|]. split.
    + rewrite S, intent_step_sum.
      destruct (AIHelpBot.succeeded conv); cbn [length]; lia.
    + intros i. rewrite G. unfold AIHelpBot.intent_step at 1.
      destruct (AIHelpBot.succeeded conv); cbn [andb]; [|lia].
      rewrite (get_setitem _ string_eqb_eq). rewrite String.eqb_sym.
      destruct (AIHelpBot.intent_of conv =? i)%string eqn:E; cbn [length getd].
      * apply String.eqb_eq in E. subst i. lia.
      * lia.
Qed.

(** X21.  [get_query_statistics] gives the empty dictionary on an empty
    history; otherwise the number of records, the number of those answered
    with success, which is also the sum of the intent distribution, whose
    entry for an intent counts the successful records of that intent, and a
    success rate between 0 and 1. *)
Theorem query_statistics_consistent (self : AIHelpBot.t SpatialResult) :
  let h := AIHelpBot.conversation_history self in
  (h = [] -> AIHelpBot.get_query_statistics self = None) /\
  (h <> [] ->
   exists st,
     AIHelpBot.get_query_statistics self = Some st /\
     AIHelpBot.total_queries st = length h /\
     AIHelpBot.successful_queries st =
       length (filter (@AIHelpBot.succeeded _) h) /\
     AIHelpBot.successful_queries st <= AIHelpBot.total_queries st /\
     list_sum (values (AIHelpBot.intent_distribution st)) =
       AIHelpBot.successful_queries st /\
     NoDup (keys (AIHelpBot.intent_distribution st)) /\
     (forall i,
        getd (get String.eqb (AIHelpBot.intent_distribution st) i) 0 =
        length (filter (fun conv => AIHelpBot.succeeded conv
                                    && (AIHelpBot.intent_of conv =? i)) h)) /\
     (0 <= AIHelpBot.success_rate st)%Q /\
     (AIHelpBot.success_rate st <= 1)%Q).
Proof.
  intros h. split.
  - intros E. unfold AIHelpBot.get_query_statistics. fold h. now rewrite E.
  - intros Hne.
    destruct (@intent_fold h [] (NoDup_nil _)) as (N & S & G).
    pose proof (filter_length_le (@AIHelpBot.succeeded SpatialResult) h) as L.
    assert (Hpos : 0 < length h) by (destruct h; [congruence|cbn; lia]).
    eexists. split.
    { unfold AIHelpBot.get_query_statistics. fold h.
      destruct h as [|c0 h0] eqn:Eh; [congruence|]. rewrite <- Eh. reflexivity. }
    cbn [AIHelpBot.total_queries AIHelpBot.successful_queries
         AIHelpBot.intent_distribution AIHelpBot.success_rate].
    split; [reflexivity|]. split; [reflexivity|]. split; [exact L|].
    split; [exact S|]. split; [exact N|]. split; [exact G|].
    rewrite (proj2 (Nat.ltb_lt 0 (length h)) Hpos).
    assert (Hq : (0 < inject_Z (Z.of_nat (length h)))%Q).
    { rewrite <- (Zlt_Qlt 0) . lia. }
    split.
    + apply Qle_shift_div_l; [exact Hq|]. rewrite Qmult_0_l.
      rewrite <- (Zle_Qle 0). lia.
    + apply Qle_shift_div_r; [exact Hq|]. rewrite Qmult_1_l.
      rewrite <- Zle_Qle. lia.
Qed.

End History.

(** ** A query through the bot *)

Lemma classify_intent_known (query : string) (es : QueryProcessor.Entities) :
  fst (QueryProcessor._classify_intent query es) <> QueryProcessor.UNKNOWN.
Proof.
  rewrite QueryProcessorFacts.classify_intent_unfold.
  pose proof (QueryProcessorFacts.max_of_five
                (fun i => QueryProcessor.intent_score i query es)) as H.
  cbv beta zeta in H. destruct H as (_ & Hin & _).
  destruct (Nat.eqb _ 0); cbn [fst]; [discriminate|].
  intros E. rewrite E in Hin. cbn in Hin. intuition discriminate.
Qed.

Lemma process_query_str (list_of_set : list string -> list string)
  (qp : QueryProcessor.t) (s : string) :
  exists a,
    QueryProcessor.process_query list_of_set qp (PyStr s) = Ok a /\
    QueryProcessor.intent a <> QueryProcessor.UNKNOWN /\
    QueryProcessor.original_query a = PyStr s.
Proof.
  unfold QueryProcessor.process_query, QueryProcessor.process_query_body,
    QueryProcessor._preprocess_query. cbn [bind].
  match goal with
  | |- context [QueryProcessor._classify_intent ?q ?es] =>
      pose proof (classify_intent_known q es) as K;
      destruct (QueryProcessor._classify_intent q es) as [i c]
  end.
  cbn [try_except]. eexists. split; [reflexivity|].
  cbn [QueryProcessor.intent QueryProcessor.original_query fst] in *.
  split; [exact K|reflexivity].
Qed.

Lemma query_suggestions_some (fuel : nat) (query : string) (limit : Z) :
  8 <= fuel ->
  exists l, QueryProcessor.get_query_suggestions fuel query limit = Some l.
Proof.
  intros Hf. unfold QueryProcessor.get_query_suggestions.
  rewrite (QueryHelpFacts.fill_suggestions_result query limit Hf).
  eexists. reflexivity.
Qed.

Section Bot.
Variable list_of_set : list string -> list string.
Variable SpatialResult : Type.
Variable process_spatial_query : string -> result SpatialResult.
Variable get_spatial_suggestions : string -> result (list string).

(** The response type and the number of results asked for, per intent. *)
Lemma handler_succeeds (gm : t) (fuel : nat) (query : string)
  (analysis : QueryProcessor.QueryAnalysis) :
  reachable gm -> 8 <= fuel ->
  (forall r,
     In r [AIHelpBot._handle_data_download_query SpatialResult gm query analysis;
           AIHelpBot._handle_api_query SpatialResult gm query analysis;
           AIHelpBot._handle_support_query SpatialResult gm query analysis] ->
     AIHelpBot.success r = true /\
     AIHelpBot.query_analysis r = Some (AIHelpBot.analysis_dict analysis) /\
     exists hits,
       AIHelpBot.knowledge_graph_results r = Some hits /\
       length hits <= 10 /\
       AIHelpBot.sources r = AIHelpBot._extract_sources hits) /\
  exists r,
    AIHelpBot._handle_general_query SpatialResult fuel gm query analysis
      = Some r /\
    AIHelpBot.success r = true /\
    AIHelpBot.response_type r = Some "general" /\
    AIHelpBot.query_analysis r = Some (AIHelpBot.analysis_dict analysis) /\
    length (AIHelpBot.suggestions r) = 5 /\
    exists hits,
      AIHelpBot.knowledge_graph_results r = Some hits /\
      length hits <= 10 /\
      AIHelpBot.sources r = AIHelpBot._extract_sources hits.
Proof.
  intros Hr Hf.
  assert (S : forall q l, (0 <= l <= 10)%Z ->
            exists hits, search_content gm q l = Ok hits /\ length hits <= 10).
  { intros q l Hl. destruct (@search_content_ok gm q l Hr) as [hits Hs].
    pose proof (@search_content_length gm q l hits Hr ltac:(lia) Hs).
    exists hits. split; [exact Hs|lia]. }
  split.
  - intros r [<-|[<-|[<-|[]]]].
    + destruct (S query 10%Z ltac:(lia)) as (hits & Hs & Hl).
      unfold AIHelpBot._handle_data_download_query. rewrite Hs. cbn.
      repeat split. exists hits. repeat split. exact Hl.
    + destruct (S ("API " ++ query) 8%Z ltac:(lia)) as (hits & Hs & Hl).
      unfold AIHelpBot._handle_api_query. rewrite Hs. cbn.
      repeat split. exists hits. repeat split. exact Hl.
    + destruct (S ("help support " ++ query) 6%Z ltac:(lia)) as (hits & Hs & Hl).
      unfold AIHelpBot._handle_support_query. rewrite Hs. cbn.
      repeat split. exists hits. repeat split. exact Hl.
  - destruct (S query 8%Z ltac:(lia)) as (hits & Hs & Hl).
    destruct (@QueryHelpFacts.query_suggestions_shape fuel query Hf)
      as (l & Hq & Hlen).
    unfold AIHelpBot._handle_general_query. rewrite Hs, Hq.
    eexists. split; [reflexivity|]. cbn.
    repeat split; try exact Hlen.
    exists hits. repeat split. exact Hl.
Qed.

End Bot.

Section BotQuery.
Variable list_of_set : list string -> list string.
Variable SpatialResult : Type.
Variable process_spatial_query : string -> result SpatialResult.
Variable get_spatial_suggestions : string -> result (list string).

(** X22.  For every text query, in every state the graph manager reaches,
    the bot returns a response (the suggestion loop ends within eight turns),
    leaves the graph as it is, and appends exactly one record to the
    conversation history, holding the query, the response and the processing
    time.  The intent is never [unknown]; unless it is geospatial, the
    response is a success of the type that goes with the intent, with the
    analysis of the query, at most 10 results and the sources read off those
    results. *)
Theorem bot_answers_every_query (self : AIHelpBot.t SpatialResult)
  (fuel : nat) (user_query : string)
  (user_context : option (dict string string)) (start_time end_time : Q) :
  8 <= fuel ->
  reachable (AIHelpBot.graph_manager self) ->
  exists analysis response self',
    QueryProcessor.process_query list_of_set (AIHelpBot.query_processor self)
                                 (PyStr user_query) = Ok analysis /\
    QueryProcessor.intent analysis <> QueryProcessor.UNKNOWN /\
    AIHelpBot.process_query list_of_set process_spatial_query
                            get_spatial_suggestions self fuel user_query
                            user_context start_time end_time
      = Some (response, self') /\
    AIHelpBot.graph_manager self' = AIHelpBot.graph_manager self /\
    AIHelpBot.conversation_history self' =
      (AIHelpBot.conversation_history self ++
       [{| AIHelpBot.timestamp := start_time;
           AIHelpBot.user_query := user_query;
           AIHelpBot.user_context := getd user_context [];
           AIHelpBot.response := Some response;
           AIHelpBot.processing_time := Some (end_time - start_time)%Q |}])%list /\
    (QueryProcessor.intent analysis <> QueryProcessor.GEOSPATIAL_QUERY ->
     AIHelpBot.success response = true /\
     AIHelpBot.response_type response =
       Some (match QueryProcessor.intent analysis with
             | QueryProcessor.DATA_DOWNLOAD => "data_download"
             | QueryProcessor.API_HELP => "api_help"
             | QueryProcessor.TECHNICAL_SUPPORT => "technical_support"
             | _ => "general"
             end) /\
     AIHelpBot.query_analysis response =
       Some (AIHelpBot.analysis_dict analysis) /\
     exists hits,
       AIHelpBot.knowledge_graph_results response = Some hits /\
       length hits <= 10 /\
       AIHelpBot.sources response = AIHelpBot._extract_sources hits).
Proof.
  intros Hf Hr.
  destruct (process_query_str list_of_set (AIHelpBot.query_processor self)
                              user_query) as (analysis & Ha & Hk & _).
  destruct (@handler_succeeds SpatialResult (AIHelpBot.graph_manager self)
              fuel user_query analysis Hr Hf) as (H3 & rg & Hg & Gs & Gt & Ga
                                                   & _ & Gh).
  assert (Hd := H3 _ (or_introl eq_refl)).
  assert (Hp := H3 _ (or_intror (or_introl eq_refl))).
  assert (Hs := H3 _ (or_intror (or_intror (or_introl eq_refl)))).
  exists analysis.
  unfold AIHelpBot.process_query. rewrite Ha.
  destruct (QueryProcessor.intent analysis) eqn:Ei; try congruence;
    try rewrite Hg;
    (eexists; eexists;
     split; [reflexivity|]; split; [exact Hk|];
     split; [reflexivity|]; split; [reflexivity|]; split; [reflexivity|];
     intros Hne; try congruence).
  - split; [exact Gs|]. split; [exact Gt|]. split; [exact Ga|exact Gh].
  - destruct Hd as (D1 & D2 & D3). split; [exact D1|].
    split; [|split; [exact D2|exact D3]].
    unfold AIHelpBot._handle_data_download_query in *.
    destruct (search_content _ _ _); [reflexivity|].
    cbn in D1. discriminate.
  - destruct Hs as (D1 & D2 & D3). split; [exact D1|].
    split; [|split; [exact D2|exact D3]].
    unfold AIHelpBot._handle_support_query in *.
    destruct (search_content _ _ _); [reflexivity|].
    cbn in D1. discriminate.
  - destruct Hp as (D1 & D2 & D3). split; [exact D1|].
    split; [|split; [exact D2|exact D3]].
    unfold AIHelpBot._handle_api_query in *.
    destruct (search_content _ _ _); [reflexivity|].
    cbn in D1. discriminate.
  - split; [exact Gs|]. split; [exact Gt|]. split; [exact Ga|exact Gh].
Qed.

End BotQuery.

Lemma bot_answers_every_query_witness :
  8 <= 8 /\
  reachable three_kinds /\
  exists response self',
    AIHelpBot.process_query QueryProcessor.first_occurrence
      (fun _ => Raise (RuntimeError "no geocoder"))
      (fun _ => Ok [])
      {| AIHelpBot.graph_manager := three_kinds;
         AIHelpBot.query_processor := QueryProcessor.no_tagger;
         AIHelpBot.conversation_history := @nil (AIHelpBot.Conversation unit) |}
      8 "How do I download the temperature data?" None 0%Q 1%Q
    = Some (response, self') /\
    length (AIHelpBot.conversation_history self') = 1.
Proof.
  split; [lia|]. split; [exact three_kinds_reachable|].
  destruct (@bot_answers_every_query QueryProcessor.first_occurrence unit
              (fun _ => Raise (RuntimeError "no geocoder"))
              (fun _ => Ok [])
              {| AIHelpBot.graph_manager := three_kinds;
                 AIHelpBot.query_processor := QueryProcessor.no_tagger;
                 AIHelpBot.conversation_history :=
                   @nil (AIHelpBot.Conversation unit) |}
              8 "How do I download the temperature data?" None 0%Q 1%Q
              ltac:(lia) three_kinds_reachable)
    as (analysis & response & self' & _ & _ & Hp & _ & Hh & _).
  exists response, self'. split; [exact Hp|].
  rewrite Hh. reflexivity.
Defined.

End AIHelpBotFacts.

(* ================================================================== *)
(** * The JSON export of a reachable graph *)
(* ================================================================== *)

Module ExportFacts.
Import Py GraphManager PyFacts GraphManagerFacts GraphStoreFacts AIHelpBotFacts.
Local Open Scope string_scope.

Lemma node_record_form (id : NodeId) (d : attrs) :
  node_form d ->
  node_record (id, d) = ("id", JId id) :: as_fields d.
Proof. intros F. destruct F; reflexivity. Qed.

Lemma edge_record_typed (u v : NodeId) (rel : string) :
  edge_record (u, v, [("type", AStr rel)]) =
  [("source", JId u); ("target", JId v); ("type", JAttr (AStr rel))].
Proof. reflexivity. Qed.

(** X23.  In every state a manager reaches, the JSON export hands the writer
    one record per node, in insertion order, made of the node's key under
    [id] followed by the node's attributes (no attribute overwrites the key),
    and one record per edge, parallel edges included, made of source, target
    and relation type: the adjacency walk of the export meets every edge
    exactly once. *)
Theorem json_export_complete (self : t) :
  reachable self ->
  let g := nx_graph self in
  payload_for "json" g = Some (JsonPayload (json_graph_data g)) /\
  json_nodes (json_graph_data g) =
    map (fun nd => ("id", JId (fst nd)) :: as_fields (snd nd)) (nodes g) /\
  Permutation (json_edges (json_graph_data g)) (map edge_record (edges g)) /\
  length (json_edges (json_graph_data g)) = length (edges g) /\
  (forall r, In r (json_edges (json_graph_data g)) ->
     exists u v rel,
       In (u, v, [("type", AStr rel)]) (edges g) /\
       r = [("source", JId u); ("target", JId v); ("type", JAttr (AStr rel))]).
Proof.
  intros Hr g.
  pose proof (@reachable_schema self Hr) as (_ & HE & _). fold g in HE.
  pose proof (@reachable_well_formed self Hr) as [ND _]. fold g in ND.
  pose proof (edges_view_permutation ND HE) as P.
  assert (PJ : Permutation (json_edges (json_graph_data g))
                           (map edge_record (edges g)))
    by (cbn [json_edges json_graph_data]; now apply Permutation_map).
  split; [reflexivity|]. split; [|split; [exact PJ|split]].
  - cbn [json_nodes json_graph_data]. apply map_ext_in.
    intros [id d] Hin. apply node_record_form.
    exact (reachable_forms Hr _ _ Hin).
  - rewrite (Permutation_length PJ). apply length_map.
  - intros r Hin. apply (Permutation_in _ PJ) in Hin.
    apply in_map_iff in Hin. destruct Hin as ([[u v] a] & <- & Hin).
    rewrite Forall_forall in HE.
    destruct (HE _ Hin) as (rel & ks & kt & Ha & _). cbn [snd] in Ha. subst a.
    exists u, v, rel. split; [exact Hin|apply edge_record_typed].
Qed.

Lemma json_export_complete_witness :
  reachable three_kinds /\
  length (json_edges (json_graph_data (nx_graph three_kinds))) =
  length (edges (nx_graph three_kinds)).
Proof.
  split; [exact three_kinds_reachable|].
  destruct (@json_export_complete three_kinds three_kinds_reachable)
    as (_ & _ & _ & Hl & _).
  exact Hl.
Defined.

End ExportFacts.

(* ================================================================== *)
(** * The normal form of preprocessing *)
(* ================================================================== *)

Module PreprocessFacts.
Import Py QueryProcessor.
Local Open Scope string_scope.

(** ** Characters *)

Ltac by_cases_on c :=
  destruct c as [[] [] [] [] [] [] [] []]; vm_compute; reflexivity.

Lemma is_space_lower (c : ascii) : is_space (lower_char c) = is_space c.
Proof. by_cases_on c. Qed.

Lemma lower_char_idem (c : ascii) : lower_char (lower_char c) = lower_char c.
Proof. by_cases_on c. Qed.

Lemma lower_char_space (c : ascii) :
  is_space c = true -> lower_char c = c.
Proof. destruct c as [[] [] [] [] [] [] [] []]; vm_compute; congruence. Qed.

Lemma lower_sub_char (c : ascii) :
  lower_char (if is_word c || is_space c || Nat.eqb (code c) 45 || Nat.eqb (code c) 46
              then c else " "%char) =
  (if is_word (lower_char c) || is_space (lower_char c)
      || Nat.eqb (code (lower_char c)) 45 || Nat.eqb (code (lower_char c)) 46
   then lower_char c else " "%char).
Proof. by_cases_on c. Qed.

Lemma kept_sub_char (c : ascii) :
  kept_char (if is_word c || is_space c || Nat.eqb (code c) 45 || Nat.eqb (code c) 46
             then c else " "%char) = true.
Proof. by_cases_on c. Qed.

(** ** Blanks *)

Lemma single_spaced_weaken (s : string) :
  single_spaced true s = true -> single_spaced false s = true.
Proof.
  destruct s as [|c s]; [reflexivity|]. cbn [single_spaced].
  destruct (is_space c); [|tauto].
  rewrite !andb_true_iff. cbn [negb]. intros [[_ H] _]. discriminate.
Qed.

Lemma collapse_single (s : string) (in_run : bool) :
  single_spaced in_run (collapse_ws in_run s) = true.
Proof.
  revert in_run. induction s as [|c s IH]; intros in_run; [reflexivity|].
  cbn [collapse_ws]. destruct (is_space c) eqn:Ec.
  - destruct in_run; [apply IH|].
    cbn [single_spaced]. change (is_space " "%char) with true.
    cbn [negb andb]. rewrite IH. reflexivity.
  - cbn [single_spaced]. rewrite Ec. apply IH.
Qed.

Lemma single_collapse (s : string) (b : bool) :
  single_spaced b s = true -> collapse_ws b s = s.
Proof.
  revert b. induction s as [|c s IH]; intros b H; [reflexivity|].
  cbn [single_spaced collapse_ws] in *. destruct (is_space c).
  - apply andb_true_iff in H. destruct H as [H H2].
    apply andb_true_iff in H. destruct H as [H0 H1].
    apply Ascii.eqb_eq in H0. subst c.
    destruct b; [discriminate|]. now rewrite (IH true H2).
  - now rewrite (IH false H).
Qed.

Lemma lstrip_single (s : string) (b : bool) :
  single_spaced b s = true -> single_spaced false (lstrip s) = true.
Proof.
  revert b. induction s as [|c s IH]; intros b H; [reflexivity|].
  cbn [lstrip]. destruct (is_space c) eqn:Ec.
  - cbn [single_spaced] in H. rewrite Ec in H.
    apply andb_true_iff in H. destruct H as [_ H]. exact (IH true H).
  - cbn [single_spaced] in *. now rewrite Ec in *.
Qed.

Lemma rstrip_single (s : string) (b : bool) :
  single_spaced b s = true -> single_spaced b (rstrip s) = true.
Proof.
  revert b. induction s as [|c s IH]; intros b H; [reflexivity|].
  cbn [rstrip]. destruct (all_space (String c s)); [reflexivity|].
  cbn [single_spaced] in *. destruct (is_space c).
  - apply andb_true_iff in H. destruct H as [H H2]. rewrite H.
    exact (IH true H2).
  - exact (IH false H).
Qed.

Lemma lstrip_length (s : string) : String.length (lstrip s) <= String.length s.
Proof.
  induction s as [|c s IH]; [apply Nat.le_refl|].
  cbn [lstrip]. destruct (is_space c); cbn [String.length]; lia.
Qed.

Lemma lstrip_idem (s : string) : lstrip (lstrip s) = lstrip s.
Proof.
  induction s as [|c s IH]; [reflexivity|].
  cbn [lstrip]. destruct (is_space c) eqn:Ec; [exact IH|].
  cbn [lstrip]. now rewrite Ec.
Qed.

Lemma lstrip_fixed_head (c : ascii) (s : string) :
  lstrip (String c s) = String c s -> is_space c = false.
Proof.
  cbn [lstrip]. destruct (is_space c); [|reflexivity].
  intros H. pose proof (lstrip_length s) as L. rewrite H in L.
  cbn [String.length] in L. lia.
Qed.

Lemma lstrip_rstrip (s : string) :
  lstrip s = s -> lstrip (rstrip s) = rstrip s.
Proof.
  destruct s as [|c s]; [reflexivity|]. intros H.
  pose proof (lstrip_fixed_head H) as Ec.
  cbn [rstrip all_space]. rewrite Ec. cbn [andb lstrip]. now rewrite Ec.
Qed.

Lemma rstrip_not_blank (s : string) :
  all_space s = false -> all_space (rstrip s) = false.
Proof.
  induction s as [|c s IH]; intros H; [discriminate|].
  cbn [rstrip]. rewrite H. cbn [all_space] in *.
  destruct (is_space c); [|reflexivity]. cbn [andb] in *. now apply IH.
Qed.

Lemma rstrip_idem (s : string) : rstrip (rstrip s) = rstrip s.
Proof.
  induction s as [|c s IH]; [reflexivity|].
  cbn [rstrip]. destruct (all_space (String c s)) eqn:Ea; [reflexivity|].
  cbn [rstrip].
  assert (E : all_space (String c (rstrip s)) = false).
  { cbn [all_space] in *. destruct (is_space c); [|reflexivity].
    cbn [andb] in *. now apply rstrip_not_blank. }
  rewrite E, IH. reflexivity.
Qed.

Lemma strip_idem (s : string) : strip (strip s) = strip s.
Proof.
  unfold strip. rewrite (lstrip_rstrip (lstrip_idem s)). apply rstrip_idem.
Qed.

(** [re.sub(r'\s+', ' ', s).strip()] gives a fixed point of itself. *)
Lemma tidy_fixed (s : string) :
  let u := strip (collapse_ws false s) in
  collapse_ws false u = u /\ strip u = u.
Proof.
  intros u. split; [|apply strip_idem].
  apply single_collapse. unfold u, strip.
  apply rstrip_single. eapply lstrip_single. apply collapse_single.
Qed.

(** ** Lower case and the characters kept *)

Lemma lower_idem (s : string) : lower (lower s) = lower s.
Proof.
  induction s as [|c s IH]; [reflexivity|].
  cbn [lower]. now rewrite lower_char_idem, IH.
Qed.

Lemma lower_collapse (s : string) (b : bool) :
  lower (collapse_ws b s) = collapse_ws b (lower s).
Proof.
  revert b. induction s as [|c s IH]; intros b; [reflexivity|].
  cbn [collapse_ws lower]. rewrite is_space_lower.
  destruct (is_space c); [destruct b|]; cbn [lower]; now rewrite ?IH.
Qed.

Lemma lower_lstrip (s : string) : lower (lstrip s) = lstrip (lower s).
Proof.
  induction s as [|c s IH]; [reflexivity|].
  cbn [lstrip lower]. rewrite is_space_lower.
  destruct (is_space c); [exact IH|reflexivity].
Qed.

Lemma all_space_lower (s : string) : all_space (lower s) = all_space s.
Proof.
  induction s as [|c s IH]; [reflexivity|].
  cbn [all_space lower]. now rewrite is_space_lower, IH.
Qed.

Lemma lower_rstrip (s : string) : lower (rstrip s) = rstrip (lower s).
Proof.
  induction s as [|c s IH]; [reflexivity|].
  cbn [rstrip]. change (lower (String c s)) with (String (lower_char c) (lower s)).
  cbn [rstrip]. change (String (lower_char c) (lower s)) with (lower (String c s)).
  rewrite all_space_lower.
  destruct (all_space (String c s)); [reflexivity|].
  cbn [lower]. now rewrite IH.
Qed.

Lemma lower_strip (s : string) : lower (strip s) = strip (lower s).
Proof. unfold strip. now rewrite lower_rstrip, lower_lstrip. Qed.

Lemma lower_sub_punct (s : string) : lower (sub_punct s) = sub_punct (lower s).
Proof.
  induction s as [|c s IH]; [reflexivity|].
  cbn [sub_punct lower]. now rewrite lower_sub_char, IH.
Qed.

Lemma sub_punct_kept (s : string) : all_chars kept_char (sub_punct s) = true.
Proof.
  induction s as [|c s IH]; [reflexivity|].
  cbn [sub_punct all_chars]. now rewrite kept_sub_char, IH.
Qed.

Lemma kept_sub_punct (s : string) :
  all_chars kept_char s = true -> sub_punct s = s.
Proof.
  induction s as [|c s IH]; intros H; [reflexivity|].
  cbn [all_chars sub_punct] in *. apply andb_true_iff in H.
  destruct H as [Hc Hs]. unfold kept_char in Hc. now rewrite Hc, IH.
Qed.

Lemma collapse_kept (s : string) (b : bool) :
  all_chars kept_char s = true ->
  all_chars kept_char (collapse_ws b s) = true.
Proof.
  revert b. induction s as [|c s IH]; intros b H; [reflexivity|].
  cbn [all_chars collapse_ws] in *. apply andb_true_iff in H.
  destruct H as [Hc Hs].
  destruct (is_space c); [destruct b|]; cbn [all_chars];
    rewrite ?Hc, ?IH by assumption; reflexivity.
Qed.

Lemma lstrip_kept (s : string) :
  all_chars kept_char s = true -> all_chars kept_char (lstrip s) = true.
Proof.
  induction s as [|c s IH]; intros H; [reflexivity|].
  cbn [lstrip]. destruct (is_space c); [|exact H].
  cbn [all_chars] in H. apply andb_true_iff in H. now apply IH.
Qed.

Lemma rstrip_kept (s : string) :
  all_chars kept_char s = true -> all_chars kept_char (rstrip s) = true.
Proof.
  induction s as [|c s IH]; intros H; [reflexivity|].
  cbn [rstrip]. destruct (all_space (String c s)); [reflexivity|].
  cbn [all_chars] in *. apply andb_true_iff in H. destruct H as [Hc Hs].
  now rewrite Hc, IH.
Qed.

(** X24.  [_preprocess_query] is a normaliser: on every string it returns a
    string that each of its steps leaves alone (lower-casing, collapsing the
    blanks, stripping, replacing the punctuation), so that preprocessing a
    preprocessed query changes nothing. *)
Theorem preprocess_normal_form (query : string) :
  exists p,
    _preprocess_query (PyStr query) = Ok p /\
    lower p = p /\
    collapse_ws false p = p /\
    strip p = p /\
    sub_punct p = p /\
    single_spaced false p = true /\
    all_chars kept_char p = true /\
    _preprocess_query (PyStr p) = Ok p.
Proof.
  set (t := sub_punct (strip (collapse_ws false (lower query)))).
  set (p := strip (collapse_ws false t)).
  exists p.
  assert (Hlow : lower p = p).
  { unfold p, t.
    rewrite lower_strip, lower_collapse, lower_sub_punct, lower_strip,
      lower_collapse, lower_idem. reflexivity. }
  destruct (tidy_fixed t) as [Hc Hs]. fold p in Hc, Hs.
  assert (Hk : all_chars kept_char p = true).
  { unfold p, strip. apply rstrip_kept, lstrip_kept, collapse_kept.
    apply sub_punct_kept. }
  assert (Hp : sub_punct p = p) by now apply kept_sub_punct.
  assert (Hss : single_spaced false p = true).
  { unfold p, strip. apply rstrip_single. eapply lstrip_single.
    apply collapse_single. }
  split; [reflexivity|].
  repeat (split; [assumption|]).
  unfold _preprocess_query. now rewrite Hlow, Hc, Hs, Hp, Hc, Hs.
Qed.

End PreprocessFacts.


(* ================================================================== *)
(** * Facts about the spatial processor *)
(* ================================================================== *)

Module SpatialFacts.
Import Py SpatialProcessor PyFacts QueryHelpFacts.
Local Open Scope string_scope.

(** ** Parsing *)

Lemma extract_location_found (query location : string) :
  _extract_location query = Some location ->
  contains location query = true /\
  exists data, get String.eqb location_database location = Some data /\
               lookup location = Returned data.
Proof.
  unfold _extract_location. intros H. apply find_some in H.
  destruct H as [Hin Hc]. split; [exact Hc|].
  cbn in Hin.
  destruct Hin as [<-|[<-|[<-|[<-|[<-|[]]]]]];
    eexists; split; reflexivity.
Qed.

Lemma no_location_no_area (query : string) :
  _extract_location query = None -> _extract_area_query query = Returned None.
Proof.
  unfold _extract_location, _extract_area_query. intros ->.
  now destruct (any_in area_keywords query).
Qed.

Lemma no_location_no_buffer
      (search_buffer : string -> option (Q * string)) (query : string) :
  _extract_location query = None ->
  _extract_buffer_query search_buffer query = Returned None.
Proof.
  unfold _extract_buffer_query. intros ->.
  now destruct (search_buffer query) as [[d u]|].
Qed.

Section Parse.
Variable default_crs : string.
Variable search_coordinates : string -> option (Q * string * Q * string).
Variable search_buffer : string -> option (Q * string).

Lemma extract_coordinates_none (query : string) :
  _extract_coordinates search_coordinates query = None <->
  search_coordinates query = None.
Proof.
  unfold _extract_coordinates.
  destruct (search_coordinates query) as [[[[lat lat_dir] lon] lon_dir]|];
    split; intros H; try discriminate; reflexivity.
Qed.

(** X25.  [_parse_spatial_query] never fails on a location that is missing
    from the database, and whatever the two regular expressions find it
    returns either nothing or a point query in the default reference system:
    a query that names a location of the database gets the point of the first
    such location in database order, also when it asks for an area or a
    buffer, and a query that names none can only get the point of its
    coordinates, since the area and the buffer need a location too.  So the
    polygon and the buffer queries are never built, and nothing is returned
    exactly when the query names no location and holds no coordinates. *)
Theorem parse_spatial_query_point (query_text : string) :
  let query_lower := lower query_text in
  exists r,
    _parse_spatial_query default_crs search_coordinates search_buffer query_text
      = Returned r /\
    (forall q, r = Some q ->
       query_type q = "point" /\ crs q = default_crs /\
       exists x y, geometry q = Point x y) /\
    (r = None <->
       _extract_location query_lower = None /\
       search_coordinates query_lower = None) /\
    (forall location, _extract_location query_lower = Some location ->
       contains location query_lower = true /\
       exists data,
         get String.eqb location_database location = Some data /\
         r = Some {| query_type := "point";
                     geometry := Point (fst (coordinates data))
                                       (snd (coordinates data));
                     crs := default_crs;
                     parameters := LocationParameters location data |}) /\
    (_extract_location query_lower = None ->
       r = option_map (_create_coordinate_query default_crs)
                      (_extract_coordinates search_coordinates query_lower)).
Proof.
  intros query_lower. unfold _parse_spatial_query. fold query_lower.
  destruct (_extract_location query_lower) as [location|] eqn:El.
  - destruct (extract_location_found _ El) as (Hc & data & Hg & Hl).
    unfold _create_location_query. rewrite Hl.
    eexists. split; [reflexivity|]. split; [|split; [|split]].
    + intros q [= <-]. cbn. repeat split. eauto.
    + split; [discriminate|]. intros [H _]. discriminate.
    + intros l [= <-]. split; [exact Hc|]. exists data. split; [exact Hg|reflexivity].
    + discriminate.
  - destruct (_extract_coordinates search_coordinates query_lower) as [c|] eqn:Ec.
    + eexists. split; [reflexivity|]. split; [|split; [|split]].
      * intros q [= <-]. cbn. repeat split. eauto.
      * split; [discriminate|]. intros [_ H].
        apply extract_coordinates_none in H. congruence.
      * discriminate.
      * reflexivity.
    + rewrite (no_location_no_area _ El), (no_location_no_buffer _ _ El).
      eexists. split; [reflexivity|]. split; [|split; [|split]].
      * discriminate.
      * split; [|reflexivity]. intros _. split; [reflexivity|].
        now apply extract_coordinates_none.
      * discriminate.
      * reflexivity.
Qed.

End Parse.

Lemma parse_spatial_query_point_witness :
  _extract_location (lower "Data for the Chennai region within 5 km from Delhi")
    = Some "delhi" /\
  exists r,
    _parse_spatial_query "EPSG:4326" (fun _ => None)
      (fun _ => Some ((5 # 1)%Q, "km"))
      "Data for the Chennai region within 5 km from Delhi" = Returned r /\
    exists q, r = Some q /\ query_type q = "point".
Proof.
  split; [reflexivity|].
  destruct (@parse_spatial_query_point "EPSG:4326" (fun _ => None)
              (fun _ => Some ((5 # 1)%Q, "km"))
              "Data for the Chennai region within 5 km from Delhi")
    as (r & Hr & _ & _ & Hl & _).
  exists r. split; [exact Hr|].
  destruct (Hl "delhi" eq_refl) as (_ & data & _ & E).
  eexists. split; [exact E|reflexivity].
Defined.

(** ** Suggestions *)

Lemma suggestions_NoDup : NoDup suggestions.
Proof.
  unfold suggestions.
  repeat (constructor; [cbn [In]; intuition discriminate|]). constructor.
Qed.

Section Suggest.
Variable query : string.

Let matched : list string :=
  filter (QueryProcessor.suggestion_matches (lower query)) suggestions.
Let others : list string :=
  filter (fun s => negb (QueryProcessor.suggestion_matches (lower query) s))
         suggestions.

Lemma spatial_matched_others_length : length matched + length others = 6.
Proof.
  unfold matched, others. rewrite filter_partition_length. reflexivity.
Qed.

Lemma spatial_add_first_missing_next (k : nat) :
  k < length others ->
  add_first_missing (matched ++ firstn k others) =
  (matched ++ firstn (S k) others)%list.
Proof.
  intros Hk. unfold add_first_missing.
  pose proof (@find_missing (QueryProcessor.suggestion_matches (lower query))
                suggestions suggestions_NoDup matched k) as F.
  fold others in F. rewrite F.
  - destruct (nth_error others k) as [x|] eqn:E.
    + rewrite <- app_assoc. f_equal. now apply firstn_snoc.
    + apply nth_error_None in E. lia.
  - intros x Hx Px. unfold matched. apply filter_In. now split.
  - intros x Hx Px Hm. unfold matched in Hm. apply filter_In in Hm.
    destruct Hm as [_ Hm]. congruence.
Qed.

(** The loop ends once three suggestions are there. *)
Lemma spatial_fill_from (fuel : nat) (k : nat) :
  k <= length others ->
  3 - (length matched + k) <= fuel ->
  fill_suggestions fuel (matched ++ firstn k others) =
  Some (matched ++ firstn (Nat.max k (3 - length matched)) others)%list.
Proof.
  pose proof spatial_matched_others_length as L6.
  revert k. induction fuel as [|fuel IH]; intros k Hk Hf.
  - cbn [fill_suggestions].
    rewrite length_app, length_firstn, Nat.min_l by exact Hk.
    destruct (Nat.ltb_spec (length matched + k) 3) as [Hl|Hl]; [lia|].
    do 3 f_equal. lia.
  - cbn [fill_suggestions].
    rewrite length_app, length_firstn, Nat.min_l by exact Hk.
    destruct (Nat.ltb_spec (length matched + k) 3) as [Hl|Hl].
    + assert (Hk' : k < length others) by lia.
      rewrite (spatial_add_first_missing_next Hk'). rewrite IH by lia.
      do 3 f_equal. lia.
    + do 3 f_equal. lia.
Qed.

End Suggest.

(** X26.  [get_spatial_suggestions] ends for every query, its loop running
    at most three times, and returns exactly three suggestions of its table,
    without repetition: the first three of the table reordered so that the
    entries sharing a word with the query come first, each group in table
    order. *)
Theorem spatial_suggestions_result (fuel : nat) (query : string) :
  3 <= fuel ->
  let matched :=
    filter (QueryProcessor.suggestion_matches (lower query)) suggestions in
  let others :=
    filter (fun s => negb (QueryProcessor.suggestion_matches (lower query) s))
           suggestions in
  exists r,
    get_spatial_suggestions fuel query = Some r /\
    r = firstn 3 (matched ++ others) /\
    length r = 3 /\
    NoDup r /\
    (forall s, In s r -> In s suggestions).
Proof.
  intros Hf matched others.
  pose proof (spatial_matched_others_length query) as L6.
  fold matched others in L6.
  assert (Er : get_spatial_suggestions fuel query =
               Some (firstn 3 (matched ++ others))).
  { unfold get_spatial_suggestions. fold matched.
    pose proof (@spatial_fill_from query fuel 0) as F.
    fold matched others in F. cbn [firstn] in F. rewrite app_nil_r in F.
    rewrite F by lia. f_equal.
    rewrite !firstn_app, firstn_firstn. do 2 f_equal. lia. }
  exists (firstn 3 (matched ++ others)).
  split; [exact Er|]. split; [reflexivity|].
  assert (ND : NoDup (matched ++ others)).
  { apply NoDup_app.
    - apply NoDup_filter, suggestions_NoDup.
    - apply NoDup_filter, suggestions_NoDup.
    - intros a Ha Hb. unfold matched in Ha. unfold others in Hb.
      apply filter_In in Ha. apply filter_In in Hb.
      destruct Ha as [_ Ha]. destruct Hb as [_ Hb]. rewrite Ha in Hb.
      discriminate. }
  split; [|split].
  - rewrite length_firstn, length_app, L6. reflexivity.
  - now apply firstn_NoDup.
  - intros s Hs. apply firstn_In in Hs. apply in_app_or in Hs.
    destruct Hs as [Hs|Hs]; apply filter_In in Hs; tauto.
Qed.

Lemma spatial_suggestions_result_witness :
  3 <= 3 /\
  exists r,
    get_spatial_suggestions 3 "coverage of chennai" = Some r /\
    length r = 3 /\
    NoDup r.
Proof.
  split; [lia|].
  destruct (@spatial_suggestions_result 3 "coverage of chennai" ltac:(lia))
    as (r & Hr & _ & Hlen & Hnd & _).
  exists r. repeat split; assumption.
Defined.

End SpatialFacts.

(* ================================================================== *)
(** * Facts about the classification of URLs *)
(* ================================================================== *)

Module ScraperFacts.
Import Py MOSDACScraper PyFacts QueryHelpFacts PreprocessFacts.
Local Open Scope string_scope.

Lemma any_in_extend (words : list string) (before s after : string) :
  any_in words s = true -> any_in words (before ++ s ++ after) = true.
Proof.
  unfold any_in. rewrite !existsb_exists. intros (w & Hw & Hc).
  exists w. split; [exact Hw|].
  apply contains_app_r. now apply contains_app_l.
Qed.

(** X27.  [_classify_content] gives one of the four kinds, the same for a URL
    and for its lower-case form; and since the patterns are looked for
    anywhere in the URL, in the order faq, data, api, a longer URL is never
    classified later in that order than a part of it: a URL that holds a FAQ
    pattern is a FAQ page whatever else it holds. *)
Theorem classify_content_order (url : string) :
  In (_classify_content url) ["faq"; "data"; "api"; "general"] /\
  _classify_content (lower url) = _classify_content url /\
  (forall before after,
     precedence (_classify_content (before ++ url ++ after))
     <= precedence (_classify_content url)) /\
  (any_in faq_patterns (lower url) = true ->
   forall before after, _classify_content (before ++ url ++ after) = "faq").
Proof.
  split; [|split; [|split]].
  - unfold _classify_content.
    destruct (any_in faq_patterns (lower url)); [cbn; tauto|].
    destruct (any_in data_patterns (lower url)); [cbn; tauto|].
    destruct (any_in api_patterns (lower url)); cbn; tauto.
  - unfold _classify_content. now rewrite lower_idem.
  - intros before after. unfold _classify_content. rewrite !lower_app.
    destruct (any_in faq_patterns (lower url)) eqn:F.
    { rewrite (any_in_extend _ (lower before) _ (lower after) F).
      cbn. lia. }
    destruct (any_in data_patterns (lower url)) eqn:D.
    { rewrite (any_in_extend _ (lower before) _ (lower after) D).
      destruct (any_in faq_patterns (lower before ++ _)); cbn; lia. }
    destruct (any_in api_patterns (lower url)) eqn:A.
    { rewrite (any_in_extend _ (lower before) _ (lower after) A).
      destruct (any_in faq_patterns (lower before ++ _)); [cbn; lia|].
      destruct (any_in data_patterns (lower before ++ _)); cbn; lia. }
    destruct (any_in faq_patterns (lower before ++ _)); [cbn; lia|].
    destruct (any_in data_patterns (lower before ++ _)); [cbn; lia|].
    destruct (any_in api_patterns (lower before ++ _)); cbn; lia.
  - intros F before after. unfold _classify_content. rewrite !lower_app.
    now rewrite (any_in_extend _ (lower before) _ (lower after) F).
Qed.

Lemma classify_content_order_witness :
  any_in faq_patterns (lower "/Help") = true /\
  _classify_content ("https://www.mosdac.gov.in" ++ "/Help" ++ "/data/download")
    = "faq".
Proof.
  split; [reflexivity|].
  destruct (classify_content_order "/Help") as (_ & _ & _ & H).
  exact (H eq_refl "https://www.mosdac.gov.in" "/data/download").
Defined.

End ScraperFacts.
